(** * multiprop: the metric logger (src/logger.py)

    A shallow embedding of the [Logger] class: the Python values it stores,
    the builtins it calls, and its methods as state transformers over the
    logger's [logs] attribute, the terminal and the file system.  Exceptions
    are results of their own: a method that raises leaves the state it had
    reached, as in Python.

    The values are those a log can hold and JSON reads back as it wrote
    them: [None], numbers, strings, lists and dicts with string keys.  A
    float is read as the rational it denotes, so [nan] and the infinities
    are left out.  Objects are modelled by their values: the methods hold no
    second reference to a list they mutate, and a caller hands the logger no
    object the logger already holds.

    The libraries the logger calls are not part of it.  [numpy], [round]
    and matplotlib are taken as they come, as functions that answer or
    raise; the operating system decides which paths [open] accepts; [json]
    is modelled by the conversion table of its documentation, on documents
    as trees.  The limits of the interpreter (memory, recursion depth) are
    left out. *)

From Stdlib Require Import ZArith QArith Qround Lia.
From stdpp Require Import base option list strings gmap.

Local Open Scope string_scope.
Local Open Scope nat_scope.
Local Set Warnings "-register-all".

(** ** Python values and exceptions *)

Module Py.

(** The exceptions the modelled code can raise, and, by the name of its
    class, any other one a library raises. *)
Inductive exn :=
| ValueError | IndexError | KeyError | TypeError | AttributeError
| AssertionError | FileNotFoundError | JSONDecodeError
| Other (name : string).

(** The outcome of an expression: a value, or an exception raised. *)
Inductive result (A : Type) :=
| Ok (a : A)
| Raise (e : exn).
Arguments Ok {A} a.
Arguments Raise {A} e.

Definition rbind {A B} (r : result A) (k : A -> result B) : result B :=
  match r with Ok a => k a | Raise e => Raise e end.

Definition is_ok {A} (r : result A) : bool :=
  match r with Ok _ => true | Raise _ => false end.

(** [list(map(f, l))] for an [f] that may raise: left to right, stopping at
    the first exception. *)
Fixpoint rmap {A B} (f : A -> result B) (l : list A) : result (list B) :=
  match l with
  | [] => Ok []
  | x :: r => rbind (f x) (fun y => rbind (rmap f r) (fun ys => Ok (y :: ys)))
  end.

(** A [dict] keeps its items in insertion order, one per key. *)
Fixpoint dict_get {V} (k : string) (d : list (string * V)) : option V :=
  match d with
  | [] => None
  | (k', v) :: r => if String.eqb k' k then Some v else dict_get k r
  end.

(** [d[k] = v]: in place when [k] is a key of [d], else a new last item. *)
Fixpoint dict_set {V} (k : string) (v : V) (d : list (string * V)) :
  list (string * V) :=
  match d with
  | [] => [(k, v)]
  | (k', v') :: r =>
      if String.eqb k' k then (k', v) :: r else (k', v') :: dict_set k v r
  end.

(** [dict(items)]: a key that comes again keeps its place and takes the
    new value. *)
Definition dict_of_items {V} (items : list (string * V)) : list (string * V) :=
  fold_left (fun d kv => dict_set (fst kv) (snd kv) d) items [].

(** The values the logger handles.  [VDict true d] is a
    [defaultdict(list)], [VDict false d] a plain [dict]; keys are strings,
    as in the JSON files the logger writes.  Floats are read as the
    rationals they denote. *)
Inductive pyval :=
| VNone
| VInt (n : Z)
| VFloat (x : Q)
| VStr (s : string)
| VList (l : list pyval)
| VDict (factory : bool) (d : list (string * pyval)).

Definition Qltb (x y : Q) : bool :=
  match Qcompare x y with Lt => true | _ => false end.

(** Python's [a == b]: numbers by value, sequences element by element, dicts
    by their items whatever the order and the dict's class. *)
Fixpoint py_eq (a b : pyval) : bool :=
  match a, b with
  | VNone, VNone => true
  | VInt m, VInt n => (m =? n)%Z
  | VInt m, VFloat y => Qeq_bool (inject_Z m) y
  | VFloat x, VInt n => Qeq_bool x (inject_Z n)
  | VFloat x, VFloat y => Qeq_bool x y
  | VStr s, VStr t => String.eqb s t
  | VList l, VList l' =>
      (fix go (l l' : list pyval) : bool :=
         match l, l' with
         | [], [] => true
         | x :: r, y :: r' => py_eq x y && go r r'
         | _, _ => false
         end) l l'
  | VDict _ d, VDict _ d' =>
      (length d =? length d')%nat &&
      (fix go (d : list (string * pyval)) : bool :=
         match d with
         | [] => true
         | (k, v) :: r =>
             match dict_get k d' with
             | Some v' => py_eq v v'
             | None => false
             end && go r
         end) d
  | _, _ => false
  end.

(** Python's [a < b]: defined on numbers, on strings and on lists
    (lexicographic); a [TypeError] elsewhere. *)
Fixpoint py_lt (a b : pyval) : result bool :=
  match a, b with
  | VInt m, VInt n => Ok (m <? n)%Z
  | VInt m, VFloat y => Ok (Qltb (inject_Z m) y)
  | VFloat x, VInt n => Ok (Qltb x (inject_Z n))
  | VFloat x, VFloat y => Ok (Qltb x y)
  | VStr s, VStr t => Ok (String.ltb s t)
  | VList l, VList l' =>
      (fix go (l l' : list pyval) : result bool :=
         match l, l' with
         | [], [] => Ok false
         | [], _ :: _ => Ok true
         | _ :: _, [] => Ok false
         | x :: r, y :: r' => if py_eq x y then go r r' else py_lt x y
         end) l l'
  | _, _ => Raise TypeError
  end.

(** [a > b] is the reflected [b < a] on every type of the model. *)
Definition py_gt (a b : pyval) : result bool := py_lt b a.

(** Truth value testing: [None], zero and empty containers are false. *)
Definition truthy (v : pyval) : bool :=
  match v with
  | VNone => false
  | VInt n => negb (n =? 0)%Z
  | VFloat x => negb (Qeq_bool x 0)
  | VStr s => negb (String.eqb s "")
  | VList l => negb (bool_decide (l = []))
  | VDict _ d => negb (bool_decide (d = []))
  end.

(** Iterating a value: the items of a list, the characters of a string, the
    keys of a dict. *)
Fixpoint chars (s : string) : list pyval :=
  match s with
  | EmptyString => []
  | String c r => VStr (String c EmptyString) :: chars r
  end.

Definition py_iter (v : pyval) : result (list pyval) :=
  match v with
  | VList l => Ok l
  | VStr s => Ok (chars s)
  | VDict _ d => Ok (map (fun kv => VStr (fst kv)) d)
  | _ => Raise TypeError
  end.

(** The sequences that can be sliced and indexed by position: lists and
    strings.  Subscripting anything else with a slice raises. *)
Definition py_seq (v : pyval) : result (list pyval) :=
  match v with
  | VList l => Ok l
  | VStr s => Ok (chars s)
  | _ => Raise TypeError
  end.

(** [v[k]] for a string key, on a value that is not being mutated: a plain
    dict looks the key up, a [defaultdict(list)] answers a missing key with
    a new empty list. *)
Definition py_subscript (v : pyval) (k : string) : result pyval :=
  match v with
  | VDict f d =>
      match dict_get k d with
      | Some x => Ok x
      | None => if f then Ok (VList []) else Raise KeyError
      end
  | _ => Raise TypeError
  end.

(** [l.index(x)]: the position of the first item equal to [x]. *)
Fixpoint index (x : pyval) (l : list pyval) : result nat :=
  match l with
  | [] => Raise ValueError
  | y :: r => if py_eq y x then Ok 0%nat else rbind (index x r) (fun i => Ok (S i))
  end.

(** [l[i]] for a position [i >= 0]. *)
Definition item (l : list pyval) (i : nat) : result pyval :=
  match l !! i with Some x => Ok x | None => Raise IndexError end.

(** [slice(start, stop)] with both ends non-negative, and [l[start:stop]]. *)
Record slice := Slice { start : nat; stop : nat }.

Definition get_slice (l : list pyval) (s : slice) : list pyval :=
  take (stop s - start s) (drop (start s) l).

(** [max(it)]: the first of the greatest items; [ValueError] on an empty
    iterable. *)
Fixpoint max_from (cur : pyval) (l : list pyval) : result pyval :=
  match l with
  | [] => Ok cur
  | x :: r => rbind (py_gt x cur) (fun b => max_from (if b then x else cur) r)
  end.

Definition py_max (it : pyval) : result pyval :=
  rbind (py_iter it) (fun l =>
    match l with
    | [] => Raise ValueError
    | x :: r => max_from x r
    end).

(** [min(l, key=key)] over positions [l]: the first position whose key is
    least; each key is computed when its position is reached. *)
Fixpoint argmin_key (key : nat -> result pyval) (best : nat) (bv : pyval)
  (l : list nat) : result nat :=
  match l with
  | [] => Ok best
  | i :: r =>
      rbind (key i) (fun x =>
      rbind (py_lt x bv) (fun b =>
        if b then argmin_key key i x r else argmin_key key best bv r))
  end.

Definition min_key (key : nat -> result pyval) (l : list nat) : result nat :=
  match l with
  | [] => Raise ValueError
  | i :: r => rbind (key i) (fun x => argmin_key key i x r)
  end.

(** [np.argmax(v)] on a list of numbers: the first position of the greatest
    one, [ValueError] on an empty list.  What numpy answers on other values
    is outside the model, which raises. *)
Definition as_number (v : pyval) : result Q :=
  match v with
  | VInt n => Ok (inject_Z n)
  | VFloat x => Ok x
  | _ => Raise TypeError
  end.

Fixpoint argmax_from (best : nat) (bv : Q) (i : nat) (l : list Q) : nat :=
  match l with
  | [] => best
  | x :: r =>
      if Qltb bv x then argmax_from i x (S i) r else argmax_from best bv (S i) r
  end.

Definition np_argmax (v : pyval) : result nat :=
  match v with
  | VList l =>
      rbind (rmap as_number l) (fun xs =>
        match xs with
        | [] => Raise ValueError
        | x :: r => Ok (argmax_from 0 x 1 r)
        end)
  | _ => Raise TypeError
  end.

(** [itertools.zip_longest] over the lists [ls] with [fillvalue=fill]: one
    row per round, made of the next item of every list, [fill] standing for an exhausted one;
    it stops when every list is exhausted.  The longest list bounds the
    number of rounds. *)
Fixpoint zip_longest_rounds {A} (n : nat) (fill : A) (ls : list (list A)) :
  list (list A) :=
  match n with
  | O => []
  | S n' =>
      if forallb (fun l => bool_decide (length l = 0%nat)) ls then []
      else map (fun l => hd fill l) ls :: zip_longest_rounds n' fill (map (@tl A) ls)
  end.

Definition zip_longest {A} (fill : A) (ls : list (list A)) : list (list A) :=
  zip_longest_rounds (list_max (map length ls)) fill ls.

(** [range(1, n + 1)] for the value [n]: only an [int] can be a bound. *)
Definition range_from_1 (n : pyval) : result (list Z) :=
  match n with
  | VInt n => Ok (map (fun i => Z.of_nat i) (seq 1 (Z.to_nat n)))
  | _ => Raise TypeError
  end.

End Py.

(** ** The logger *)

Module Logger.
Import Py.

(** What [print(template.format(args))] sends to the terminal. *)
Record line := Line { template : string; args : list pyval }.

(** A call of matplotlib: the function, as the source names it, with its
    positional and its keyword arguments.  Among the arguments a [range]
    stands as the list of its items, a tuple as a list, and a line that
    [plt.plot] answered as its label. *)
Record call := Call {
  function : string;
  arguments : list pyval;
  keywords : list (string * pyval)
}.

(** The state a method runs in: the logger's [logs] attribute, the lines
    printed so far and the calls of matplotlib made so far. *)
Record world := World { logs : pyval; stdout : list line; drawn : list call }.

Definition set_logs (v : pyval) (w : world) : world :=
  World v (stdout w) (drawn w).

(** The colour attributes [__init__] sets; nothing assigns them again. *)
Definition train_col : string := "lightseagreen".
Definition valid_col : string := "mediumslateblue".
Definition test_col : string := "orangered".
Definition alt_col : string := "crimson".

(** A method body: it ends with a value or an exception, and with the state
    reached either way. *)
Definition M (A : Type) : Type := world -> result A * world.

Definition ret {A} (a : A) : M A := fun w => (Ok a, w).
Definition raise {A} (e : exn) : M A := fun w => (Raise e, w).
Definition lift {A} (r : result A) : M A := fun w => (r, w).

Definition bind {A B} (c : M A) (k : A -> M B) : M B :=
  fun w =>
    match c w with
    | (Ok a, w') => k a w'
    | (Raise e, w') => (Raise e, w')
    end.

Declare Scope logger_scope.
Delimit Scope logger_scope with logger.
Notation "x <- c ;; k" := (bind c (fun x => k))
  (at level 100, c at next level, right associativity) : logger_scope.
Notation "c ;;; k" := (bind c (fun _ => k))
  (at level 100, right associativity) : logger_scope.
Local Open Scope logger_scope.

(** [for x in l: body(x)]. *)
Fixpoint for_each {A} (body : A -> M unit) (l : list A) : M unit :=
  match l with
  | [] => ret tt
  | x :: r => body x ;;; for_each body r
  end.

(** [print(...)]. *)
Definition py_print (t : string) (a : list pyval) : M unit :=
  fun w => (Ok tt, World (logs w) (stdout w ++ [Line t a]) (drawn w)).

(** [self.logs[k]]: a [defaultdict(list)] stores a new empty list under a
    missing key and answers it; a plain dict raises [KeyError]. *)
Definition logs_getitem (k : string) : M pyval :=
  fun w =>
    match logs w with
    | VDict f d =>
        match dict_get k d with
        | Some v => (Ok v, w)
        | None =>
            if f then (Ok (VList []), set_logs (VDict f (d ++ [(k, VList [])])) w)
            else (Raise KeyError, w)
        end
    | _ => (Raise TypeError, w)
    end.

(** [self.logs = v]. *)
Definition logs_assign (v : pyval) : M unit :=
  fun w => (Ok tt, set_logs v w).

(** [self.logs[k] = v]. *)
Definition logs_setitem (k : string) (v : pyval) : M unit :=
  fun w =>
    match logs w with
    | VDict f d => (Ok tt, set_logs (VDict f (dict_set k v d)) w)
    | _ => (Raise TypeError, w)
    end.

(** [self.logs[k].append(arg)], in Python's order: the entry is fetched
    (and made, by a defaultdict), its [append] is looked up, the argument is
    evaluated, and the list stored under [k] grows by it. *)
Definition logs_append (k : string) (arg : result pyval) : M unit :=
  e <- logs_getitem k ;;
  match e with
  | VList l => x <- lift arg ;; logs_setitem k (VList (l ++ [x]))
  | _ => raise AttributeError
  end.

(** [Logger(info)]. *)
Definition init (info : pyval) : world :=
  World (VDict true [("info", info)]) [] [].

Definition sample_sets : list string := ["train"; "valid"; "test"].

(** [results_dict[k][field]]. *)
Definition results_field (results_dict : list (string * pyval))
  (k field : string) : result pyval :=
  match dict_get k results_dict with
  | Some e => py_subscript e field
  | None => Raise KeyError
  end.

(** The body of the loop of [log], for one item of [results_dict]. *)
Definition log_item (results_dict : list (string * pyval))
  (kv : string * pyval) : M unit :=
  let (k, v) := kv in
  if bool_decide (k ∈ sample_sets) then
    logs_append (k ++ "_loss") (results_field results_dict k "loss") ;;;
    logs_append (k ++ "_roc") (results_field results_dict k "roc")
  else
    logs_append k (Ok v).

(** [Logger.log(results_dict)], over the items of the dict in their order. *)
Definition log (results_dict : list (string * pyval)) : M unit :=
  for_each (log_item results_dict) results_dict.

(** [Logger.run_slice(run, run_list)]. *)
Definition run_slice (run : pyval) (run_list : list pyval) : result slice :=
  rbind (index run run_list) (fun run_start =>
  rbind (index run (reverse run_list)) (fun j =>
  let run_end := (length run_list - j)%nat in
  Ok (Slice run_start run_end))).

(** [self.logs[k][s]] for a slice [s]. *)
Definition logs_slice (k : string) (s : slice) : M (list pyval) :=
  e <- logs_getitem k ;;
  l <- lift (py_seq e) ;;
  ret (get_slice l s).

(** The run [plot_run] settles on: the one asked for or, when none is,
    the one logged at the position [np.argmax] finds in the validation
    losses. *)
Definition chosen_run (run runs_v : pyval) : M pyval :=
  if negb (truthy run) then
    vl <- logs_getitem "valid_loss" ;;
    best_valid_loss_idx <- lift (np_argmax vl) ;;
    runs <- lift (py_seq runs_v) ;;
    lift (item runs best_valid_loss_idx)
  else ret run.

(** *** Methods that call the libraries

    [np.mean], [np.std] and [round] compute in floating point, [json] reads
    and writes text, matplotlib draws: the methods below take them as they
    come, as functions that answer a value or raise.  A file holds a
    complete document, or what an interrupted [json.dump] left of one. *)

Inductive file (document : Type) :=
| Complete (doc : document)
| Partial.
Arguments Complete {document} doc.
Arguments Partial {document}.

(** [filepath.endswith(suffix)]. *)
Definition endswith (s suffix : string) : bool :=
  let n := String.length s in
  let m := String.length suffix in
  (m <=? n)%nat && String.eqb (String.substring (n - m) m s) suffix.

Section Libraries.

Variable np_mean np_std : list pyval -> result pyval.
Variable py_round : pyval -> pyval -> result pyval.
Variable document : Type.

(** [json.dump] answers the document it writes, or raises; [json.load]
    reads a document, or finds none in the text. *)
Variable json_dumps : pyval -> result document.
Variable json_loads : document -> option pyval.

(** The exception with which the operating system refuses to open a path,
    if it does: for a directory that does not exist, a path that is a
    directory, a permission denied.  No method makes a directory or changes
    a permission, so the answer for a path stays what it is; it is taken to
    be the same for reading and for writing, which leaves out the file that
    may be written but not read.  A file that is not there is another
    matter: [open] makes it when it writes, and raises when it reads. *)
Variable os_error : string -> option exn.

(** What matplotlib answers to a call, given the calls made before it: the
    library keeps the figure and the axes the calls have built up. *)
Variable matplotlib : list call -> call -> result unit.

(** A call of matplotlib: it is made, whatever the library answers. *)
Definition plt (function : string) (arguments : list pyval)
  (keywords : list (string * pyval)) : M unit :=
  fun w =>
    (matplotlib (drawn w) (Call function arguments keywords),
     World (logs w) (stdout w)
       (drawn w ++ [Call function arguments keywords])).

(** [Logger.save(filepath)]: opening the file for writing empties it, and
    [json.dump] fills it unless it raises on the logs. *)
Definition save (filepath : string) (w : world)
  (fs : gmap string (file document)) :
  result unit * gmap string (file document) :=
  if negb (endswith filepath ".json") then (Raise AssertionError, fs)
  else
    match os_error filepath with
    | Some e => (Raise e, fs)
    | None =>
        match json_dumps (logs w) with
        | Ok doc => (Ok tt, <[filepath := Complete doc]> fs)
        | Raise e => (Raise e, <[filepath := Partial]> fs)
        end
    end.

(** [json.load(open(filepath))]. *)
Definition read_json (filepath : string) (fs : gmap string (file document)) :
  result pyval :=
  match os_error filepath with
  | Some e => Raise e
  | None =>
      match fs !! filepath with
      | None => Raise FileNotFoundError
      | Some Partial => Raise JSONDecodeError
      | Some (Complete doc) =>
          match json_loads doc with
          | Some v => Ok v
          | None => Raise JSONDecodeError
          end
      end
  end.

(** [Logger.load(filepath)]. *)
Definition load (filepath : string) (fs : gmap string (file document)) :
  M unit :=
  v <- lift (read_json filepath fs) ;;
  logs_assign v.

(** [Logger.plot_run(run, save_path)], for [runs] a list: the slice of the
    run, then the figure, each curve cut out of the logs when its turn to
    be plotted comes. *)
Definition plot_run (run save_path : pyval) : M unit :=
  runs_v <- logs_getitem "run" ;;
  run <- chosen_run run runs_v ;;
  runs <- lift (py_seq runs_v) ;;
  run_start <- lift (index run runs) ;;
  j <- lift (index run (reverse runs)) ;;
  let run_slice := Slice run_start (length runs - j) in
  plt "plt.figure" []
    [("figsize", VList [VInt 14; VFloat (13 # 2)]); ("dpi", VInt 80)] ;;;
  plt "fig.add_subplot" [VInt 121] [] ;;;
  tl <- logs_slice "train_loss" run_slice ;;
  plt "plt.plot" [VList tl] [("c", VStr train_col); ("label", VStr "train")] ;;;
  vl <- logs_slice "valid_loss" run_slice ;;
  plt "plt.plot" [VList vl] [("c", VStr valid_col); ("label", VStr "valid")] ;;;
  plt "plt.ylabel" [VStr "Loss"] [] ;;;
  plt "plt.yscale" [VStr "log"] [] ;;;
  plt "plt.title" [VStr "Loss Curves and Learning Rate"] [] ;;;
  plt "plt.gca" [] [] ;;;
  plt "twinx" [] [] ;;;
  lr <- logs_slice "lr" run_slice ;;
  plt "plot" [VList lr] [("c", VStr alt_col); ("label", VStr "LR")] ;;;
  plt "plt.yscale" [VStr "log"] [] ;;;
  plt "plt.ylabel" [VStr "Learning Rate"] [] ;;;
  plt "plt.legend"
    [VList [VStr "train"; VStr "valid"; VStr "LR"];
     VList [VStr "train"; VStr "valid"; VStr "LR"]]
    [("loc", VInt 0)] ;;;
  plt "fig.add_subplot" [VInt 122] [] ;;;
  tr <- logs_slice "train_roc" run_slice ;;
  plt "plt.plot" [VList tr] [("c", VStr train_col); ("label", VStr "train")] ;;;
  vr <- logs_slice "valid_roc" run_slice ;;
  plt "plt.plot" [VList vr] [("c", VStr valid_col); ("label", VStr "valid")] ;;;
  plt "plt.xlabel" [VStr "Epoch"] [] ;;;
  plt "plt.ylabel" [VStr "Reciever Operator Curve"] [] ;;;
  plt "plt.title" [VStr "ROC"] [] ;;;
  plt "plt.legend" [] [] ;;;
  plt "fig.tight_layout" [] [] ;;;
  (if truthy save_path
   then plt "plt.savefig" [save_path] [("format", VStr "eps")]
   else ret tt) ;;;
  plt "plt.show" [] [].

(** [Logger.mean_values(metric_list)]. *)
Definition mean_values (metric_list : list (list pyval)) :
  result (list pyval) :=
  let epoch_metric := zip_longest VNone metric_list in
  match epoch_metric !! 2%nat with
  | None => Raise IndexError
  | Some row =>
      let epoch_metric := <[2%nat := (row ++ [VNone])%list]> epoch_metric in
      let epoch_metric :=
        map (List.filter (fun l => match l with VNone => false | _ => true end))
            epoch_metric in
      rmap np_mean epoch_metric
  end.

(** One round of the loop of [print]: the metrics of run [r] at its epoch
    of lowest validation loss. *)
Definition best_of_run (runs : list pyval) (r : Z) :
  M (pyval * pyval * pyval * pyval) :=
  run_start <- lift (index (VInt r) runs) ;;
  j <- lift (index (VInt r) (reverse runs)) ;;
  let s := Slice run_start (length runs - j) in
  range_of <- logs_slice "valid_loss" s ;;
  keys <- logs_slice "valid_loss" s ;;
  best_idx <- lift (min_key (item keys) (seq 0 (length range_of))) ;;
  tl <- logs_slice "train_loss" s ;;
  train_loss <- lift (item tl best_idx) ;;
  tr <- logs_slice "train_roc" s ;;
  train_roc <- lift (item tr best_idx) ;;
  vl <- logs_slice "valid_loss" s ;;
  valid_loss <- lift (item vl best_idx) ;;
  vr <- logs_slice "valid_roc" s ;;
  valid_roc <- lift (item vr best_idx) ;;
  ret (train_loss, train_roc, valid_loss, valid_roc).

(** The loop of [print] over the runs [rs], growing the four lists. *)
Fixpoint best_of_runs (runs : list pyval) (rs : list Z)
  (acc : list pyval * list pyval * list pyval * list pyval) :
  M (list pyval * list pyval * list pyval * list pyval) :=
  match rs with
  | [] => ret acc
  | r :: rs' =>
      best <- best_of_run runs r ;;
      let '(tl, tr, vl, vr) := acc in
      let '(a, b, c, d) := best in
      best_of_runs runs rs'
        ((tl ++ [a])%list, (tr ++ [b])%list, (vl ++ [c])%list, (vr ++ [d])%list)
  end.

(** [np.mean(l), np.std(l)], then both rounded when [round_to] is true. *)
Definition mean_std (l : list pyval) : result (pyval * pyval) :=
  rbind (np_mean l) (fun m => rbind (np_std l) (fun s => Ok (m, s))).

Definition round_pair (round_to : pyval) (p : pyval * pyval) :
  result (pyval * pyval) :=
  rbind (py_round (fst p) round_to) (fun m =>
  rbind (py_round (snd p) round_to) (fun s => Ok (m, s))).

(** [Logger.print(round_to)].  Once [max(runs)] has given an [int], [runs]
    is a list, and [runs.index] is the list's. *)
Definition print (round_to : pyval) : M unit :=
  runs_v <- logs_getitem "run" ;;
  num_runs <- lift (py_max runs_v) ;;
  rs <- lift (range_from_1 num_runs) ;;
  runs <- lift (py_seq runs_v) ;;
  best <- best_of_runs runs rs ([], [], [], []) ;;
  let '(train_losses, train_rocs, valid_losses, valid_rocs) := best in
  train_loss <- lift (mean_std train_losses) ;;
  train_roc <- lift (mean_std train_rocs) ;;
  valid_loss <- lift (mean_std valid_losses) ;;
  valid_roc <- lift (mean_std valid_rocs) ;;
  rounded <- (if truthy round_to then
                a <- lift (round_pair round_to train_loss) ;;
                b <- lift (round_pair round_to train_roc) ;;
                c <- lift (round_pair round_to valid_loss) ;;
                d <- lift (round_pair round_to valid_roc) ;;
                ret (a, b, c, d)
              else ret (train_loss, train_roc, valid_loss, valid_roc)) ;;
  let '(train_loss, train_roc, valid_loss, valid_roc) := rounded in
  py_print "Results from {0} runs" [num_runs] ;;;
  py_print "Train mean loss {0} \pm {1}" [fst train_loss; snd train_loss] ;;;
  py_print "Train mean roc  {0} \pm {1}" [fst train_roc; snd train_roc] ;;;
  py_print "Valid mean loss {0} \pm {1}" [fst valid_loss; snd valid_loss] ;;;
  py_print "Valid mean roc  {0} \pm {1}" [fst valid_roc; snd valid_roc].

(** The string ['\n']. *)
Definition newline : string := String (Ascii.ascii_of_nat 10) EmptyString.

(** The body of the loop of [print_experiment], for one log of the file
    (a plain dict, as [json.load] makes them). *)
Definition print_log (log : pyval) : M unit :=
  info <- lift (py_subscript log "info") ;;
  model_type <- lift (py_subscript info "model_type") ;;
  py_print "{0}" [model_type] ;;;
  logs_assign log ;;;
  print (VInt 3) ;;;
  py_print "{0}" [VStr newline].

(** [Logger.print_experiment(filepath)]. *)
Definition print_experiment (filepath : string)
  (fs : gmap string (file document)) : M unit :=
  experiment_logs <- lift (read_json filepath fs) ;;
  logs <- lift (py_iter experiment_logs) ;;
  for_each print_log logs.

End Libraries.

End Logger.

(** ** The [json] module

    Documents as trees, by the conversion table of the library: [json.dump]
    writes [None] as [null], a number and a string as they are, a list as
    an array and a dict of either class as an object; [json.load] reads an
    array as a list and an object as a plain dict, the last value of a name
    that comes twice.  The text in between is not modelled: a float is read
    back as the float that was written. *)

Module Json.
Import Py.

Inductive document :=
| JNull
| JInt (n : Z)
| JFloat (x : Q)
| JStr (s : string)
| JArr (l : list document)
| JObj (d : list (string * document)).

(** What [json.dump] writes for a value. *)
Fixpoint to_json (v : pyval) : document :=
  match v with
  | VNone => JNull
  | VInt n => JInt n
  | VFloat x => JFloat x
  | VStr s => JStr s
  | VList l => JArr (map to_json l)
  | VDict _ d => JObj (map (fun kv => (fst kv, to_json (snd kv))) d)
  end.

(** What [json.load] reads from a document. *)
Fixpoint of_json (j : document) : pyval :=
  match j with
  | JNull => VNone
  | JInt n => VInt n
  | JFloat x => VFloat x
  | JStr s => VStr s
  | JArr l => VList (map of_json l)
  | JObj d =>
      VDict false (dict_of_items (map (fun kv => (fst kv, of_json (snd kv))) d))
  end.

(** Every value of the model can be written, and every document read. *)
Definition dumps (v : pyval) : result document := Ok (to_json v).
Definition loads (j : document) : option pyval := Some (of_json j).

End Json.

(** ** An instance of the other libraries

    Exact rational arithmetic standing for numpy's floating point, a
    working directory standing for the file system, and the known checks of
    matplotlib standing for the library: what the examples and
    counterexamples below run the logger with. *)

Module Instance.
Import Py Logger.

Definition sum_q (l : list Q) : Q := fold_right Qplus 0%Q l.

Definition mean_q (l : list Q) : Q :=
  Qred (sum_q l / inject_Z (Z.of_nat (length l))).

(** The square root to six decimals. *)
Definition sqrt_q (x : Q) : Q :=
  Qred (Qmake (Z.sqrt (Qfloor (x * inject_Z (10 ^ 12)))) (Pos.pow 10 6)).

(** [np.mean] of numbers; the mean of no number, which numpy gives as
    [nan], is [None] here. *)
Definition np_mean (l : list pyval) : result pyval :=
  rbind (rmap as_number l) (fun xs =>
    match xs with
    | [] => Ok VNone
    | _ => Ok (VFloat (mean_q xs))
    end).

(** [np.std] of numbers: the root of the mean squared distance to the
    mean. *)
Definition np_std (l : list pyval) : result pyval :=
  rbind (rmap as_number l) (fun xs =>
    match xs with
    | [] => Ok VNone
    | _ =>
        let m := mean_q xs in
        Ok (VFloat (sqrt_q (mean_q (map (fun x => (x - m) * (x - m))%Q xs))))
    end).

(** [round(x, n)] for [n >= 0] decimals. *)
Definition py_round (x n : pyval) : result pyval :=
  match x, n with
  | VInt m, VInt _ => Ok (VInt m)
  | VFloat q, VInt k =>
      let scale := inject_Z (10 ^ k) in
      Ok (VFloat (Qred (inject_Z (Qfloor (q * scale + (1 # 2))) / scale)))
  | _, _ => Raise TypeError
  end.

(** A working directory without sub-directories: a path with a [/] in it
    names a directory that does not exist. *)
Fixpoint has_slash (s : string) : bool :=
  match s with
  | EmptyString => false
  | String c r => Ascii.eqb c (Ascii.ascii_of_nat 47) || has_slash r
  end.

Definition os_error (path : string) : option exn :=
  if has_slash path then Some FileNotFoundError else None.

(** Matplotlib by the checks it is known for: [plt.plot] and [plt.scatter]
    raise [ValueError] on an x and a y of different lengths, [plt.savefig]
    raises what [open] does on its path; every other call returns. *)
Definition matplotlib (h : list call) (c : call) : result unit :=
  if String.eqb (function c) "plt.plot" || String.eqb (function c) "plt.scatter"
  then
    match arguments c with
    | [VList x; VList y] =>
        if (length x =? length y)%nat then Ok tt else Raise ValueError
    | _ => Ok tt
    end
  else if String.eqb (function c) "plt.savefig" then
    match arguments c with
    | [VStr path] =>
        match os_error path with Some e => Raise e | None => Ok tt end
    | _ => Raise TypeError
    end
  else Ok tt.

(** The logger's methods over this instance. *)
Definition save := Logger.save Json.document Json.dumps os_error.
Definition load := Logger.load Json.document Json.loads os_error.
Definition mean_values := Logger.mean_values np_mean.
Definition plot_run := Logger.plot_run matplotlib.
Definition print := Logger.print np_mean np_std py_round.
Definition print_experiment :=
  Logger.print_experiment np_mean np_std py_round Json.document Json.loads
    os_error.

(** The results of one epoch, and two calls of [log]. *)
Definition epoch_results : list (string * pyval) :=
  [("train", VDict false [("loss", VFloat (1 # 2)); ("roc", VFloat (3 # 4))]);
   ("lr", VFloat (1 # 100))].

Definition two_calls : list (list (string * pyval)) :=
  [epoch_results; [("epoch", VInt 2)]].

(** The log of one run of two epochs, as an experiment file holds it. *)
Definition one_run_log : pyval :=
  VDict false
    [("info", VDict false [("model_type", VStr "GCN")]);
     ("run", VList [VInt 1; VInt 1]);
     ("train_loss", VList [VFloat (9 # 10); VFloat (7 # 10)]);
     ("train_roc", VList [VFloat (6 # 10); VFloat (7 # 10)]);
     ("valid_loss", VList [VFloat (8 # 10); VFloat (1 # 1)]);
     ("valid_roc", VList [VFloat (5 # 10); VFloat (6 # 10)])].

(** A file system with one experiment file, of that one log. *)
Definition experiment_files : gmap string (file Json.document) :=
  {[ "experiment.json" := Complete (Json.JArr [Json.to_json one_run_log]) ]}.

End Instance.

(** ** What the claims speak of *)

Module Spec.
Import Py Logger.

(** The item of [l] at position [i] equals [r]. *)
Definition occurs_at (r : pyval) (l : list pyval) (i : nat) : Prop :=
  ∃ y, l !! i = Some y ∧ py_eq y r = true.

(** The occurrences of [r] in [l] are next to one another. *)
Definition contiguous (r : pyval) (l : list pyval) : Prop :=
  ∀ i j k, occurs_at r l i → occurs_at r l k → i ≤ j ≤ k → occurs_at r l j.

(** *** [log] *)

(** The value of an expression that did not raise. *)
Definition value_of (r : result pyval) : list pyval :=
  match r with Ok x => [x] | Raise _ => [] end.

(** The entry stored under [t] in the logs, when the logs are a dict. *)
Definition entry (v : pyval) (t : string) : option pyval :=
  match v with VDict _ d => dict_get t d | _ => None end.

(** The list stored under [t], a missing entry of a [defaultdict(list)]
    standing for the empty list it would make. *)
Definition entry_list (v : pyval) (t : string) : option (list pyval) :=
  match v with
  | VDict f d =>
      match dict_get t d with
      | Some (VList l) => Some l
      | Some _ => None
      | None => if f then Some [] else None
      end
  | _ => None
  end.

(** [results_dict[k]]. *)
Definition results_item (results_dict : list (string * pyval)) (k : string) :
  result pyval :=
  match dict_get k results_dict with Some v => Ok v | None => Raise KeyError end.

(** What the key [k] of [results_dict] contributes to the entry [t] of the
    logs, in the words of the claim: its loss to [k_loss] and its roc to
    [k_roc] for a sample set, its value to [k] otherwise. *)
Definition contributed (results_dict : list (string * pyval)) (t k : string) :
  list pyval :=
  if bool_decide (k ∈ sample_sets) then
    (if bool_decide (t = k ++ "_loss")
     then value_of (results_field results_dict k "loss") else []) ++
    (if bool_decide (t = k ++ "_roc")
     then value_of (results_field results_dict k "roc") else [])
  else
    if bool_decide (t = k) then value_of (results_item results_dict k) else [].

(** Everything [log(results_dict)] is to append to the entry [t]. *)
Definition appended_to (results_dict : list (string * pyval)) (t : string) :
  list pyval :=
  flat_map (contributed results_dict t) (results_dict.*1).

(** The entry [t] after [vs] was appended to it: untouched when [vs] is
    empty, else the list it held (or the empty list a defaultdict made)
    followed by [vs]. *)
Definition entry_after (before after : pyval) (t : string) (vs : list pyval) :
  Prop :=
  match vs with
  | [] => entry after t = entry before t
  | _ => ∃ old, entry_list before t = Some old ∧
                entry after t = Some (VList (old ++ vs))
  end.

(** The claim of C3 at one state and one [results_dict]. *)
Definition log_appends (w : world) (results_dict : list (string * pyval)) :
  Prop :=
  ∃ w', log results_dict w = (Ok tt, w') ∧
        ∀ t, entry_after (logs w) (logs w') t (appended_to results_dict t).

(** The entries [log(results_dict)] appends to. *)
Definition log_targets (results_dict : list (string * pyval)) : list string :=
  flat_map (λ k, if bool_decide (k ∈ sample_sets)
                 then [k ++ "_loss"; k ++ "_roc"] else [k])
           (results_dict.*1).

(** [results_dict] and the logs are fit for [log]: every sample set comes
    with its loss and its roc, and every entry appended to is a list, or
    is missing from a defaultdict. *)
Definition log_ready (w : world) (results_dict : list (string * pyval)) :
  Prop :=
  (∀ k, k ∈ results_dict.*1 → k ∈ sample_sets →
        is_ok (results_field results_dict k "loss") = true ∧
        is_ok (results_field results_dict k "roc") = true) ∧
  (∀ t, t ∈ log_targets results_dict → is_Some (entry_list (logs w) t)).

(** The appends one item of [results_dict] asks for, in order. *)
Definition item_appends (results_dict : list (string * pyval))
  (kv : string * pyval) : list (string * result pyval) :=
  if bool_decide (kv.1 ∈ sample_sets) then
    [(kv.1 ++ "_loss", results_field results_dict kv.1 "loss");
     (kv.1 ++ "_roc", results_field results_dict kv.1 "roc")]
  else [(kv.1, Ok kv.2)].

Definition append_op (p : string * result pyval) : M unit :=
  logs_append p.1 p.2.

(** The values a sequence of appends adds to the entry [t]. *)
Definition values_for (t : string) (ops : list (string * result pyval)) :
  list pyval :=
  flat_map (λ p, if bool_decide (t = p.1) then value_of p.2 else []) ops.

(** [len(self.logs[t])]. *)
Definition entry_len (v : pyval) (t : string) : option nat :=
  match v with
  | VDict f d =>
      match dict_get t d with
      | Some (VList l) => Some (length l)
      | Some (VStr s) => Some (String.length s)
      | Some (VDict _ d') => Some (length d')
      | Some _ => None
      | None => if f then Some 0 else None
      end
  | _ => None
  end.

(** [len(logs[s_loss]) == len(logs[s_roc])]. *)
Definition aligned (v : pyval) (s : string) : Prop :=
  ∃ n, entry_len v (s ++ "_loss") = Some n ∧ entry_len v (s ++ "_roc") = Some n.

(** The claim of C4 at one state, one [results_dict] and one sample set. *)
Definition log_keeps_aligned (w : world) (results_dict : list (string * pyval))
  (s : string) : Prop :=
  aligned (logs w) s → aligned (logs (log results_dict w).2) s.



(** The state after a sequence of [log] calls, whether they raise or not. *)
Definition after_logs (calls : list (list (string * pyval))) (w : world) :
  world :=
  foldl (λ w results_dict, (log results_dict w).2) w calls.







(** *** Rendering and persistence *)

(** The claim of C6 for one method call [c] at one state: the logs after
    the call equal the logs before it. *)
Definition leaves_logs (c : M unit) (w : world) : Prop :=
  py_eq (logs (c w).2) (logs w) = true.

(** The keys of every dict inside the value are all different, as the keys
    of a dict are. *)
Fixpoint distinct_keys (v : pyval) : bool :=
  match v with
  | VList l => forallb distinct_keys l
  | VDict _ d =>
      bool_decide (NoDup (map fst d)) &&
      forallb (fun kv => distinct_keys (snd kv)) d
  | _ => true
  end.

(** The claim of C5 at one path, one state and one file system, under an
    operating system: [save] and then [load] return, and the logs read back
    equal the logs saved. *)
Definition round_trips (os_error : string → option exn) (filepath : string)
  (w : world) (fs : gmap string (file Json.document)) : Prop :=
  ∃ fs' w',
    save Json.document Json.dumps os_error filepath w fs = (Ok tt, fs') ∧
    load Json.document Json.loads os_error filepath fs' w = (Ok tt, w') ∧
    py_eq (logs w') (logs w) = true.

(** [x] is a greatest number of [xs], and the first such, at position [i]. *)
Definition first_max (xs : list Q) (i : nat) (x : Q) : Prop :=
  xs !! i = Some x ∧
  (∀ y, y ∈ xs → (y <= x)%Q) ∧
  (∀ j y, j < i → xs !! j = Some y → (y < x)%Q).

(** The claim of C6 at one state, for the libraries of the instance: both
    [print] and [print_experiment] leave the logs equal to what they were. *)
Definition rendering_read_only (round_to : pyval) (filepath : string)
  (fs : gmap string (file Json.document)) (w : world) : Prop :=
  leaves_logs (Instance.print round_to) w ∧
  leaves_logs (Instance.print_experiment filepath fs) w.

(** A file system in which [logs.txt] already holds a document. *)
Definition stale_files : gmap string (file Json.document) :=
  {[ "logs.txt" := Complete (Json.to_json Instance.one_run_log) ]}.

(** *** The figure of a run *)

(** The slice [s] spans the run [r] in [l]: from the first occurrence of
    [r] to one past the last. *)
Definition spans (r : pyval) (l : list pyval) (s : slice) : Prop :=
  occurs_at r l (start s) ∧ (∀ i, occurs_at r l i → start s ≤ i) ∧
  0 < stop s ≤ length l ∧
  occurs_at r l (stop s - 1) ∧ (∀ i, occurs_at r l i → i < stop s).

(** The calls that draw the figure of a run from its five curves, in the
    order [plot_run] makes them: the losses and the learning rate on the
    left, the roc on the right, the figure saved when a path is given. *)
Definition run_figure (tl vl lr tr vr : list pyval) (save_path : pyval) :
  list call :=
  ([Call "plt.figure" []
     [("figsize", VList [VInt 14; VFloat (13 # 2)]); ("dpi", VInt 80)];
   Call "fig.add_subplot" [VInt 121] [];
   Call "plt.plot" [VList tl] [("c", VStr "lightseagreen"); ("label", VStr "train")];
   Call "plt.plot" [VList vl]
     [("c", VStr "mediumslateblue"); ("label", VStr "valid")];
   Call "plt.ylabel" [VStr "Loss"] [];
   Call "plt.yscale" [VStr "log"] [];
   Call "plt.title" [VStr "Loss Curves and Learning Rate"] [];
   Call "plt.gca" [] [];
   Call "twinx" [] [];
   Call "plot" [VList lr] [("c", VStr "crimson"); ("label", VStr "LR")];
   Call "plt.yscale" [VStr "log"] [];
   Call "plt.ylabel" [VStr "Learning Rate"] [];
   Call "plt.legend"
     [VList [VStr "train"; VStr "valid"; VStr "LR"];
      VList [VStr "train"; VStr "valid"; VStr "LR"]]
     [("loc", VInt 0)];
   Call "fig.add_subplot" [VInt 122] [];
   Call "plt.plot" [VList tr] [("c", VStr "lightseagreen"); ("label", VStr "train")];
   Call "plt.plot" [VList vr]
     [("c", VStr "mediumslateblue"); ("label", VStr "valid")];
   Call "plt.xlabel" [VStr "Epoch"] [];
   Call "plt.ylabel" [VStr "Reciever Operator Curve"] [];
   Call "plt.title" [VStr "ROC"] [];
   Call "plt.legend" [] [];
   Call "fig.tight_layout" [] []] ++
  (if truthy save_path
   then [Call "plt.savefig" [save_path] [("format", VStr "eps")]] else []) ++
  [Call "plt.show" [] []])%list.

(** Handing the calls [cs] to matplotlib one after the other, after the
    calls [h]: the answer of the first call that raises, if one does, and
    the calls made by then. *)
Fixpoint hand (matplotlib : list call → call → result unit)
  (h cs : list call) : result unit * list call :=
  match cs with
  | [] => (Ok tt, h)
  | c :: rest =>
      match matplotlib h c with
      | Ok _ => hand matplotlib (h ++ [c])%list rest
      | Raise e => (Raise e, (h ++ [c])%list)
      end
  end.

(** What a method leaves that hands the calls [cs] to matplotlib and does
    nothing else: the answer of the first call that raises, if one does,
    the calls made by then, and the logger as it was. *)
Definition handed (matplotlib : list call → call → result unit) (w : world)
  (cs : list call) : result unit * world :=
  ((hand matplotlib (drawn w) cs).1,
   World (logs w) (stdout w) (hand matplotlib (drawn w) cs).2).

(** The five metrics [plot_run] draws. *)
Definition curve_keys : list string :=
  ["train_loss"; "valid_loss"; "lr"; "train_roc"; "valid_roc"].

(** A logger that has logged four epochs over three runs, the greatest
    validation loss in the second. *)
Definition three_runs_logged : world :=
  World (VDict true
           [("info", VNone);
            ("run", VList [VInt 1; VInt 2; VInt 2; VInt 3]);
            ("train_loss", VList [VFloat (9 # 10); VFloat (8 # 10);
                                  VFloat (7 # 10); VFloat (6 # 10)]);
            ("valid_loss", VList [VFloat (1 # 2); VFloat (3 # 4);
                                  VFloat (3 # 4); VFloat (1 # 3)]);
            ("lr", VList [VFloat (1 # 10); VFloat (1 # 10);
                          VFloat (1 # 100); VFloat (1 # 100)]);
            ("train_roc", VList [VFloat (5 # 10); VFloat (6 # 10);
                                 VFloat (7 # 10); VFloat (8 # 10)]);
            ("valid_roc", VList [VFloat (4 # 10); VFloat (5 # 10);
                                 VFloat (6 # 10); VFloat (7 # 10)])])
        [] [].

End Spec.

(** ** The other plotting methods

    Each method gathers its data from the logs or from a file of logs and
    hands it to matplotlib, call by call. *)

Module Plots.
Import Py Logger.
Local Open Scope logger_scope.


(** [min(it)]: the first of the least items; [ValueError] on an empty
    iterable. *)
Fixpoint min_from (cur : pyval) (l : list pyval) : result pyval :=
  match l with
  | [] => Ok cur
  | x :: r => rbind (py_lt x cur) (fun b => min_from (if b then x else cur) r)
  end.

Definition py_min (it : pyval) : result pyval :=
  rbind (py_iter it) (fun l =>
    match l with
    | [] => Raise ValueError
    | x :: r => min_from x r
    end).

(** [v[i]] for a position [i >= 0]: an item of a list, a character of a
    string; a dict of string keys has no such key. *)
Definition py_index (v : pyval) (i : nat) : result pyval :=
  match v with
  | VList l => item l i
  | VStr s => item (chars s) i
  | VDict f _ => if f then Ok (VList []) else Raise KeyError
  | _ => Raise TypeError
  end.

(** [d.items()]. *)
Definition py_items (v : pyval) : result (list (string * pyval)) :=
  match v with
  | VDict _ d => Ok d
  | _ => Raise AttributeError
  end.

(** [range(0, n)] for the value [n], by its number of points. *)
Definition range_len (n : pyval) : result nat :=
  match n with
  | VInt n => Ok (Z.to_nat n)
  | _ => Raise TypeError
  end.

(** [range(0, n)] as an argument of a call: the list of its items. *)
Definition py_range (n : nat) : pyval :=
  VList (map (fun i => VInt (Z.of_nat i)) (seq 0 n)).

(** [self.run_slice(run, v)] for a logged value [v]: only a list has the
    [index] that takes a number. *)
Definition run_slice_of (run : Z) (v : pyval) : result slice :=
  match v with
  | VList l => run_slice (VInt run) l
  | VStr _ => Raise TypeError
  | _ => Raise AttributeError
  end.

(** [log[metric][self.run_slice(run, log['run'])]], the slice first. *)
Definition run_metric (log : pyval) (metric : string) (run : Z) :
  result (list pyval) :=
  rbind (py_subscript log "run") (fun run_list =>
  rbind (run_slice_of run run_list) (fun s =>
  rbind (py_subscript log metric) (fun m =>
  rbind (py_seq m) (fun l => Ok (get_slice l s))))).

(** [range(1, log['info']['num_runs'] + 1)]. *)
Definition runs_of (log : pyval) : result (list Z) :=
  rbind (py_subscript log "info") (fun info =>
  rbind (py_subscript info "num_runs") (fun n => range_from_1 n)).

(** [log['info'][k]]. *)
Definition info_of (log : pyval) (k : string) : result pyval :=
  rbind (py_subscript log "info") (fun info => py_subscript info k).

(** A point plotted by [plot_experiment_comparison]. *)
Record point := Point { at_x : pyval; at_y : pyval; point_label : pyval }.

(** [params[k].append(v)] on a local [defaultdict(list)]. *)
Definition params_append (k : string) (v : pyval)
  (params : list (string * list pyval)) : list (string * list pyval) :=
  match dict_get k params with
  | Some l => dict_set k (l ++ [v])%list params
  | None => (params ++ [(k, [v])])%list
  end.

(** The first loop body of [plot_hyperparam_search], for one log: its
    hyperparameters and its first learning rate join [params], its best
    validation roc joins [score]. *)
Definition search_log (acc : list (string * list pyval) * list pyval)
  (log : pyval) : result (list (string * list pyval) * list pyval) :=
  let (params, score) := acc in
  rbind (py_subscript log "info") (fun info =>
  rbind (py_items info) (fun items =>
  let params := foldl (fun ps kv => params_append (fst kv) (snd kv) ps)
                      params items in
  rbind (py_subscript log "lr") (fun lr =>
  rbind (py_index lr 0) (fun lr0 =>
  let params := params_append "lr" lr0 params in
  rbind (py_subscript log "valid_roc") (fun rocs =>
  rbind (py_max rocs) (fun best => Ok (params, (score ++ [best])%list))))))).

Fixpoint search_logs (acc : list (string * list pyval) * list pyval)
  (logs : list pyval) : result (list (string * list pyval) * list pyval) :=
  match logs with
  | [] => Ok acc
  | log :: rest => rbind (search_log acc log) (fun acc' => search_logs acc' rest)
  end.

(** The exceptions of [plot_experiment_comparison]: those of the builtins
    and the libraries, and the one of a local name read before it was ever
    assigned. *)
Inductive comparison_exn :=
| Builtin (e : exn)
| UnboundLocalError.

(** How a method body ended: by returning, or by an exception. *)
Definition ended (r : result unit * world) : option comparison_exn * world :=
  match r with
  | (Ok _, w) => (None, w)
  | (Raise e, w) => (Some (Builtin e), w)
  end.

Section Libraries.
Variable np_mean : list pyval -> result pyval.
Variable document : Type.
Variable json_loads : document -> option pyval.
Variable os_error : string -> option exn.
Variable matplotlib : list call -> call -> result unit.

Local Abbreviation plt := (Logger.plt matplotlib).
Local Abbreviation read_json := (Logger.read_json document json_loads os_error).

(** One round of the loop of [plot_metric]: the values of run [r], drawn
    as a grey line. *)
Definition run_line (metric : string) (runs : list pyval) (r : Z) :
  M (list pyval) :=
  run_start <- lift (index (VInt r) runs) ;;
  j <- lift (index (VInt r) (reverse runs)) ;;
  let run_end := length runs - j in
  run_metric <- logs_slice metric (Slice run_start run_end) ;;
  plt "plt.plot" [py_range (run_end - run_start); VList run_metric]
    [("color", VStr "lightgrey")] ;;;
  ret run_metric.

(** The loop of [plot_metric] over the runs [rs]: [metric_list]. *)
Fixpoint run_lines_of (metric : string) (runs : list pyval) (rs : list Z) :
  M (list (list pyval)) :=
  match rs with
  | [] => ret []
  | r :: rs' =>
      l <- run_line metric runs r ;;
      ls <- run_lines_of metric runs rs' ;;
      ret (l :: ls)
  end.

(** [Logger.plot_metric(metric, save_path)], for [save_path] a string or
    [None]. *)
Definition plot_metric (metric : string) (save_path : option string) :
  M unit :=
  runs_v <- logs_getitem "run" ;;
  num_runs <- lift (py_max runs_v) ;;
  plt "plt.figure" []
    [("figsize", VList [VInt 14; VFloat (13 # 2)]); ("dpi", VInt 80)] ;;;
  rs <- lift (range_from_1 num_runs) ;;
  runs <- lift (py_seq runs_v) ;;
  metric_list <- run_lines_of metric runs rs ;;
  mean_epoch_metric <- lift (mean_values np_mean metric_list) ;;
  epochs <- logs_getitem "epoch" ;;
  last_epoch <- lift (py_max epochs) ;;
  n <- lift (range_len last_epoch) ;;
  plt "plt.plot" [py_range n; VList mean_epoch_metric]
    [("label", VStr "mean")] ;;;
  plt "plt.title" [VStr metric] [] ;;;
  plt "plt.xlabel" [VStr "Epoch"] [] ;;;
  plt "plt.ylabel" [VStr metric] [] ;;;
  plt "plt.legend" [] [] ;;;
  match save_path with
  | Some path =>
      if String.eqb path "" then ret tt
      else if endswith path "eps"
           then plt "plt.savefig" [VStr path] [("format", VStr "eps")]
           else raise AssertionError
  | None => ret tt
  end ;;;
  plt "plt.show" [] [].

(** The loop body of [plot_experiment_metric_curves]: the line of the
    means of one log. *)
Definition experiment_curve (metric : string) (log : pyval) : M unit :=
  rs <- lift (runs_of log) ;;
  metric_list <- lift (rmap (run_metric log metric) rs) ;;
  mean_epoch_metric <- lift (mean_values np_mean metric_list) ;;
  model_type <- lift (info_of log "model_type") ;;
  plt "plt.plot"
    [py_range (length mean_epoch_metric); VList mean_epoch_metric]
    [("label", model_type)].

(** [Logger.plot_experiment_metric_curves(filepath, metric)]. *)
Definition plot_experiment_metric_curves (filepath metric : string)
  (fs : gmap string (file document)) : M unit :=
  experiment_logs <- lift (read_json filepath fs) ;;
  logs <- lift (py_iter experiment_logs) ;;
  for_each (experiment_curve metric) logs ;;;
  plt "plt.xlabel" [VStr "Epoch"] [] ;;;
  plt "plt.ylabel" [VStr metric] [] ;;;
  plt "plt.legend" [] [] ;;;
  plt "plt.show" [] [].

(** The inner loop of [plot_experiment_comparison] over the runs [rs] of
    one log: the values found so far, and [best_value]. *)
Fixpoint compare_runs (operator : pyval -> result pyval) (log : pyval)
  (metric : string) (rs : list Z) (metric_values : list pyval)
  (best_value : option pyval) : result (list pyval * option pyval) :=
  match rs with
  | [] => Ok (metric_values, best_value)
  | run :: rs' =>
      rbind (run_metric log metric run) (fun values =>
      rbind (operator (VList values)) (fun best =>
      compare_runs operator log metric rs'
        (metric_values ++ [best])%list (Some best)))
  end.

(** The part of the loop body up to the call of [plt.plot]: its
    arguments. *)
Definition compare_log (operator : pyval -> result pyval) (metric : string)
  (comparitor : string) (best_value : option pyval) (log : pyval) :
  result (point * option pyval) :=
  rbind (runs_of log) (fun rs =>
  rbind (compare_runs operator log metric rs [] best_value) (fun found =>
  rbind (info_of log comparitor) (fun x =>
  rbind (np_mean (fst found)) (fun y =>
  rbind (info_of log "model_type") (fun model_type =>
  Ok (Point x y model_type, snd found)))))).

(** The loop of [plot_experiment_comparison] over the logs, [best_value]
    living on from one log to the next. *)
Fixpoint compare_logs (operator : pyval -> result pyval) (metric : string)
  (comparitor : string) (best_value : option pyval) (logs : list pyval)
  (w : world) : option comparison_exn * world :=
  match logs with
  | [] => (None, w)
  | log :: rest =>
      match compare_log operator metric comparitor best_value log with
      | Raise e => (Some (Builtin e), w)
      | Ok (p, best_value') =>
          match plt "plt.plot" [at_x p; at_y p]
                  [("label", point_label p); ("marker", VStr "o")] w with
          | (Raise e, w1) => (Some (Builtin e), w1)
          | (Ok _, w1) =>
              match info_of log "model_type" with
              | Raise e => (Some (Builtin e), w1)
              | Ok model_type =>
                  match best_value' with
                  | None => (Some UnboundLocalError, w1)
                  | Some best =>
                      compare_logs operator metric comparitor best_value' rest
                        (snd (py_print "Model {0} {1}: {2}"
                                [model_type; VStr metric; best] w1))
                  end
              end
          end
      end
  end.

(** [Logger.plot_experiment_comparison(filepath, metric, comparitor)]. *)
Definition plot_experiment_comparison (filepath metric comparitor : string)
  (fs : gmap string (file document)) (w : world) :
  option comparison_exn * world :=
  match read_json filepath fs with
  | Raise e => (Some (Builtin e), w)
  | Ok experiment_logs =>
      let operator := if endswith metric "loss" then py_min else py_max in
      match py_iter experiment_logs with
      | Raise e => (Some (Builtin e), w)
      | Ok logs =>
          match compare_logs operator metric comparitor None logs w with
          | (Some e, w1) => (Some e, w1)
          | (None, w1) =>
              ended ((plt "plt.legend" [] [] ;;; plt "plt.show" [] []) w1)
          end
      end
  end.

(** The second loop body of [plot_hyperparam_search]: the cloud of one
    parameter, drawn, saved and shown. *)
Definition draw_cloud (score : list pyval) (p : string * list pyval) :
  M unit :=
  plt "plt.scatter" [VList (snd p); VList score] [] ;;;
  plt "plt.title" [VStr (fst p)] [] ;;;
  plt "plt.xlabel" [VStr (fst p)] [] ;;;
  plt "plt.ylabel" [VStr "valid roc"] [] ;;;
  plt "plt.ylim" [VInt 0; VInt 1] [] ;;;
  plt "plt.savefig" [VStr (fst p ++ ".eps")] [("format", VStr "eps")] ;;;
  plt "plt.show" [] [].

(** [Logger.plot_hyperparam_search(filepath)]: one cloud per parameter,
    in the order the parameters were first met. *)
Definition plot_hyperparam_search (filepath : string)
  (fs : gmap string (file document)) : M unit :=
  hyperparam_logs <- lift (read_json filepath fs) ;;
  logs <- lift (py_iter hyperparam_logs) ;;
  found <- lift (search_logs ([], []) logs) ;;
  for_each (draw_cloud (snd found)) (fst found).

End Libraries.

End Plots.

(** ** What the further properties speak of *)

Module Props.
Import Py Logger Plots.


(** [log] called on each dict of [calls] in turn, until one raises. *)
Definition log_each (calls : list (list (string * pyval))) : M unit :=
  for_each log calls.

(** The number of [calls] that append to the entry [t]. *)
Definition calls_on (t : string) (calls : list (list (string * pyval))) : nat :=
  length (List.filter (λ rd, bool_decide (t ∈ Spec.log_targets rd)) calls).


(** The state [w'] is [w] after reads of the logs only: nothing printed,
    every entry of [w] still there, every other entry a new empty list, and
    the logs as they were when they are a plain dict. *)
Definition grown_from (w w' : world) : Prop :=
  stdout w' = stdout w ∧
  (∀ k v, Spec.entry (logs w) k = Some v → Spec.entry (logs w') k = Some v) ∧
  (∀ k v, Spec.entry (logs w') k = Some v →
          Spec.entry (logs w) k = Some v ∨
          (Spec.entry (logs w) k = None ∧ v = VList [])) ∧
  (∀ d, logs w = VDict false d → logs w' = logs w).

(** A body that, when it returns, has only read the logs. *)
Definition reads {A} (c : M A) : Prop :=
  ∀ w a w', c w = (Ok a, w') → grown_from w w'.

(** A body that, when it returns, leaves an entry under [k]. *)
Definition finds {A} (k : string) (c : M A) : Prop :=
  ∀ w a w', c w = (Ok a, w') → is_Some (Spec.entry (logs w') k).

(** The entries [plot_run] reads. *)
Definition plot_run_keys : list string :=
  ["run"; "train_loss"; "valid_loss"; "lr"; "train_roc"; "valid_roc"].

(** [x] is a least number of [xs], and the first such, at position [i]. *)
Definition first_min (xs : list Q) (i : nat) (x : Q) : Prop :=
  xs !! i = Some x ∧
  (∀ y, y ∈ xs → (x <= y)%Q) ∧
  (∀ j y, j < i → xs !! j = Some y → (x < y)%Q).


(** A logger that has logged the runs and the validation losses of three
    epochs, and nothing else. *)
Definition half_logged : world :=
  World (VDict true
           [("run", VList [VInt 1; VInt 1; VInt 2]);
            ("valid_loss", VList [VFloat (1 # 2); VFloat (1 # 3); VFloat (3 # 4)])])
        [] [].

(** A new logger, and what [self.logs['run']] makes of it. *)
Definition read_run_of_new : world :=
  World (VDict true [("info", VNone); ("run", VList [])]) [] [].


(** The plotting methods over the libraries of the instance. *)
Definition plot_metric := Plots.plot_metric Instance.np_mean Instance.matplotlib.
Definition plot_experiment_metric_curves :=
  Plots.plot_experiment_metric_curves Instance.np_mean Json.document
    Json.loads Instance.os_error Instance.matplotlib.
Definition plot_experiment_comparison :=
  Plots.plot_experiment_comparison Instance.np_mean Json.document
    Json.loads Instance.os_error Instance.matplotlib.
Definition plot_hyperparam_search :=
  Plots.plot_hyperparam_search Json.document Json.loads Instance.os_error
    Instance.matplotlib.

(** *** The figure of a metric *)

(** A line of a figure: the number of points of the [range] on its x
    axis, and its values. *)
Record curve := Curve { x_points : nat; y_values : list pyval }.

(** The figure of [plot_metric]: one grey line per run, the line of the
    means, and the file the figure is saved to, if any. *)
Record metric_plot := MetricPlot {
  run_lines : list curve;
  mean_line : curve;
  saved_to : option string
}.

(** The calls that draw such a figure, in order. *)
Definition metric_figure (metric : string) (fig : metric_plot) : list call :=
  ([Call "plt.figure" []
      [("figsize", VList [VInt 14; VFloat (13 # 2)]); ("dpi", VInt 80)]] ++
   map (λ c, Call "plt.plot" [py_range (x_points c); VList (y_values c)]
               [("color", VStr "lightgrey")]) (run_lines fig) ++
   [Call "plt.plot"
      [py_range (x_points (mean_line fig)); VList (y_values (mean_line fig))]
      [("label", VStr "mean")];
    Call "plt.title" [VStr metric] [];
    Call "plt.xlabel" [VStr "Epoch"] [];
    Call "plt.ylabel" [VStr metric] [];
    Call "plt.legend" [] []] ++
   match saved_to fig with
   | Some path => [Call "plt.savefig" [VStr path] [("format", VStr "eps")]]
   | None => []
   end ++
   [Call "plt.show" [] []])%list.

(** The path [plot_metric] saves to: the one given, unless it is empty. *)
Definition save_target (save_path : option string) : option string :=
  match save_path with
  | Some path => if String.eqb path "" then None else Some path
  | None => None
  end.

(** The figure of the validation loss of the logger below. *)
Definition two_runs_figure : metric_plot :=
  MetricPlot
    [Curve 3 [VFloat (1 # 2); VFloat (1 # 3); VFloat (1 # 4)];
     Curve 1 [VFloat (3 # 4)]]
    (Curve 3 [VFloat (5 # 8); VFloat (1 # 3); VFloat (1 # 4)])
    (Some "loss.eps").

(** A logger after two runs, of three epochs and of one. *)
Definition two_runs_logged : world :=
  World (VDict true
           [("info", VNone);
            ("run", VList [VInt 1; VInt 1; VInt 1; VInt 2]);
            ("epoch", VList [VInt 1; VInt 2; VInt 3; VInt 1]);
            ("valid_loss", VList [VFloat (1 # 2); VFloat (1 # 3); VFloat (1 # 4);
                                  VFloat (3 # 4)])])
        [] [].

(** *** Logs of an experiment *)

(** A log laid out by runs: under [run] the run number of every epoch,
    under the metric one value per epoch, under [info] the number of runs. *)
Record run_log := RunLog {
  log_runs : list pyval;
  log_values : list pyval;
  log_info : pyval;
  num_runs : Z
}.

(** The log [log] is laid out as [l] says, with the epochs of each of its
    runs next to one another. *)
Definition laid_out (metric : string) (log : pyval) (l : run_log) : Prop :=
  Spec.entry log "run" = Some (VList (log_runs l)) ∧
  Spec.entry log metric = Some (VList (log_values l)) ∧
  Spec.entry log "info" = Some (log_info l) ∧
  Spec.entry (log_info l) "num_runs" = Some (VInt (num_runs l)) ∧
  length (log_values l) = length (log_runs l) ∧
  ∀ r, (1 ≤ r ≤ num_runs l)%Z → Spec.contiguous (VInt r) (log_runs l).

(** The run numbers of a log of [n] runs. *)
Definition run_numbers (n : Z) : list Z :=
  map Z.of_nat (seq 1 (Z.to_nat n)).

(** The values logged for the run [r]: those at the positions where the
    run list holds [r]. *)
Definition values_of_run (l : run_log) (r : Z) : list pyval :=
  (List.filter (λ p, py_eq p.1 (VInt r)) (zip (log_runs l) (log_values l))).*2.

(** The values the runs of a log have at the epoch [e], run after run. *)
Definition column (l : run_log) (e : nat) : list pyval :=
  omap (λ r, values_of_run l r !! e) (run_numbers (num_runs l)).

(** The line of [plot_experiment_metric_curves] for a log: labelled with
    the model type, as many points as values, one value per epoch of the
    longest run and three at least, each the mean of its column. *)
Definition curve_of_log (np_mean : list pyval → result pyval) (l : run_log)
  (c : call) : Prop :=
  ∃ means model_type,
    c = Call "plt.plot" [py_range (length means); VList means]
          [("label", model_type)] ∧
    py_subscript (log_info l) "model_type" = Ok model_type ∧
    length means
    = list_max (map (λ r, length (values_of_run l r)) (run_numbers (num_runs l))) ∧
    3 ≤ length means ∧
    (Forall (λ v, v ≠ VNone) (log_values l) →
     ∀ e m, means !! e = Some m → np_mean (column l e) = Ok m).

(** The log of a model trained for one run of three epochs, and an
    experiment file that holds it. *)
Definition three_epoch_log : pyval :=
  VDict false
    [("info", VDict false [("model_type", VStr "GCN"); ("num_runs", VInt 1);
                           ("trainable_parameters", VInt 1200)]);
     ("run", VList [VInt 1; VInt 1; VInt 1]);
     ("valid_loss", VList [VFloat (1 # 2); VFloat (1 # 4); VFloat (1 # 3)])].

Definition three_epoch_layout : run_log :=
  RunLog [VInt 1; VInt 1; VInt 1]
    [VFloat (1 # 2); VFloat (1 # 4); VFloat (1 # 3)]
    (VDict false [("model_type", VStr "GCN"); ("num_runs", VInt 1);
                  ("trainable_parameters", VInt 1200)])
    1.

Definition three_epoch_files : gmap string (file Json.document) :=
  {[ "experiment.json" := Complete (Json.JArr [Json.to_json three_epoch_log]) ]}.

(** [min] for a metric that ends with [loss], [max] for the others. *)
Definition comparison_operator (metric : string) : pyval → result pyval :=
  if endswith metric "loss" then py_min else py_max.

(** The point [plot_experiment_comparison] plots for a log: the mean of the
    best values of its runs against its [comparitor]. *)
Definition point_of_log (np_mean : list pyval → result pyval)
  (metric comparitor : string) (l : run_log) (c : call) : Prop :=
  ∃ x bests y model_type,
    c = Call "plt.plot" [x; y] [("label", model_type); ("marker", VStr "o")] ∧
    py_subscript (log_info l) comparitor = Ok x ∧
    py_subscript (log_info l) "model_type" = Ok model_type ∧
    Forall2 (λ r best, comparison_operator metric (VList (values_of_run l r))
                       = Ok best)
      (run_numbers (num_runs l)) bests ∧
    np_mean bests = Ok y.

(** The line [plot_experiment_comparison] prints for a log: the best value
    of its last run. *)
Definition line_of_log (metric : string) (l : run_log) (ln : line) : Prop :=
  ∃ model_type best,
    py_subscript (log_info l) "model_type" = Ok model_type ∧
    comparison_operator metric (VList (values_of_run l (num_runs l))) = Ok best ∧
    ln = Line "Model {0} {1}: {2}" [model_type; VStr metric; best].

(** A model of two runs whose validation loss ends at [1/3] in the first
    and at [1/2] in the second, and a file that holds it. *)
Definition two_run_log : pyval :=
  VDict false
    [("info", VDict false [("model_type", VStr "GCN"); ("num_runs", VInt 2);
                           ("trainable_parameters", VInt 1200)]);
     ("run", VList [VInt 1; VInt 1; VInt 2; VInt 2]);
     ("valid_loss", VList [VFloat (1 # 2); VFloat (1 # 3); VFloat (3 # 4);
                           VFloat (1 # 2)])].

Definition two_run_layout : run_log :=
  RunLog [VInt 1; VInt 1; VInt 2; VInt 2]
    [VFloat (1 # 2); VFloat (1 # 3); VFloat (3 # 4); VFloat (1 # 2)]
    (VDict false [("model_type", VStr "GCN"); ("num_runs", VInt 2);
                  ("trainable_parameters", VInt 1200)])
    2.

Definition two_run_files : gmap string (file Json.document) :=
  {[ "experiment.json" := Complete (Json.JArr [Json.to_json two_run_log]) ]}.

(** A model that was not run at all, and a file that holds it. *)
Definition no_run_log : pyval :=
  VDict false
    [("info", VDict false [("model_type", VStr "MLP"); ("num_runs", VInt 0);
                           ("trainable_parameters", VInt 300)]);
     ("run", VList []);
     ("valid_loss", VList [])].

Definition no_run_files : gmap string (file Json.document) :=
  {[ "experiment.json" := Complete (Json.JArr [Json.to_json no_run_log]) ]}.

(** *** The clouds of a hyperparameter search *)

(** A cloud: its parameter, its x and y values, and the file it is saved
    to. *)
Record scatter := Scatter {
  title : string;
  scatter_x : list pyval;
  scatter_y : list pyval;
  scatter_file : string
}.

(** The calls that draw, save and show a cloud, in order. *)
Definition cloud_calls (s : scatter) : list call :=
  [Call "plt.scatter" [VList (scatter_x s); VList (scatter_y s)] [];
   Call "plt.title" [VStr (title s)] [];
   Call "plt.xlabel" [VStr (title s)] [];
   Call "plt.ylabel" [VStr "valid roc"] [];
   Call "plt.ylim" [VInt 0; VInt 1] [];
   Call "plt.savefig" [VStr (scatter_file s)] [("format", VStr "eps")];
   Call "plt.show" [] []].

(** The values the key [k] has among the hyperparameters of [log]: one or
    none, for a dict. *)
Definition param_values (k : string) (log : pyval) : list pyval :=
  match rbind (py_subscript log "info") py_items with
  | Ok items => (List.filter (λ kv, bool_decide (kv.1 = k)) items).*2
  | Raise _ => []
  end.

(** The first learning rate of [log]. *)
Definition first_lr (log : pyval) : list pyval :=
  match rbind (py_subscript log "lr") (λ lr, py_index lr 0) with
  | Ok x => [x]
  | Raise _ => []
  end.

(** The values [plot_hyperparam_search] collects under [k] over [logs]:
    for each log the value of the hyperparameter, if the log has it, and
    under [lr] the first learning rate of the log as well. *)
Definition collected (k : string) (logs : list pyval) : list pyval :=
  flat_map (λ log, param_values k log ++
                   if bool_decide (k = "lr") then first_lr log else [])%list
           logs.

(** The best validation roc of [log]. *)
Definition best_roc (log : pyval) (best : pyval) : Prop :=
  rbind (py_subscript log "valid_roc") py_max = Ok best.

(** The values collected under [k] so far. *)
Definition params_at (k : string) (params : list (string * list pyval)) :
  list pyval :=
  default [] (dict_get k params).

(** The local [params] holds distinct names, each with a value at
    least. *)
Definition filled (params : list (string * list pyval)) : Prop :=
  NoDup params.*1 ∧ ∀ k, k ∈ params.*1 ↔ params_at k params ≠ [].

(** The cloud of the parameter [p] against the scores. *)
Definition cloud_of (score : list pyval) (p : string * list pyval) : scatter :=
  Scatter p.1 p.2 score (p.1 +:+ ".eps").

(** A log of a search that [plot_hyperparam_search] can read:
    [log['info'].items()], [log['lr'][0]] and [max(log['valid_roc'])] all
    return. *)
Definition searchable (log : pyval) : Prop :=
  (∃ items, rbind (py_subscript log "info") py_items = Ok items) ∧
  (∃ lr0, rbind (py_subscript log "lr") (λ lr, py_index lr 0) = Ok lr0) ∧
  (∃ best, best_roc log best).

(** [plt.scatter] refuses an x and a y of different sizes. *)
Definition scatter_checks (matplotlib : list call → call → result unit) : Prop :=
  ∀ h (x y : list pyval) kw,
    length x ≠ length y →
    matplotlib h (Call "plt.scatter" [VList x; VList y] kw) = Raise ValueError.

(** Two searches whose hyperparameters include the learning rate, and a
    file that holds them. *)
Definition search_log_of (lr : Q) (roc : Q) : pyval :=
  VDict false
    [("info", VDict false [("lr", VFloat lr); ("layers", VInt 2)]);
     ("lr", VList [VFloat lr; VFloat lr]);
     ("valid_roc", VList [VFloat (1 # 2); VFloat roc])].

Definition search_files : gmap string (file Json.document) :=
  {[ "search.json" :=
       Complete (Json.JArr
                   [Json.to_json (search_log_of (1 # 100) (3 # 5));
                    Json.to_json (search_log_of (1 # 10) (7 # 10))]) ]}.

(** Two searches over the number of layers alone, and a file that holds
    them. *)
Definition layers_log_of (layers : Z) (roc : Q) : pyval :=
  VDict false
    [("info", VDict false [("layers", VInt layers)]);
     ("lr", VList [VFloat (1 # 100); VFloat (1 # 1000)]);
     ("valid_roc", VList [VFloat (1 # 2); VFloat roc])].

Definition layers_files : gmap string (file Json.document) :=
  {[ "search.json" :=
       Complete (Json.JArr
                   [Json.to_json (layers_log_of 2 (3 # 5));
                    Json.to_json (layers_log_of 3 (7 # 10))]) ]}.

(** The clouds drawn from that file. *)
Definition layers_clouds : list scatter :=
  [Scatter "layers" [VInt 2; VInt 3] [VFloat (3 # 5); VFloat (7 # 10)]
     "layers.eps";
   Scatter "lr" [VFloat (1 # 100); VFloat (1 # 100)]
     [VFloat (3 # 5); VFloat (7 # 10)] "lr.eps"].

(** *** The figure of a run *)

(** The logs hold, under each of [keys], a list as long as the run list. *)
Definition logged_alongside (w : world) (runs : list pyval)
  (keys : list string) : Prop :=
  ∀ k, k ∈ keys → ∃ l, Spec.entry (logs w) k = Some (VList l) ∧
                       length l = length runs.

(** The logs of one model after two runs of two epochs. *)
Definition two_by_two : world :=
  World (VDict false
           [("run", VList [VInt 1; VInt 1; VInt 2; VInt 2]);
            ("train_loss", VList [VFloat (9 # 10); VFloat (7 # 10);
                                  VFloat (8 # 10); VFloat (6 # 10)]);
            ("valid_loss", VList [VFloat (1 # 2); VFloat (1 # 3);
                                  VFloat (3 # 4); VFloat (1 # 2)]);
            ("lr", VList [VFloat (1 # 10); VFloat (1 # 10);
                          VFloat (1 # 10); VFloat (1 # 100)]);
            ("train_roc", VList [VFloat (5 # 10); VFloat (6 # 10);
                                 VFloat (5 # 10); VFloat (7 # 10)]);
            ("valid_roc", VList [VFloat (4 # 10); VFloat (5 # 10);
                                 VFloat (4 # 10); VFloat (6 # 10)])])
        [] [].

(** *** What [print] reports *)

(** The four metrics of a run at its best epoch. *)
Record best := Best {
  best_train_loss : pyval;
  best_train_roc : pyval;
  best_valid_loss : pyval;
  best_valid_roc : pyval
}.

(** The logs of a model, metric by metric. *)
Record metrics := Metrics {
  runs_logged : list pyval;
  train_losses : list pyval;
  train_rocs : list pyval;
  valid_losses : list pyval;
  valid_rocs : list pyval
}.

(** The logs hold the metrics [m]. *)
Definition holds (v : pyval) (m : metrics) : Prop :=
  Spec.entry v "run" = Some (VList (runs_logged m)) ∧
  Spec.entry v "train_loss" = Some (VList (train_losses m)) ∧
  Spec.entry v "train_roc" = Some (VList (train_rocs m)) ∧
  Spec.entry v "valid_loss" = Some (VList (valid_losses m)) ∧
  Spec.entry v "valid_roc" = Some (VList (valid_rocs m)).

(** The best epoch of the run [r]: within the span of the run, the first
    epoch at which the validation loss is lowest; [b] holds the four
    metrics at that epoch. *)
Definition best_epoch (m : metrics) (r : Z) (b : best) : Prop :=
  ∃ s xs i x,
    Spec.spans (VInt r) (runs_logged m) s ∧
    rmap as_number (get_slice (valid_losses m) s) = Ok xs ∧
    first_min xs i x ∧
    get_slice (train_losses m) s !! i = Some (best_train_loss b) ∧
    get_slice (train_rocs m) s !! i = Some (best_train_roc b) ∧
    get_slice (valid_losses m) s !! i = Some (best_valid_loss b) ∧
    get_slice (valid_rocs m) s !! i = Some (best_valid_roc b).

(** The pair [print] shows for the values of one metric: their [np.mean]
    and their [np.std], each rounded with [round] when [round_to] is
    true. *)
Definition reported (np_mean np_std : list pyval → result pyval)
  (py_round : pyval → pyval → result pyval) (round_to : pyval)
  (values : list pyval) (p : pyval * pyval) : Prop :=
  ∃ mean std,
    np_mean values = Ok mean ∧ np_std values = Ok std ∧
    if truthy round_to
    then py_round mean round_to = Ok p.1 ∧ py_round std round_to = Ok p.2
    else p = (mean, std).

(** The five lines of [print]. *)
Definition print_lines (n : Z) (train_loss train_roc valid_loss valid_roc :
  pyval * pyval) : list line :=
  [Line "Results from {0} runs" [VInt n];
   Line "Train mean loss {0} \pm {1}" [train_loss.1; train_loss.2];
   Line "Train mean roc  {0} \pm {1}" [train_roc.1; train_roc.2];
   Line "Valid mean loss {0} \pm {1}" [valid_loss.1; valid_loss.2];
   Line "Valid mean roc  {0} \pm {1}" [valid_roc.1; valid_roc.2]].

(** The metrics of one model after one run of two epochs. *)
Definition one_run_metrics : metrics :=
  Metrics [VInt 1; VInt 1]
    [VFloat (9 # 10); VFloat (7 # 10)] [VFloat (6 # 10); VFloat (7 # 10)]
    [VFloat (8 # 10); VFloat (1 # 1)] [VFloat (5 # 10); VFloat (6 # 10)].

End Props.

(** ** Properties *)

Module Facts.
Import Py Logger Spec.
Local Open Scope list_scope.
Local Arguments String.eqb : simpl never.

Lemma rbind_ok {A B} (r : result A) (k : A → result B) b :
  rbind r k = Ok b → ∃ a, r = Ok a ∧ k a = Ok b.
Proof. destruct r; simpl; [eauto | discriminate]. Qed.

(** [index] answers the first position that holds the item. *)
Lemma index_first x l i :
  index x l = Ok i →
  occurs_at x l i ∧ ∀ k, occurs_at x l k → i ≤ k.
Proof.
  revert i. induction l as [|y l IH]; intros i; simpl; [discriminate|].
  destruct (py_eq y x) eqn:E.
  - intros [= <-]. split; [exists y; auto | lia].
  - intros H. apply rbind_ok in H as (i' & Hi' & [= <-]).
    destruct (IH _ Hi') as [(z & Hz & Ez) Hmin]. split.
    + exists z. auto.
    + intros [|k] (z' & Hz' & Ez'); simpl in Hz'.
      * congruence.
      * assert (i' ≤ k) by (apply Hmin; exists z'; auto). lia.
Qed.

(** [index] finds the item whenever it occurs. *)
Lemma index_total x l k : occurs_at x l k → ∃ i, index x l = Ok i.
Proof.
  revert k. induction l as [|y l IH]; intros k (z & Hz & Ez).
  - discriminate.
  - simpl. destruct (py_eq y x) eqn:E; [eauto|].
    destruct k as [|k]; simpl in Hz; [congruence|].
    destruct (IH k) as [i ->]; [exists z; auto | simpl; eauto].
Qed.

Lemma occurs_at_lt x l i : occurs_at x l i → i < length l.
Proof. intros (y & Hy & _). by eapply lookup_lt_Some. Qed.

Lemma occurs_at_rev x l i :
  i < length l → occurs_at x (reverse l) i ↔ occurs_at x l (length l - S i).
Proof.
  intros Hi. unfold occurs_at. rewrite reverse_lookup by done.
  done.
Qed.

(** C1. [Logger.run_slice(r, run_list)], for a list in which [r] occurs and
    its occurrences are contiguous, is the slice that starts at the first
    occurrence of [r] and stops one past the last; the positions of the
    slice are then exactly those that hold [r]. *)
Theorem run_slice_first_last (r : pyval) (run_list : list pyval) :
  (∃ i, occurs_at r run_list i) →
  contiguous r run_list →
  ∃ first last,
    run_slice r run_list = Ok (Slice first (S last)) ∧
    occurs_at r run_list first ∧ (∀ i, occurs_at r run_list i → first ≤ i) ∧
    occurs_at r run_list last ∧ (∀ i, occurs_at r run_list i → i ≤ last) ∧
    (∀ i, first ≤ i < S last ↔ occurs_at r run_list i).
Proof.
  intros [k Hk] Hcont.
  destruct (index_total _ _ _ Hk) as [first Hfirst].
  assert (Hk' : occurs_at r (reverse run_list) (length run_list - S k)).
  { pose proof (occurs_at_lt _ _ _ Hk).
    apply occurs_at_rev; [lia|].
    by replace (length run_list - S (length run_list - S k)) with k by lia. }
  destruct (index_total _ _ _ Hk') as [j Hj].
  destruct (index_first _ _ _ Hfirst) as [Hf Hfmin].
  destruct (index_first _ _ _ Hj) as [Hl Hlmin].
  assert (Hjlt : j < length run_list).
  { apply occurs_at_lt in Hl. by rewrite length_reverse in Hl. }
  apply occurs_at_rev in Hl; [|done].
  assert (Hlast : ∀ i, occurs_at r run_list i → i ≤ length run_list - S j).
  { intros i Hi. pose proof (occurs_at_lt _ _ _ Hi).
    assert (j ≤ length run_list - S i); [|lia].
    apply Hlmin, occurs_at_rev; [lia|].
    by replace (length run_list - S (length run_list - S i)) with i by lia. }
  exists first, (length run_list - S j).
  split; [|split_and!; try done].
  - unfold run_slice. rewrite Hfirst, Hj. simpl. do 2 f_equal. lia.
  - intros i. split.
    + intros Hi. eapply Hcont; [exact Hf | exact Hl | lia].
    + intros Hi. pose proof (Hfmin _ Hi). pose proof (Hlast _ Hi). lia.
Qed.

Lemma run_slice_first_last_witness :
  ∃ first last,
    run_slice (VInt 2) [VInt 1; VInt 2; VInt 2; VInt 3] = Ok (Slice first (S last)) ∧
    occurs_at (VInt 2) [VInt 1; VInt 2; VInt 2; VInt 3] first ∧
    (∀ i, occurs_at (VInt 2) [VInt 1; VInt 2; VInt 2; VInt 3] i → first ≤ i) ∧
    occurs_at (VInt 2) [VInt 1; VInt 2; VInt 2; VInt 3] last ∧
    (∀ i, occurs_at (VInt 2) [VInt 1; VInt 2; VInt 2; VInt 3] i → i ≤ last) ∧
    (∀ i, first ≤ i < S last ↔ occurs_at (VInt 2) [VInt 1; VInt 2; VInt 2; VInt 3] i).
Proof.
  assert (Hocc : ∀ i, occurs_at (VInt 2) [VInt 1; VInt 2; VInt 2; VInt 3] i ↔
                      i = 1 ∨ i = 2).
  { intros i. split.
    - intros (y & Hy & Ey).
      do 4 (destruct i as [|i]; [simpl in Hy; injection Hy as <-;
                                 first [discriminate Ey | lia]|]).
      discriminate Hy.
    - intros [-> | ->]; eexists; split; reflexivity. }
  apply run_slice_first_last.
  - exists 1. apply Hocc. lia.
  - intros i j k Hi Hk Hj. apply Hocc. apply Hocc in Hi, Hk. lia.
Defined.

(** *** [zip_longest] and [mean_values] *)

Lemma list_max_tl {A} (ls : list (list A)) :
  list_max (map length (map (@tl A) ls)) = list_max (map length ls) - 1.
Proof.
  induction ls as [|l ls IH]; [done|]. simpl. rewrite IH.
  destruct l; simpl; lia.
Qed.

Lemma all_empty_max {A} (ls : list (list A)) :
  forallb (λ l, bool_decide (length l = 0)) ls = true ↔
  list_max (map length ls) = 0.
Proof.
  induction ls as [|l ls IH]; [done|]. simpl.
  rewrite andb_true_iff, IH, bool_decide_eq_true. lia.
Qed.

Lemma zip_longest_rounds_length {A} n (fill : A) ls :
  list_max (map length ls) ≤ n →
  length (zip_longest_rounds n fill ls) = list_max (map length ls).
Proof.
  revert ls. induction n as [|n IH]; intros ls Hn; simpl; [lia|].
  destruct (forallb _ ls) eqn:E.
  - apply all_empty_max in E. by rewrite E.
  - simpl. rewrite IH, list_max_tl by (rewrite list_max_tl; lia).
    assert (list_max (map length ls) ≠ 0); [|lia].
    intros H0. apply all_empty_max in H0. congruence.
Qed.

Lemma zip_longest_rounds_lookup {A} n (fill : A) ls e :
  list_max (map length ls) ≤ n →
  e < list_max (map length ls) →
  zip_longest_rounds n fill ls !! e = Some (map (λ l, nth e l fill) ls).
Proof.
  revert ls e. induction n as [|n IH]; intros ls e Hn He; simpl; [lia|].
  destruct (forallb _ ls) eqn:E.
  - apply all_empty_max in E. lia.
  - destruct e as [|e]; simpl.
    + f_equal. apply map_ext. by intros [|].
    + rewrite IH by (rewrite list_max_tl; lia).
      f_equal. rewrite map_map. apply map_ext.
      intros [|]; simpl; [by destruct e | done].
Qed.

Lemma zip_longest_length {A} (fill : A) ls :
  length (zip_longest fill ls) = list_max (map length ls).
Proof. by apply zip_longest_rounds_length. Qed.

Lemma zip_longest_lookup {A} (fill : A) ls e :
  e < list_max (map length ls) →
  zip_longest fill ls !! e = Some (map (λ l, nth e l fill) ls).
Proof. by apply zip_longest_rounds_lookup. Qed.

Section MeanValues.
Variable np_mean : list pyval → result pyval.

(** C9. On a metric list whose longest run has fewer than three entries,
    [mean_values] raises [IndexError]: the pivoted list has no row 2 to
    append to. *)
Theorem mean_values_short (metric_list : list (list pyval)) :
  list_max (map length metric_list) < 3 →
  mean_values np_mean metric_list = Raise IndexError.
Proof.
  intros H. unfold mean_values.
  rewrite (lookup_ge_None_2 (zip_longest VNone metric_list) 2); [done|].
  rewrite zip_longest_length. lia.
Qed.

(** C2, at a metric list of one run with two epochs: [mean_values] raises
    [IndexError] where the per-epoch means are the two values. *)
Theorem mean_values_two_epochs :
  mean_values np_mean [[VFloat (1 # 2); VFloat (1 # 4)]] = Raise IndexError.
Proof. reflexivity. Qed.

End MeanValues.

Lemma mean_values_short_witness :
  Instance.mean_values [[VInt 1]; [VInt 2; VInt 3]] = Raise IndexError.
Proof. apply mean_values_short. simpl. lia. Defined.

Lemma not_none_column (ml : list (list pyval)) e :
  Forall (Forall (λ v, v ≠ VNone)) ml →
  List.filter (λ v, match v with VNone => false | _ => true end)
    (map (λ l, nth e l VNone) ml) = omap (λ l : list pyval, l !! e) ml.
Proof.
  induction 1 as [|l ml Hl _ IH]; [done|]. simpl. rewrite IH.
  destruct (l !! e) as [x|] eqn:E.
  - rewrite (nth_lookup_Some _ _ _ _ E).
    assert (x ≠ VNone).
    { rewrite Forall_forall in Hl. apply Hl. by eapply list_elem_of_lookup_2. }
    by destruct x.
  - rewrite nth_overflow; [done|]. by apply lookup_ge_None.
Qed.

Section MeanValuesColumns.
Variable np_mean : list pyval → result pyval.

(** On a metric list whose longest run has three entries or more, and
    whose values are not [None], [mean_values] answers one [np.mean] per
    epoch index [e], taken over the [e]-th values of the runs that have
    one, in the order of the runs. *)
Theorem mean_values_columns (metric_list : list (list pyval)) :
  3 ≤ list_max (map length metric_list) →
  Forall (Forall (λ v, v ≠ VNone)) metric_list →
  mean_values np_mean metric_list =
  rmap np_mean
    (map (λ e, omap (λ l : list pyval, l !! e) metric_list)
         (seq 0 (list_max (map length metric_list)))).
Proof.
  intros Hlen Hvals. unfold mean_values.
  rewrite zip_longest_lookup by lia. f_equal.
  apply list_eq. intros e.
  change (map ?f ?l) with (f <$> l).
  rewrite !list_lookup_fmap.
  destruct (decide (e < list_max (map length metric_list))) as [He|He].
  - rewrite lookup_seq_lt by done. simpl.
    destruct (decide (e = 2)) as [->|Hne].
    + rewrite list_lookup_insert_eq by (rewrite zip_longest_length; lia).
      simpl. f_equal. rewrite List.filter_app. simpl. rewrite app_nil_r.
      by apply not_none_column.
    + rewrite list_lookup_insert_ne by done.
      rewrite zip_longest_lookup by done. simpl. f_equal.
      by apply not_none_column.
  - rewrite (lookup_ge_None_2 (seq _ _)) by (rewrite length_seq; lia).
    rewrite lookup_ge_None_2; [done|].
    rewrite length_insert, zip_longest_length. lia.
Qed.

End MeanValuesColumns.

Lemma mean_values_columns_witness :
  Instance.mean_values [[VInt 1; VInt 2; VInt 3]; [VInt 4]] =
  rmap Instance.np_mean
    (map (λ e, omap (λ l : list pyval, l !! e) [[VInt 1; VInt 2; VInt 3]; [VInt 4]])
         (seq 0 (list_max (map length [[VInt 1; VInt 2; VInt 3]; [VInt 4]])))).
Proof.
  apply mean_values_columns; [simpl; lia|].
  repeat constructor; discriminate.
Defined.

(** The means of two runs of three epochs and of one: the first over both
    runs, the others over the longer run alone. *)
Example mean_values_two_runs :
  Instance.mean_values [[VInt 1; VInt 2; VInt 3]; [VInt 4]] =
  Ok [VFloat (5 # 2); VFloat 2; VFloat 3].
Proof. reflexivity. Qed.

(** *** Dicts *)

Lemma dict_get_set k v t (d : list (string * pyval)) :
  dict_get t (dict_set k v d) = if bool_decide (t = k) then Some v else dict_get t d.
Proof.
  induction d as [|[k' v'] d IH]; simpl.
  - destruct (String.eqb_spec k t) as [->|Hne].
    + by rewrite bool_decide_eq_true_2.
    + by rewrite bool_decide_eq_false_2.
  - destruct (String.eqb_spec k' k) as [->|Hne]; simpl.
    + destruct (String.eqb_spec k t) as [->|Hne'].
      * by rewrite bool_decide_eq_true_2.
      * by rewrite bool_decide_eq_false_2.
    + destruct (String.eqb_spec k' t) as [->|Hne']; [|done].
      by rewrite bool_decide_eq_false_2.
Qed.

Lemma dict_get_snoc k v t (d : list (string * pyval)) :
  dict_get k d = None →
  dict_get t (d ++ [(k, v)]) = if bool_decide (t = k) then Some v else dict_get t d.
Proof.
  induction d as [|[k' v'] d IH]; simpl; intros Hk.
  - destruct (String.eqb_spec k t) as [->|Hne].
    + by rewrite bool_decide_eq_true_2.
    + by rewrite bool_decide_eq_false_2.
  - destruct (String.eqb_spec k' k) as [->|Hne]; [done|].
    destruct (String.eqb_spec k' t) as [->|Hne']; [|by apply IH].
    by rewrite bool_decide_eq_false_2.
Qed.

Lemma dict_get_NoDup {V} k (v : V) d :
  NoDup d.*1 → (k, v) ∈ d → dict_get k d = Some v.
Proof.
  induction d as [|[k' v'] d IH]; simpl; intros Hnd Hin.
  - by apply elem_of_nil in Hin.
  - apply NoDup_cons in Hnd as [Hk' Hnd].
    apply elem_of_cons in Hin as [[= <- <-]|Hin].
    + by rewrite String.eqb_refl.
    + destruct (String.eqb_spec k' k) as [->|Hne]; [|auto].
      destruct Hk'. apply list_elem_of_fmap. by exists (k, v).
Qed.

(** *** The state monad *)

Lemma bind_ret_tt (c : M unit) w : (c ;;; ret tt)%logger w = c w.
Proof. unfold bind, ret. by destruct (c w) as [[[]|e] w']. Qed.

Lemma for_each_cons {A} (body : A → M unit) x l w :
  for_each body (x :: l) w =
  match body x w with
  | (Ok _, w') => for_each body l w'
  | (Raise e, w') => (Raise e, w')
  end.
Proof. done. Qed.

Lemma for_each_app {A} (body : A → M unit) l1 l2 w :
  for_each body (l1 ++ l2) w =
  match for_each body l1 w with
  | (Ok _, w') => for_each body l2 w'
  | (Raise e, w') => (Raise e, w')
  end.
Proof.
  revert w. induction l1 as [|x l1 IH]; intros w; [done|].
  rewrite <-app_comm_cons, !for_each_cons.
  destruct (body x w) as [[[]|e] w']; [apply IH | done].
Qed.

(** *** [logs_append] *)

(** An append that returns has found a list, or made one, and grown it; no
    other entry and nothing on the terminal changed. *)
Lemma logs_append_ok k a w w' :
  logs_append k a w = (Ok tt, w') →
  ∃ f d d' old x,
    logs w = VDict f d ∧ a = Ok x ∧ entry_list (logs w) k = Some old ∧
    logs w' = VDict f d' ∧ stdout w' = stdout w ∧
    ∀ t, dict_get t d' =
         if bool_decide (t = k) then Some (VList (old ++ [x])) else dict_get t d.
Proof.
  unfold logs_append, bind, logs_getitem, lift, raise, logs_setitem, entry_list.
  destruct w as [lg out dr]; simpl.
  destruct lg as [| | | | |f d]; try discriminate.
  destruct (dict_get k d) as [e|] eqn:E.
  - simpl. destruct e as [| | | |l|]; try discriminate.
    destruct a as [x|]; [|discriminate]. simpl. intros [= <-].
    exists f, d, (dict_set k (VList (l ++ [x])) d), l, x.
    split_and!; try done. intros t. apply dict_get_set.
  - destruct f; [|discriminate]. simpl.
    destruct a as [x|]; [|discriminate]. simpl. intros [= <-].
    exists true, d, (dict_set k (VList [x]) (d ++ [(k, VList [])])), [], x.
    split_and!; try done. intros t.
    rewrite dict_get_set, dict_get_snoc by done. by case_bool_decide.
Qed.

(** An append returns when its argument has a value and the entry is a
    list, or is missing from a defaultdict. *)
Lemma logs_append_total k x w :
  is_Some (entry_list (logs w) k) → ∃ w', logs_append k (Ok x) w = (Ok tt, w').
Proof.
  unfold logs_append, bind, logs_getitem, lift, raise, logs_setitem, entry_list.
  destruct w as [lg out dr]; simpl.
  destruct lg as [| | | | |f d]; try (by intros [? ?]).
  destruct (dict_get k d) as [e|] eqn:E.
  - destruct e; try (by intros [? ?]). simpl. eauto.
  - destruct f; [|by intros [? ?]]. simpl. eauto.
Qed.

(** *** Sequences of appends *)

(** A sequence of appends that returns has given every entry the values
    meant for it, in order, and left the others alone. *)
Lemma appends_ok ops w w' f d :
  logs w = VDict f d →
  for_each append_op ops w = (Ok tt, w') →
  (∃ d', logs w' = VDict f d') ∧ stdout w' = stdout w ∧
  Forall (λ p, is_ok p.2 = true) ops ∧
  ∀ t, entry_after (logs w) (logs w') t (values_for t ops).
Proof.
  revert w d. induction ops as [|[k a] ops IH]; intros w d Hw.
  - intros [= <-]. split_and!; eauto. by intros t.
  - rewrite for_each_cons. unfold append_op at 1. simpl.
    destruct (logs_append k a w) as [[[]|e] w1] eqn:E1; [|discriminate].
    intros Hrest.
    apply logs_append_ok in E1
      as (f1 & d0 & d1 & old & x & Hw0 & -> & Hold & Hw1 & Hout1 & Hd1).
    rewrite Hw in Hw0. injection Hw0 as <- <-.
    destruct (IH _ _ Hw1 Hrest) as ([d' Hw'] & Hout & Hall & Hent).
    split; [eauto|]. split; [congruence|]. split; [by constructor|].
    intros t. specialize (Hent t).
    change (values_for t ((k, Ok x) :: ops))
      with ((if bool_decide (t = k) then [x] else []) ++ values_for t ops).
    rewrite Hw, Hw'. rewrite Hw1, Hw' in Hent. rewrite Hw in Hold.
    clear IH Hrest. case_bool_decide as Ht; simpl.
    + subst t. exists old. split; [exact Hold|].
      destruct (values_for k ops) as [|v vs]; simpl in *.
      * rewrite Hent, Hd1. by rewrite bool_decide_eq_true_2.
      * destruct Hent as (old1 & Hold1 & ->).
        rewrite Hd1, bool_decide_eq_true_2 in Hold1 by done.
        injection Hold1 as <-. by rewrite <-app_assoc.
    + destruct (values_for t ops) as [|v vs]; simpl in *.
      * rewrite Hent, Hd1. by rewrite bool_decide_eq_false_2.
      * destruct Hent as (old1 & Hold1 & ->). exists old1. split; [|done].
        by rewrite Hd1, bool_decide_eq_false_2 in Hold1.
Qed.

(** A sequence of appends that returns on logs that are not a dict is
    empty. *)
Lemma appends_ok_dict ops w w' :
  for_each append_op ops w = (Ok tt, w') →
  (ops = [] ∧ w' = w) ∨ ∃ f d, logs w = VDict f d.
Proof.
  destruct ops as [|[k a] ops]; [intros [= <-]; by left|].
  rewrite for_each_cons. unfold append_op at 1. simpl.
  destruct (logs_append k a w) as [[[]|e] w1] eqn:E1; [|discriminate].
  apply logs_append_ok in E1 as (f & d & ? & ? & ? & Hw & _). eauto.
Qed.

(** A sequence of appends returns when every argument has a value and
    every entry named is a list, or is missing from a defaultdict. *)
Lemma appends_total ops w :
  Forall (λ p, is_ok p.2 = true) ops →
  (∀ t, t ∈ ops.*1 → is_Some (entry_list (logs w) t)) →
  ∃ w', for_each append_op ops w = (Ok tt, w').
Proof.
  revert w. induction ops as [|[k a] ops IH]; intros w Hall Hent; [by eexists|].
  apply Forall_cons in Hall as [Ha Hall]. simpl in Ha.
  destruct a as [x|]; [|done].
  destruct (logs_append_total k x w) as [w1 E1]; [apply Hent; left|].
  rewrite for_each_cons. unfold append_op at 1. simpl. rewrite E1.
  apply IH; [done|]. intros t Ht.
  apply logs_append_ok in E1
    as (f & d & d1 & old & x' & Hw & _ & Hold & Hw1 & _ & Hd1).
  assert (Hs : is_Some (entry_list (logs w) t)) by (apply Hent; by right).
  rewrite Hw in Hs. rewrite Hw1. unfold entry_list in *. rewrite Hd1.
  by case_bool_decide.
Qed.

(** *** [log] as a sequence of appends *)

Lemma log_item_appends rd kv w :
  log_item rd kv w = for_each append_op (item_appends rd kv) w.
Proof.
  destruct kv as [k v]. unfold log_item, item_appends. simpl.
  case_bool_decide; simpl; unfold append_op; simpl.
  - unfold bind. destruct (logs_append _ _ w) as [[[]|e] w1]; [|done].
    by destruct (logs_append _ _ w1) as [[[]|e] w2].
  - by rewrite bind_ret_tt.
Qed.

Lemma for_each_log_items rd items w :
  for_each (log_item rd) items w =
  for_each append_op (flat_map (item_appends rd) items) w.
Proof.
  revert w. induction items as [|kv items IH]; intros w; [done|].
  simpl flat_map. rewrite for_each_app, for_each_cons, log_item_appends.
  destruct (for_each append_op _ w) as [[[]|e] w1]; [apply IH | done].
Qed.

Lemma values_for_app t ops1 ops2 :
  values_for t (ops1 ++ ops2) = values_for t ops1 ++ values_for t ops2.
Proof. apply flat_map_app. Qed.

(** The appends of [log] add to each entry what the claim lists for it. *)
Lemma values_for_items rd t items :
  (∀ k v, (k, v) ∈ items → dict_get k rd = Some v) →
  values_for t (flat_map (item_appends rd) items) =
  flat_map (contributed rd t) items.*1.
Proof.
  induction items as [|[k v] items IH]; intros Hget; [done|].
  simpl flat_map. rewrite values_for_app, IH
    by (intros k' v' ?; apply Hget; by right).
  f_equal. unfold item_appends, contributed, results_item. simpl.
  rewrite (Hget k v) by left.
  case_bool_decide; simpl; [|by case_bool_decide].
  by rewrite !app_nil_r.
Qed.

Lemma item_appends_targets rd items :
  (flat_map (item_appends rd) items).*1 =
  flat_map (λ k, if bool_decide (k ∈ sample_sets)
                 then [k +:+ "_loss"; k +:+ "_roc"] else [k]) items.*1.
Proof.
  induction items as [|[k v] items IH]; [done|].
  simpl flat_map. rewrite fmap_app, IH. f_equal.
  unfold item_appends. simpl. by case_bool_decide.
Qed.

Lemma log_ready_appends w rd :
  log_ready w rd →
  Forall (λ p, is_ok p.2 = true) (flat_map (item_appends rd) rd) ∧
  ∀ t, t ∈ (flat_map (item_appends rd) rd).*1 → is_Some (entry_list (logs w) t).
Proof.
  intros [Hfields Hentries]. split.
  - apply Forall_flat_map, Forall_forall. intros [k v] Hin.
    unfold item_appends. simpl. case_bool_decide as Hs.
    + destruct (Hfields k) as [? ?]; [|done|by repeat constructor].
      apply list_elem_of_fmap. by exists (k, v).
    + by repeat constructor.
  - intros t Ht. apply Hentries. unfold log_targets.
    by rewrite <-(item_appends_targets rd).
Qed.

(** C3, amended. [log(results_dict)] returns whenever the dict and the logs
    are fit for it, and whenever it returns it has appended, for each sample
    set [k] of the dict, its loss to [k_loss] and its roc to [k_roc], and for
    every other key its value to the entry of that key; no other entry of
    the logs has changed, and nothing was printed. *)
Theorem log_appends_on_return (w : world) (results_dict : list (string * pyval)) :
  NoDup results_dict.*1 →
  (log_ready w results_dict → ∃ w', log results_dict w = (Ok tt, w')) ∧
  (∀ w', log results_dict w = (Ok tt, w') →
         stdout w' = stdout w ∧
         ∀ t, entry_after (logs w) (logs w') t (appended_to results_dict t)).
Proof.
  intros Hnd. unfold log. split.
  - intros Hready. apply log_ready_appends in Hready as [Hall Hent].
    destruct (appends_total _ w Hall Hent) as [w' Hw'].
    exists w'. by rewrite for_each_log_items.
  - intros w' Hrun. rewrite for_each_log_items in Hrun.
    assert (Hvals : ∀ t, values_for t (flat_map (item_appends results_dict) results_dict)
                         = appended_to results_dict t).
    { intros t. apply values_for_items. intros k v. by apply dict_get_NoDup. }
    destruct (appends_ok_dict _ _ _ Hrun) as [[Hops ->]|(f & d & Hw)].
    + split; [done|]. intros t. rewrite <-Hvals, Hops. done.
    + destruct (appends_ok _ _ _ _ _ Hw Hrun) as (_ & Hout & _ & Hent).
      split; [done|]. intros t. rewrite <-Hvals. apply Hent.
Qed.

Lemma log_appends_on_return_witness :
  (log_ready (init VNone) Instance.epoch_results →
   ∃ w', log Instance.epoch_results (init VNone) = (Ok tt, w')) ∧
  (∀ w', log Instance.epoch_results (init VNone) = (Ok tt, w') →
         stdout w' = stdout (init VNone) ∧
         ∀ t, entry_after (logs (init VNone)) (logs w') t
                (appended_to Instance.epoch_results t)).
Proof.
  apply (log_appends_on_return (init VNone) Instance.epoch_results).
  apply (bool_decide_unpack _). vm_compute. exact I.
Defined.

(** What that call leaves in the logs. *)
Example log_epoch_results :
  log Instance.epoch_results (init VNone) =
  (Ok tt,
   World (VDict true [("info", VNone);
                      ("train_loss", VList [VFloat (1 # 2)]);
                      ("train_roc", VList [VFloat (3 # 4)]);
                      ("lr", VList [VFloat (1 # 100)])]) [] []).
Proof. reflexivity. Qed.

(** C3 fails as stated: on a new logger, whose [info] entry is [None] and
    no list, [log({'info': 1})] raises [AttributeError] and appends
    nothing. *)
Lemma log_info_key_raises : ¬ log_appends (init VNone) [("info", VInt 1)].
Proof. intros (w' & Hrun & _). vm_compute in Hrun. discriminate Hrun. Qed.

(** *** Alignment of the loss and roc lists *)

Lemma sample_sets_elem k :
  k ∈ sample_sets ↔ k = "train" ∨ k = "valid" ∨ k = "test".
Proof. unfold sample_sets. rewrite !elem_of_cons, elem_of_nil. tauto. Qed.

Lemma sample_suffixes s k :
  s ∈ sample_sets → k ∈ sample_sets →
  (s +:+ "_loss" = k +:+ "_loss" ↔ s = k) ∧
  (s +:+ "_roc" = k +:+ "_roc" ↔ s = k) ∧
  s +:+ "_loss" ≠ k +:+ "_roc" ∧ s +:+ "_roc" ≠ k +:+ "_loss".
Proof.
  rewrite !sample_sets_elem.
  intros [-> | [-> | ->]] [-> | [-> | ->]]; simpl; split_and!; done.
Qed.

Lemma values_for_aligned rd s items :
  s ∈ sample_sets →
  s +:+ "_loss" ∉ items.*1 → s +:+ "_roc" ∉ items.*1 →
  Forall (λ p, is_ok p.2 = true) (flat_map (item_appends rd) items) →
  length (values_for (s +:+ "_loss") (flat_map (item_appends rd) items)) =
  length (values_for (s +:+ "_roc") (flat_map (item_appends rd) items)).
Proof.
  intros Hs. induction items as [|[k v] items IH]; [done|].
  rewrite fmap_cons, !not_elem_of_cons. simpl fst.
  intros [Hl Hl'] [Hr Hr']. simpl flat_map.
  rewrite Forall_app. intros [Hk Hall].
  rewrite !values_for_app, !length_app, IH by done. f_equal.
  revert Hk. unfold item_appends. simpl. case_bool_decide as Hsk.
  - destruct (sample_suffixes s k Hs Hsk) as (Hll & Hrr & Hlr & Hrl).
    intros Hk. apply Forall_cons in Hk as [Ha Hk].
    apply Forall_cons in Hk as [Hb _]. simpl in Ha, Hb.
    destruct (results_field rd k "loss"); [|done].
    destruct (results_field rd k "roc"); [|done].
    unfold values_for. simpl.
    rewrite (bool_decide_eq_false_2 _ Hlr), (bool_decide_eq_false_2 _ Hrl).
    rewrite (bool_decide_ext _ _ Hll), <-(bool_decide_ext _ _ Hrr).
    by case_bool_decide.
  - intros _. unfold values_for. simpl.
    by rewrite !bool_decide_eq_false_2.
Qed.

Lemma entry_list_len v t l : entry_list v t = Some l → entry_len v t = Some (length l).
Proof.
  destruct v as [| | | | |f d]; simpl; try done.
  destruct (dict_get t d) as [[]|]; try done; [by intros [= ->]|].
  destruct f; [by intros [= <-]|done].
Qed.

Lemma entry_after_len f d d' t vs n :
  entry_after (VDict f d) (VDict f d') t vs →
  entry_len (VDict f d) t = Some n →
  entry_len (VDict f d') t = Some (n + length vs).
Proof.
  destruct vs as [|v vs]; simpl.
  - intros ->. rewrite Nat.add_0_r. done.
  - intros (old & Hold & ->) Hn.
    apply (entry_list_len (VDict f d)) in Hold. simpl in Hold.
    rewrite Hold in Hn. injection Hn as <-. by rewrite length_app.
Qed.

(** C4, amended. A call of [log] that returns, on a [results_dict] that
    has neither [s_loss] nor [s_roc] among its own keys, keeps the loss and
    roc lists of the sample set [s] of equal length. *)
Theorem log_keeps_lists_aligned (w w' : world)
  (results_dict : list (string * pyval)) (s : string) :
  s ∈ sample_sets →
  s +:+ "_loss" ∉ results_dict.*1 →
  s +:+ "_roc" ∉ results_dict.*1 →
  log results_dict w = (Ok tt, w') →
  aligned (logs w) s → aligned (logs w') s.
Proof.
  intros Hs Hl Hr Hrun. unfold log in Hrun. rewrite for_each_log_items in Hrun.
  destruct (appends_ok_dict _ _ _ Hrun) as [[_ ->]|(f & d & Hw)]; [done|].
  destruct (appends_ok _ _ _ _ _ Hw Hrun) as ([d' Hw'] & _ & Hall & Hent).
  rewrite Hw, Hw' in *. intros (n & Hnl & Hnr).
  exists (n + length (values_for (s +:+ "_loss")
                        (flat_map (item_appends results_dict) results_dict))).
  split.
  - by eapply entry_after_len.
  - rewrite (values_for_aligned results_dict s results_dict) by done.
    by eapply entry_after_len.
Qed.

Lemma log_keeps_lists_aligned_witness :
  aligned
    (logs (log [("valid", VDict false [("loss", VInt 1); ("roc", VInt 0)])]
               (init VNone)).2) "valid".
Proof.
  apply (log_keeps_lists_aligned (init VNone) _
           [("valid", VDict false [("loss", VInt 1); ("roc", VInt 0)])] "valid").
  - apply (bool_decide_unpack _). vm_compute. exact I.
  - apply (bool_decide_unpack _). vm_compute. exact I.
  - apply (bool_decide_unpack _). vm_compute. exact I.
  - reflexivity.
  - exists 0. split; reflexivity.
Defined.

(** C4 fails as stated: on a new logger [log({'train_loss': 0.5})] returns
    with one value under [train_loss] and none under [train_roc]. *)
Lemma log_breaks_alignment :
  ¬ log_keeps_aligned (init VNone) [("train_loss", VFloat (1 # 2))] "train".
Proof.
  intros H. destruct H as (n & Hl & Hr).
  - exists 0. split; reflexivity.
  - vm_compute in Hl, Hr. congruence.
Qed.

(** *** The logs hold lists of scalars, the [info] entry apart *)















(** An [info] that is a list grows when a call logs under [info]. *)
Example info_list_grows :
  entry (logs (after_logs [[("info", VInt 1)]] (init (VList [])))) "info"
  = Some (VList [VInt 1]).
Proof. reflexivity. Qed.

(** A call that is given a string to append stores it: the lists hold
    scalars only as far as the calls give scalars. *)
Example log_stores_what_it_is_given :
  entry (logs (after_logs [[("lr", VStr "high")]] (init VNone))) "lr"
  = Some (VList [VStr "high"]).
Proof. reflexivity. Qed.

(** *** Method bodies that return *)

Lemma bind_ok {A B} (c : M A) (k : A → M B) w b w' :
  bind c k w = (Ok b, w') → ∃ a w1, c w = (Ok a, w1) ∧ k a w1 = (Ok b, w').
Proof.
  unfold bind. destruct (c w) as [[a|e] w1]; [eauto | discriminate].
Qed.

Lemma lift_ok {A} (r : result A) w a w' :
  lift r w = (Ok a, w') → r = Ok a ∧ w' = w.
Proof. unfold lift. by intros [= -> ->]. Qed.

Lemma ret_ok {A} (x : A) w a w' : ret x w = (Ok a, w') → a = x ∧ w' = w.
Proof. unfold ret. by intros [= -> ->]. Qed.

Lemma py_print_ok t a w w' :
  py_print t a w = (Ok tt, w') → logs w' = logs w.
Proof. unfold py_print. by intros [= <-]. Qed.

(** A read of the logs that returns found the entry and changed nothing,
    or made an empty list. *)
Lemma logs_getitem_ok k w v w' :
  logs_getitem k w = (Ok v, w') →
  (w' = w ∧ entry (logs w) k = Some v) ∨ (v = VList [] ∧ entry (logs w) k = None).
Proof.
  unfold logs_getitem, entry. destruct (logs w) as [| | | | |f d]; try discriminate.
  destruct (dict_get k d) as [x|].
  - intros [= <- <-]. by left.
  - destruct f; [|discriminate]. intros [= <- <-]. by right.
Qed.

Lemma get_slice_nil s : get_slice [] s = [].
Proof. unfold get_slice. by rewrite drop_nil, take_nil. Qed.

Lemma logs_slice_ok k s w l w' :
  logs_slice k s w = (Ok l, w') → w' = w ∨ l = [].
Proof.
  unfold logs_slice. intros H.
  apply bind_ok in H as (e & w1 & Hget & H).
  apply bind_ok in H as (l0 & w2 & Hseq & H).
  apply lift_ok in Hseq as [Hseq ->]. apply ret_ok in H as [-> ->].
  apply logs_getitem_ok in Hget as [[-> _]|[-> _]]; [by left|right].
  injection Hseq as <-. apply get_slice_nil.
Qed.

(** A slice that has an item at some position was not made by the read. *)
Lemma slice_item_ok k s w l w1 i x :
  logs_slice k s w = (Ok l, w1) → item l i = Ok x → w1 = w.
Proof.
  intros Hl Hitem. apply logs_slice_ok in Hl as [->| ->]; [done|].
  unfold item in Hitem. by rewrite lookup_nil in Hitem.
Qed.

Section Rendering.
Variable np_mean np_std : list pyval → result pyval.
Variable py_round : pyval → pyval → result pyval.
Variable document : Type.
Variable json_loads : document → option pyval.
Variable os_error : string → option exn.

Local Abbreviation print := (Logger.print np_mean np_std py_round).
Local Abbreviation print_experiment :=
  (Logger.print_experiment np_mean np_std py_round document json_loads
     os_error).

(** One round of the loop of [print] that returns has changed nothing. *)
Lemma best_of_run_ok runs r w x w' :
  best_of_run runs r w = (Ok x, w') → w' = w.
Proof.
  unfold best_of_run. intros H.
  apply bind_ok in H as (run_start & w1 & E & H). apply lift_ok in E as [_ ->].
  apply bind_ok in H as (j & w1 & E & H). apply lift_ok in E as [_ ->].
  apply bind_ok in H as (range_of & w1 & Erange & H).
  apply bind_ok in H as (keys & w2 & Ekeys & H).
  apply bind_ok in H as (best_idx & w3 & E & H). apply lift_ok in E as [Hmin ->].
  assert (w1 = w) as ->.
  { apply logs_slice_ok in Erange as [->| ->]; [done | discriminate Hmin]. }
  rewrite Erange in Ekeys. injection Ekeys as <- <-.
  apply bind_ok in H as (tl & w1 & Etl & H).
  apply bind_ok in H as (a & w2 & E & H). apply lift_ok in E as [Ha ->].
  pose proof (slice_item_ok _ _ _ _ _ _ _ Etl Ha) as ->. clear Etl Ha.
  apply bind_ok in H as (tr & w1 & Etr & H).
  apply bind_ok in H as (b & w2 & E & H). apply lift_ok in E as [Hb ->].
  pose proof (slice_item_ok _ _ _ _ _ _ _ Etr Hb) as ->. clear Etr Hb.
  apply bind_ok in H as (vl & w1 & Evl & H).
  apply bind_ok in H as (c & w2 & E & H). apply lift_ok in E as [Hc ->].
  pose proof (slice_item_ok _ _ _ _ _ _ _ Evl Hc) as ->. clear Evl Hc.
  apply bind_ok in H as (vr & w1 & Evr & H).
  apply bind_ok in H as (d & w2 & E & H). apply lift_ok in E as [Hd ->].
  pose proof (slice_item_ok _ _ _ _ _ _ _ Evr Hd) as ->. clear Evr Hd.
  by apply ret_ok in H as [_ ->].
Qed.

Lemma best_of_runs_ok runs rs acc w x w' :
  best_of_runs runs rs acc w = (Ok x, w') → w' = w.
Proof.
  revert acc w. induction rs as [|r rs IH]; intros acc w; simpl.
  - intros H. by apply ret_ok in H as [_ ->].
  - intros H. apply bind_ok in H as (best & w1 & E & H).
    apply best_of_run_ok in E as ->.
    destruct acc as [[[tl tr] vl] vr], best as [[[a b] c] d]. by eapply IH.
Qed.

(** [print] that returns leaves the logs as they were. *)
Lemma print_ok round_to w w' :
  print round_to w = (Ok tt, w') → logs w' = logs w.
Proof.
  unfold Logger.print. intros H.
  apply bind_ok in H as (runs_v & w1 & Eruns & H).
  apply bind_ok in H as (num_runs & w2 & E & H). apply lift_ok in E as [Hmax ->].
  assert (w1 = w) as ->.
  { apply logs_getitem_ok in Eruns as [[-> _]|[-> _]]; [done | discriminate Hmax]. }
  apply bind_ok in H as (rs & w1 & E & H). apply lift_ok in E as [_ ->].
  apply bind_ok in H as (runs & w1 & E & H). apply lift_ok in E as [_ ->].
  apply bind_ok in H as (best & w1 & E & H). apply best_of_runs_ok in E as ->.
  destruct best as [[[train_losses train_rocs] valid_losses] valid_rocs].
  apply bind_ok in H as (tl & w1 & E & H). apply lift_ok in E as [_ ->].
  apply bind_ok in H as (tr & w1 & E & H). apply lift_ok in E as [_ ->].
  apply bind_ok in H as (vl & w1 & E & H). apply lift_ok in E as [_ ->].
  apply bind_ok in H as (vr & w1 & E & H). apply lift_ok in E as [_ ->].
  apply bind_ok in H as (rounded & w1 & E & H).
  assert (w1 = w) as ->.
  { destruct (truthy round_to).
    - apply bind_ok in E as (a & w2 & E' & E). apply lift_ok in E' as [_ ->].
      apply bind_ok in E as (b & w2 & E' & E). apply lift_ok in E' as [_ ->].
      apply bind_ok in E as (c & w2 & E' & E). apply lift_ok in E' as [_ ->].
      apply bind_ok in E as (d & w2 & E' & E). apply lift_ok in E' as [_ ->].
      by apply ret_ok in E as [_ ->].
    - by apply ret_ok in E as [_ ->]. }
  destruct rounded as [[[a b] c] d]. clear E.
  apply bind_ok in H as ([] & w1 & E & H). apply py_print_ok in E as <-.
  apply bind_ok in H as ([] & w2 & E & H). apply py_print_ok in E as <-.
  apply bind_ok in H as ([] & w3 & E & H). apply py_print_ok in E as <-.
  apply bind_ok in H as ([] & w4 & E & H). apply py_print_ok in E as <-.
  by apply py_print_ok in H.
Qed.

(** One round of the loop of [print_experiment] that returns leaves the
    log it printed as the logs. *)
Lemma print_log_ok log w w' :
  print_log np_mean np_std py_round log w = (Ok tt, w') → logs w' = log.
Proof.
  unfold print_log. intros H.
  apply bind_ok in H as (info & w1 & E & H). apply lift_ok in E as [_ ->].
  apply bind_ok in H as (model_type & w1 & E & H). apply lift_ok in E as [_ ->].
  apply bind_ok in H as ([] & w1 & E & H). apply py_print_ok in E.
  apply bind_ok in H as ([] & w2 & E2 & H). injection E2 as <-.
  apply bind_ok in H as ([] & w3 & E3 & H). apply print_ok in E3.
  apply py_print_ok in H. by rewrite H, E3.
Qed.

Lemma print_logs_ok ls w w' :
  for_each (print_log np_mean np_std py_round) ls w = (Ok tt, w') →
  logs w' = default (logs w) (last ls).
Proof.
  revert w. induction ls as [|l ls IH]; intros w.
  - by intros [= <-].
  - rewrite for_each_cons.
    destruct (print_log _ _ _ l w) as [[[]|e] w1] eqn:E; [|discriminate].
    intros H. apply IH in H. apply print_log_ok in E. rewrite H, E.
    rewrite last_cons. by destruct (last ls).
Qed.

(** C6, amended. [print(round_to)], when it returns, leaves the logs as
    they were.  [print_experiment(filepath)], when it returns, leaves as the
    logs the last log of the file, whatever the logs were before; on a file
    that holds no log it leaves the logs as they were.  (Both methods loop
    over finite lists only: they always end, by returning or by
    raising.) *)
Theorem rendering_and_the_logs (round_to : pyval) (filepath : string)
  (fs : gmap string (file document)) (w : world) :
  (∀ w', print round_to w = (Ok tt, w') → logs w' = logs w) ∧
  (∀ w', print_experiment filepath fs w = (Ok tt, w') →
         ∃ experiment_logs ls,
           read_json document json_loads os_error filepath fs
           = Ok experiment_logs ∧
           py_iter experiment_logs = Ok ls ∧
           logs w' = default (logs w) (last ls)).
Proof.
  split; [apply print_ok|].
  unfold Logger.print_experiment. intros w' H.
  apply bind_ok in H as (v & w1 & E & H). apply lift_ok in E as [Hread ->].
  apply bind_ok in H as (ls & w1 & E & H). apply lift_ok in E as [Hiter ->].
  exists v, ls. split_and!; [done | done | by apply print_logs_ok].
Qed.

End Rendering.

Lemma rendering_and_the_logs_witness :
  logs (Instance.print VNone (World Instance.one_run_log [] [])).2
  = Instance.one_run_log ∧
  logs (Instance.print_experiment "experiment.json" Instance.experiment_files
          (init VNone)).2
  = Instance.one_run_log.
Proof.
  split.
  - apply (rendering_and_the_logs Instance.np_mean Instance.np_std
             Instance.py_round Json.document Json.loads Instance.os_error
             VNone "experiment.json" Instance.experiment_files
             (World Instance.one_run_log [] [])).
    vm_compute. reflexivity.
  - destruct (rendering_and_the_logs Instance.np_mean Instance.np_std
                Instance.py_round Json.document Json.loads Instance.os_error
                VNone "experiment.json" Instance.experiment_files
                (init VNone)) as [_ Hexp].
    destruct (Hexp (Instance.print_experiment "experiment.json"
                      Instance.experiment_files (init VNone)).2)
      as (v & ls & Hread & Hiter & ->).
    + vm_compute. reflexivity.
    + vm_compute in Hread. injection Hread as <-.
      vm_compute in Hiter. injection Hiter as <-. reflexivity.
Defined.

(** C6 fails as stated: [print_experiment] on a new logger, given a file of
    one log, ends with that log as the logs. *)
Lemma print_experiment_replaces_logs :
  ¬ rendering_read_only VNone "experiment.json" Instance.experiment_files
      (init VNone).
Proof. intros [_ H]. vm_compute in H. discriminate H. Qed.

(** On a logger that already holds the last log of the file,
    [print_experiment] leaves logs equal to those it found, though the
    file holds a log. *)
Example print_experiment_of_own_log :
  logs (Instance.print_experiment "experiment.json" Instance.experiment_files
          (World Instance.one_run_log [] [])).2
  = Instance.one_run_log.
Proof. reflexivity. Qed.

(** [print] on a new logger raises, after the defaultdict has made the
    [run] entry it was asked for. *)
Lemma print_makes_run_entry :
  Instance.print VNone (init VNone) =
  (Raise ValueError, World (VDict true [("info", VNone); ("run", VList [])]) [] []).
Proof. reflexivity. Qed.

(** *** Persistence *)

(** Induction on values, through the lists and the dicts. *)
Lemma pyval_induction (P : pyval → Prop) :
  P VNone → (∀ n, P (VInt n)) → (∀ x, P (VFloat x)) → (∀ s, P (VStr s)) →
  (∀ l, Forall P l → P (VList l)) →
  (∀ f d, Forall (λ kv, P kv.2) d → P (VDict f d)) →
  ∀ v, P v.
Proof.
  intros HN HI HF HS HL HD. fix IH 1.
  intros [| n | x | s | l | f d]; [done..| |].
  - apply HL. induction l as [|v l IHl]; constructor; [apply IH | apply IHl].
  - apply HD. induction d as [|[k v] d IHd]; constructor; [apply IH | apply IHd].
Qed.

(** Two lists are equal when their items are, one by one. *)
Lemma py_eq_lists l l' :
  Forall2 (λ a b, py_eq a b = true) l l' → py_eq (VList l) (VList l') = true.
Proof.
  induction 1 as [|a b l l' Hab _ IH]; [done|].
  simpl in *. by rewrite Hab.
Qed.

(** Two dicts are equal when they have as many items and every item of the
    first has an equal value under its key in the second. *)
Lemma py_eq_dicts f f' d d' :
  length d = length d' →
  Forall (λ kv, ∃ v', dict_get kv.1 d' = Some v' ∧ py_eq kv.2 v' = true) d →
  py_eq (VDict f d) (VDict f' d') = true.
Proof.
  intros Hlen Hall. simpl. apply andb_true_iff. split; [by apply Nat.eqb_eq|].
  clear Hlen. induction Hall as [|[k v] r (v' & Hget & Heq) _ IH]; [done|].
  simpl in *. by rewrite Hget, Heq.
Qed.

Lemma dict_set_fresh {V} k (v : V) d :
  k ∉ d.*1 → dict_set k v d = d ++ [(k, v)].
Proof.
  induction d as [|[k' v'] d IH]; [done|].
  rewrite fmap_cons, not_elem_of_cons. simpl. intros [Hne Hd].
  destruct (String.eqb_spec k' k) as [->|_]; [done|]. by rewrite IH.
Qed.

(** Items of distinct keys make the dict of these items, in their
    order. *)
Lemma dict_of_items_distinct {V} (items : list (string * V)) :
  NoDup items.*1 → dict_of_items items = items.
Proof.
  unfold dict_of_items.
  assert (H : ∀ acc, NoDup (acc ++ items).*1 →
    fold_left (λ d kv, dict_set kv.1 kv.2 d) items acc = acc ++ items).
  { induction items as [|[k v] items IH]; intros acc Hnd; simpl.
    - by rewrite app_nil_r.
    - rewrite dict_set_fresh.
      + rewrite IH; rewrite <-app_assoc; done.
      + rewrite fmap_app in Hnd. apply NoDup_app in Hnd as (_ & Hdis & _).
        intros Hk. apply (Hdis k Hk). left. }
  intros Hnd. by apply (H []).
Qed.

(** What [json] reads back from what it wrote for a value equals that
    value: dicts of either class read back as plain dicts of the same
    items. *)
Lemma json_reads_back v :
  distinct_keys v = true → py_eq (Json.of_json (Json.to_json v)) v = true.
Proof.
  induction v as [| n | x | s | l IH | f d IH] using pyval_induction;
    intros Hkeys; simpl.
  - done.
  - apply Z.eqb_refl.
  - apply Qeq_bool_iff, Qeq_refl.
  - apply String.eqb_refl.
  - apply py_eq_lists. simpl in Hkeys.
    induction IH as [|v l Hv _ IHl]; [constructor|].
    simpl in Hkeys. apply andb_true_iff in Hkeys as [Hv' Hl'].
    constructor; [by apply Hv | by apply IHl].
  - simpl in Hkeys. apply andb_true_iff in Hkeys as [Hnd Hvals].
    apply bool_decide_eq_true in Hnd.
    assert (Hitems : map (λ kv : string * Json.document, (kv.1, Json.of_json kv.2))
                       (map (λ kv : string * pyval, (kv.1, Json.to_json kv.2)) d)
                     = map (λ kv, (kv.1, Json.of_json (Json.to_json kv.2))) d).
    { by rewrite map_map. }
    rewrite Hitems, dict_of_items_distinct.
    2:{ change (NoDup (map fst (map (λ kv : string * pyval,
                  (kv.1, Json.of_json (Json.to_json kv.2))) d))).
        by rewrite map_map. }
    apply (py_eq_dicts false f); [by rewrite length_map|].
    apply Forall_forall. intros kv [[k v] [-> Hin]]%list_elem_of_fmap. simpl.
    exists v. split; [by apply dict_get_NoDup|].
    rewrite Forall_forall in IH. apply (IH (k, v) Hin).
    rewrite forallb_forall in Hvals.
    apply (Hvals (k, v)). by apply list_elem_of_In.
Qed.

Section Persistence.
Variable os_error : string → option exn.

(** C5, amended. For logs made of the values of the model, a path that
    ends with [.json] and an operating system that lets the path be opened,
    [save] and then [load] on that path return and leave logs equal to
    those saved. *)
Theorem save_then_load (filepath : string) (w : world)
  (fs : gmap string (file Json.document)) :
  endswith filepath ".json" = true →
  os_error filepath = None →
  distinct_keys (logs w) = true →
  round_trips os_error filepath w fs.
Proof.
  intros Hpath Hopen Hkeys.
  exists (<[filepath := Complete (Json.to_json (logs w))]> fs),
         (set_logs (Json.of_json (Json.to_json (logs w))) w).
  unfold save, load, bind, lift, read_json, Json.dumps, Json.loads.
  rewrite Hpath, Hopen. simpl. rewrite lookup_insert_eq.
  split_and!; try done. by apply json_reads_back.
Qed.

End Persistence.

Lemma save_then_load_witness :
  round_trips Instance.os_error "logs.json"
    (log Instance.epoch_results (init VNone)).2 ∅.
Proof.
  apply (save_then_load Instance.os_error "logs.json"
           (log Instance.epoch_results (init VNone)).2 ∅); reflexivity.
Defined.

(** C5 fails as stated: on a path that does not end with [.json], [save]
    raises [AssertionError] and writes nothing. *)
Lemma save_refuses_path :
  ¬ round_trips Instance.os_error "logs.txt" (init VNone) stale_files.
Proof. intros (fs' & w' & Hsave & _). vm_compute in Hsave. discriminate Hsave. Qed.

(** After the refused [save], [load] reads the document the file held
    before. *)
Lemma load_after_refused_save :
  (Instance.save "logs.txt" (init VNone) stale_files).1 = Raise AssertionError ∧
  logs (Instance.load "logs.txt"
          (Instance.save "logs.txt" (init VNone) stale_files).2
          (init VNone)).2 = Instance.one_run_log.
Proof. split; vm_compute; reflexivity. Qed.

(** Nor does it hold on a path that cannot be opened, here one in a
    directory that does not exist: [save] raises what [open] raises, and
    no file is written. *)
Lemma save_cannot_open :
  ¬ round_trips Instance.os_error "runs/logs.json" (init VNone) ∅ ∧
  Instance.save "runs/logs.json" (init VNone) ∅ = (Raise FileNotFoundError, ∅).
Proof.
  split; [|reflexivity].
  intros (fs' & w' & Hsave & _). vm_compute in Hsave. discriminate Hsave.
Qed.

(** The logs read back are a plain dict, whatever was saved: equal to a
    defaultdict of the same items, but no longer one. *)
Example load_makes_a_plain_dict :
  logs (Instance.load "logs.json"
          (Instance.save "logs.json" (init VNone) ∅).2 (init VNone)).2
  = VDict false [("info", VNone)].
Proof. reflexivity. Qed.

(** *** The run [plot_run] settles on *)

Lemma Qltb_lt x y : Qltb x y = true ↔ (x < y)%Q.
Proof.
  unfold Qltb. rewrite Qlt_alt. destruct (x ?= y)%Q; split; congruence.
Qed.

Lemma Qltb_ge x y : Qltb x y = false → (y <= x)%Q.
Proof.
  intros H. apply Qnot_lt_le. intros Hlt. apply Qltb_lt in Hlt. congruence.
Qed.

(** The scan of [np.argmax]: from a best value [bv] at position [best],
    over the numbers [l] that start at position [i], it ends on the first
    greatest of them all. *)
Lemma argmax_from_spec (pre l : list Q) best bv :
  pre !! best = Some bv →
  (∀ y, y ∈ pre → (y <= bv)%Q) →
  (∀ j y, j < best → pre !! j = Some y → (y < bv)%Q) →
  ∃ x, first_max (pre ++ l) (argmax_from best bv (length pre) l) x.
Proof.
  revert pre best bv. induction l as [|x l IH]; intros pre best bv Hbest Hmax Hfirst.
  - simpl. rewrite app_nil_r. by exists bv.
  - simpl. destruct (Qltb bv x) eqn:E.
    + specialize (IH (pre ++ [x]) (length pre) x).
      rewrite length_app, <-app_assoc in IH. simpl in IH.
      rewrite Nat.add_1_r in IH. apply IH.
      * by rewrite lookup_app_r, Nat.sub_diag.
      * apply Qltb_lt in E. intros y [Hy|Hy%list_elem_of_singleton]%elem_of_app.
        -- eapply Qle_trans; [by apply Hmax | by apply Qlt_le_weak].
        -- subst y. apply Qle_refl.
      * apply Qltb_lt in E. intros j y Hj Hy.
        rewrite lookup_app_l in Hy by done.
        eapply Qle_lt_trans; [|exact E]. apply Hmax.
        by eapply list_elem_of_lookup_2.
    + specialize (IH (pre ++ [x]) best bv).
      rewrite length_app, <-app_assoc in IH. simpl in IH.
      rewrite Nat.add_1_r in IH. apply IH.
      * apply lookup_app_l_Some. done.
      * apply Qltb_ge in E. intros y [Hy|Hy%list_elem_of_singleton]%elem_of_app.
        -- by apply Hmax.
        -- by subst y.
      * intros j y Hj Hy. apply (Hfirst j y Hj).
        rewrite lookup_app_l in Hy; [done|].
        apply lookup_lt_Some in Hbest. lia.
Qed.

Lemma np_argmax_first_max l xs :
  rmap as_number l = Ok xs → xs ≠ [] →
  ∃ i x, np_argmax (VList l) = Ok i ∧ first_max xs i x.
Proof.
  intros Hxs Hne. unfold np_argmax. rewrite Hxs. simpl.
  destruct xs as [|x0 xs]; [done|].
  destruct (argmax_from_spec [x0] xs 0 x0) as [x Hx].
  - done.
  - intros y ->%list_elem_of_singleton. apply Qle_refl.
  - intros j y Hj. lia.
  - exists (argmax_from 0 x0 1 xs), x. done.
Qed.

(** *** The figure [plot_run] draws *)

Lemma index_raises x l e : index x l = Raise e → e = ValueError.
Proof.
  induction l as [|y l IH]; simpl; [by intros [= <-]|].
  destruct (py_eq y x); [done|].
  destruct (index x l); simpl; [done|]. intros [= <-]. by apply IH.
Qed.

Lemma index_absent x l e : index x l = Raise e → ∀ i, ¬ occurs_at x l i.
Proof.
  intros H i Hi. destruct (index_total _ _ _ Hi) as [k Hk]. congruence.
Qed.

Lemma occurs_at_reverse x l i :
  occurs_at x l i → occurs_at x (reverse l) (length l - S i).
Proof.
  intros Hi. pose proof (occurs_at_lt _ _ _ Hi).
  apply occurs_at_rev; [lia|].
  by replace (length l - S (length l - S i)) with i by lia.
Qed.

(** What a slice answered by [run_slice] is, contiguous run or not: from
    the first occurrence to one past the last. *)
Lemma run_slice_ok r l s : run_slice r l = Ok s → spans r l s.
Proof.
  unfold run_slice, spans. intros H.
  apply rbind_ok in H as (first & Hfirst & H).
  apply rbind_ok in H as (j & Hj & [= <-]). simpl.
  destruct (index_first _ _ _ Hfirst) as [Hf Hfmin].
  destruct (index_first _ _ _ Hj) as [Hl Hlmin].
  assert (Hjlt : j < length l).
  { apply occurs_at_lt in Hl. by rewrite length_reverse in Hl. }
  apply occurs_at_rev in Hl; [|done].
  split_and!; try done; try lia.
  - by replace (length l - j - 1) with (length l - S j) by lia.
  - intros i Hi. pose proof (occurs_at_lt _ _ _ Hi).
    pose proof (Hlmin _ (occurs_at_reverse _ _ _ Hi)). lia.
Qed.

Lemma run_slice_total r l i : occurs_at r l i → ∃ s, run_slice r l = Ok s.
Proof.
  intros Hi. unfold run_slice.
  destruct (index_total _ _ _ Hi) as [a ->].
  destruct (index_total _ _ _ (occurs_at_reverse _ _ _ Hi)) as [j ->].
  simpl. eauto.
Qed.

Lemma logs_getitem_entry k v w :
  entry (logs w) k = Some v → logs_getitem k w = (Ok v, w).
Proof.
  unfold entry, logs_getitem. destruct (logs w); try done. by intros ->.
Qed.

Lemma logs_slice_entry k s l w :
  entry (logs w) k = Some (VList l) → logs_slice k s w = (Ok (get_slice l s), w).
Proof.
  intros H. unfold logs_slice, bind, lift, ret.
  by rewrite (logs_getitem_entry _ _ _ H).
Qed.

(** A value whose dicts have distinct keys equals itself. *)
Lemma py_eq_refl v : distinct_keys v = true → py_eq v v = true.
Proof.
  induction v as [| n | x | s | l IH | f d IH] using pyval_induction;
    intros Hkeys.
  - done.
  - apply Z.eqb_refl.
  - apply Qeq_bool_iff, Qeq_refl.
  - apply String.eqb_refl.
  - apply py_eq_lists. simpl in Hkeys.
    induction IH as [|v l Hv _ IHl]; [constructor|].
    simpl in Hkeys. apply andb_true_iff in Hkeys as [Hv' Hl'].
    constructor; [by apply Hv | by apply IHl].
  - simpl in Hkeys. apply andb_true_iff in Hkeys as [Hnd Hvals].
    apply bool_decide_eq_true in Hnd.
    apply py_eq_dicts; [done|].
    apply Forall_forall. intros [k v] Hin. simpl.
    exists v. split; [by apply dict_get_NoDup|].
    rewrite Forall_forall in IH. apply (IH (k, v) Hin).
    rewrite forallb_forall in Hvals.
    apply (Hvals (k, v)). by apply list_elem_of_In.
Qed.

Section PlotRun.
Variable matplotlib : list call → call → result unit.

Local Abbreviation plt := (Logger.plt matplotlib).
Local Abbreviation plot_run := (Logger.plot_run matplotlib).

(** A call of matplotlib followed by the rest of a body, when the rest
    only hands further calls to matplotlib. *)
Lemma plt_step f a kw (k : M unit) cs lg out dr :
  (∀ dr', k (World lg out dr') = handed matplotlib (World lg out dr') cs) →
  (plt f a kw ;;; k)%logger (World lg out dr)
  = handed matplotlib (World lg out dr) (Call f a kw :: cs).
Proof.
  intros Hk. unfold bind, Logger.plt, handed. simpl.
  destruct (matplotlib _ _) as [[]|]; [|done]. by rewrite Hk.
Qed.

Lemma plt_last f a kw w : plt f a kw w = handed matplotlib w [Call f a kw].
Proof.
  unfold Logger.plt, handed. simpl. by destruct (matplotlib _ _) as [[]|].
Qed.

(** A slice of an entry that is a list, followed by the rest of a body. *)
Lemma slice_bind {A} k s l (rest : list pyval → M A) lg out dr :
  entry lg k = Some (VList l) →
  (x <- logs_slice k s ;; rest x)%logger (World lg out dr)
  = rest (get_slice l s) (World lg out dr).
Proof.
  intros H. unfold bind at 1.
  by rewrite (logs_slice_entry k s l (World lg out dr) H).
Qed.

(** Once the run [r] is settled on, [plot_run] hands matplotlib the figure
    of the five metrics cut by the slice of [r], and does nothing else. *)
Lemma plot_run_draws run r save_path w runs s tl vl lr tr vr :
  entry (logs w) "run" = Some (VList runs) →
  chosen_run run (VList runs) w = (Ok r, w) →
  run_slice r runs = Ok s →
  entry (logs w) "train_loss" = Some (VList tl) →
  entry (logs w) "valid_loss" = Some (VList vl) →
  entry (logs w) "lr" = Some (VList lr) →
  entry (logs w) "train_roc" = Some (VList tr) →
  entry (logs w) "valid_roc" = Some (VList vr) →
  plot_run run save_path w =
  handed matplotlib w
    (run_figure (get_slice tl s) (get_slice vl s) (get_slice lr s)
       (get_slice tr s) (get_slice vr s) save_path).
Proof.
  intros Hruns Hchosen Hs Htl Hvl Hlr Htr Hvr.
  unfold run_slice in Hs.
  apply rbind_ok in Hs as (a & Ha & Hs).
  apply rbind_ok in Hs as (j & Hj & [= <-]).
  unfold Logger.plot_run. unfold bind at 1.
  rewrite (logs_getitem_entry _ _ _ Hruns).
  unfold bind at 1. rewrite Hchosen.
  unfold bind at 1, lift at 1. simpl py_seq. cbv iota beta.
  unfold bind at 1, lift at 1. rewrite Ha.
  unfold bind at 1, lift at 1. rewrite Hj.
  destruct w as [lg out dr]. simpl in Htl, Hvl, Hlr, Htr, Hvr.
  unfold run_figure, train_col, valid_col, alt_col. cbn [app].
  do 2 (apply plt_step; intros ?).
  rewrite (slice_bind _ _ _ _ _ _ _ Htl). apply plt_step; intros ?.
  rewrite (slice_bind _ _ _ _ _ _ _ Hvl). do 6 (apply plt_step; intros ?).
  rewrite (slice_bind _ _ _ _ _ _ _ Hlr). do 5 (apply plt_step; intros ?).
  rewrite (slice_bind _ _ _ _ _ _ _ Htr). apply plt_step; intros ?.
  rewrite (slice_bind _ _ _ _ _ _ _ Hvr). do 6 (apply plt_step; intros ?).
  destruct (truthy save_path); cbn [app].
  - apply plt_step; intros ?. apply plt_last.
  - unfold bind at 1, ret at 1. apply plt_last.
Qed.

(** With no run asked for, the run settled on is the one logged at the
    first position of the greatest validation loss. *)
Lemma chosen_run_of_none run w runs vl losses :
  truthy run = false →
  entry (logs w) "valid_loss" = Some (VList vl) →
  rmap as_number vl = Ok losses →
  losses ≠ [] →
  length losses ≤ length runs →
  ∃ i x r, first_max losses i x ∧ runs !! i = Some r ∧
           chosen_run run (VList runs) w = (Ok r, w).
Proof.
  intros Hrun Hvl Hnum Hne Hlen.
  destruct (np_argmax_first_max _ _ Hnum Hne) as (i & x & Harg & Hmax).
  assert (Hi : i < length runs).
  { destruct Hmax as [Hi _]. apply lookup_lt_Some in Hi. lia. }
  destruct (lookup_lt_is_Some_2 runs i Hi) as [r Hr].
  exists i, x, r. split_and!; try done.
  unfold chosen_run, bind, lift. rewrite Hrun. simpl.
  rewrite (logs_getitem_entry _ _ _ Hvl), Harg. simpl.
  unfold item. by rewrite Hr.
Qed.

(** C10. With no run asked for ([None], [0] or any false value), on logs
    that hold the run of every epoch and the five metrics, [plot_run]
    plots the run logged at the position of the greatest validation loss
    (the first, if several are greatest): it does what it does when asked
    for that run, which is to hand matplotlib the figure of the five
    metrics cut by the slice of that run. *)
Theorem plot_run_picks_greatest_valid_loss (run save_path : pyval) (w : world)
  (runs tl vl lr tr vr : list pyval) (losses : list Q) :
  truthy run = false →
  entry (logs w) "run" = Some (VList runs) →
  distinct_keys (VList runs) = true →
  entry (logs w) "valid_loss" = Some (VList vl) →
  rmap as_number vl = Ok losses →
  losses ≠ [] →
  length losses ≤ length runs →
  entry (logs w) "train_loss" = Some (VList tl) →
  entry (logs w) "lr" = Some (VList lr) →
  entry (logs w) "train_roc" = Some (VList tr) →
  entry (logs w) "valid_roc" = Some (VList vr) →
  ∃ i x r s,
    first_max losses i x ∧ runs !! i = Some r ∧ spans r runs s ∧
    plot_run run save_path w = plot_run r save_path w ∧
    plot_run run save_path w =
    handed matplotlib w
      (run_figure (get_slice tl s) (get_slice vl s) (get_slice lr s)
         (get_slice tr s) (get_slice vr s) save_path).
Proof.
  intros Hrun Hruns Hkeys Hvl Hnum Hne Hlen Htl Hlr Htr Hvr.
  destruct (chosen_run_of_none run w runs vl losses)
    as (i & x & r & Hmax & Hr & Hchosen); try done.
  assert (Hocc : occurs_at r runs i).
  { exists r. split; [done|]. apply py_eq_refl.
    simpl in Hkeys. rewrite forallb_forall in Hkeys.
    apply Hkeys, list_elem_of_In. by eapply list_elem_of_lookup_2. }
  destruct (run_slice_total _ _ _ Hocc) as [s Hs].
  assert (Hagain : chosen_run r (VList runs) w = (Ok r, w)).
  { destruct (truthy r) eqn:Er.
    - unfold chosen_run. by rewrite Er.
    - rewrite <-Hchosen. unfold chosen_run. by rewrite Er, Hrun. }
  exists i, x, r, s. split_and!; try done.
  - by apply run_slice_ok.
  - rewrite (plot_run_draws run r save_path w runs s tl vl lr tr vr) by done.
    by rewrite (plot_run_draws r r save_path w runs s tl vl lr tr vr).
  - by apply (plot_run_draws run r save_path w runs).
Qed.

End PlotRun.

Lemma plot_run_picks_greatest_valid_loss_witness :
  ∃ i x r s,
    first_max [1 # 2; 3 # 4; 3 # 4; 1 # 3]%Q i x ∧
    [VInt 1; VInt 2; VInt 2; VInt 3] !! i = Some r ∧
    spans r [VInt 1; VInt 2; VInt 2; VInt 3] s ∧
    Instance.plot_run VNone VNone three_runs_logged
    = Instance.plot_run r VNone three_runs_logged ∧
    Instance.plot_run VNone VNone three_runs_logged =
    handed Instance.matplotlib three_runs_logged
      (run_figure
         (get_slice [VFloat (9 # 10); VFloat (8 # 10); VFloat (7 # 10);
                     VFloat (6 # 10)] s)
         (get_slice [VFloat (1 # 2); VFloat (3 # 4); VFloat (3 # 4);
                     VFloat (1 # 3)] s)
         (get_slice [VFloat (1 # 10); VFloat (1 # 10); VFloat (1 # 100);
                     VFloat (1 # 100)] s)
         (get_slice [VFloat (5 # 10); VFloat (6 # 10); VFloat (7 # 10);
                     VFloat (8 # 10)] s)
         (get_slice [VFloat (4 # 10); VFloat (5 # 10); VFloat (6 # 10);
                     VFloat (7 # 10)] s)
         VNone).
Proof.
  apply (plot_run_picks_greatest_valid_loss Instance.matplotlib VNone VNone
           three_runs_logged [VInt 1; VInt 2; VInt 2; VInt 3]);
    try reflexivity; discriminate.
Defined.

(** *** Runs of the methods on small logs *)

Example run_slice_of_second_run :
  run_slice (VInt 2) [VInt 1; VInt 1; VInt 2; VInt 2; VInt 2; VInt 3]
  = Ok (Slice 2 5).
Proof. reflexivity. Qed.

Example run_slice_of_missing_run :
  run_slice (VInt 4) [VInt 1; VInt 1; VInt 2] = Raise ValueError.
Proof. reflexivity. Qed.

(** A sample set that comes without its roc: [log] raises [KeyError] after
    the loss was appended and the roc list made. *)
Example log_raises_between_appends :
  log [("train", VDict false [("loss", VInt 1)])] (init VNone) =
  (Raise KeyError,
   World (VDict true [("info", VNone); ("train_loss", VList [VInt 1]);
                      ("train_roc", VList [])]) [] []).
Proof. reflexivity. Qed.

(** Three epochs over two runs, the greatest validation loss in the second:
    [plot_run()] on a new logger that logged nothing else plots run 2, with
    the empty lists the defaultdict makes for the other metrics. *)
Example plot_run_of_no_run :
  (Instance.plot_run VNone VNone
     (World (VDict true
               [("run", VList [VInt 1; VInt 1; VInt 2]);
                ("valid_loss", VList [VFloat (1 # 2); VFloat (1 # 3);
                                      VFloat (3 # 4)])]) [] []))
  = (Ok tt,
     World (VDict true
              [("run", VList [VInt 1; VInt 1; VInt 2]);
               ("valid_loss", VList [VFloat (1 # 2); VFloat (1 # 3);
                                     VFloat (3 # 4)]);
               ("train_loss", VList []); ("lr", VList []);
               ("train_roc", VList []); ("valid_roc", VList [])]) []
       (run_figure [] [VFloat (3 # 4)] [] [] [] VNone)).
Proof. reflexivity. Qed.

(** The same logs read back from a file are a plain dict: [plot_run()]
    opens the figure and raises [KeyError] at the first metric that is
    missing. *)
Example plot_run_of_loaded_logs :
  (Instance.plot_run VNone VNone
     (World (VDict false
               [("run", VList [VInt 1; VInt 1; VInt 2]);
                ("valid_loss", VList [VFloat (1 # 2); VFloat (1 # 3);
                                      VFloat (3 # 4)])]) [] []))
  = (Raise KeyError,
     World (VDict false
              [("run", VList [VInt 1; VInt 1; VInt 2]);
               ("valid_loss", VList [VFloat (1 # 2); VFloat (1 # 3);
                                     VFloat (3 # 4)])]) []
       [Call "plt.figure" []
          [("figsize", VList [VInt 14; VFloat (13 # 2)]); ("dpi", VInt 80)];
        Call "fig.add_subplot" [VInt 121] []]).
Proof. reflexivity. Qed.

(** [print] of one run of two epochs: the first has the lower validation
    loss, and its four metrics are the means. *)
Example print_one_run :
  stdout (Instance.print VNone (World Instance.one_run_log [] [])).2 =
  [Line "Results from {0} runs" [VInt 1];
   Line "Train mean loss {0} \pm {1}" [VFloat (9 # 10); VFloat 0];
   Line "Train mean roc  {0} \pm {1}" [VFloat (3 # 5); VFloat 0];
   Line "Valid mean loss {0} \pm {1}" [VFloat (4 # 5); VFloat 0];
   Line "Valid mean roc  {0} \pm {1}" [VFloat (1 # 2); VFloat 0]].
Proof. reflexivity. Qed.

End Facts.

(** ** Further properties *)

Module MoreFacts.
Import Py Logger Spec Plots Props Facts.
Local Open Scope list_scope.
Local Arguments String.eqb : simpl never.


(** *** [run_slice] *)

(** [run_slice] raises nothing but [ValueError], and that exactly when the
    run is not in the list; otherwise its slice is not empty, lies within
    the list, and starts and ends on the run. *)
Theorem run_slice_outcomes (r : pyval) (run_list : list pyval) :
  (run_slice r run_list = Raise ValueError ∧ ∀ i, ¬ occurs_at r run_list i) ∨
  (∃ s, run_slice r run_list = Ok s ∧
        start s < stop s ≤ length run_list ∧
        occurs_at r run_list (start s) ∧ occurs_at r run_list (stop s - 1)).
Proof.
  destruct (run_slice r run_list) as [s|e] eqn:E.
  - right. exists s. destruct (run_slice_ok _ _ _ E) as (Hf & _ & Hb & Hl & Hmax).
    split_and!; try done; try lia. by apply Hmax.
  - left. unfold run_slice in E.
    destruct (index r run_list) as [first|e1] eqn:E1; simpl in E.
    + destruct (index r (reverse run_list)) as [j|e2] eqn:E2; simpl in E; [done|].
      injection E as <-. destruct (index_first _ _ _ E1) as [Hf _].
      destruct (index_absent _ _ _ E2 _ (occurs_at_reverse _ _ _ Hf)).
    + injection E as <-. rewrite (index_raises _ _ _ E1).
      split; [done|]. by eapply index_absent.
Qed.


Lemma filter_none {A} (f : A → bool) (l : list A) :
  (∀ i y, l !! i = Some y → f y = false) → List.filter f l = [].
Proof.
  induction l as [|x l IH]; intros H; [done|]. simpl.
  rewrite (H 0 x eq_refl). apply IH. intros i y. apply (H (S i)).
Qed.

Lemma filter_all {A} (f : A → bool) (l : list A) :
  (∀ i y, l !! i = Some y → f y = true) → List.filter f l = l.
Proof.
  induction l as [|x l IH]; intros H; [done|]. simpl.
  rewrite (H 0 x eq_refl). f_equal. apply IH. intros i y. apply (H (S i)).
Qed.

Lemma get_slice_split (l : list pyval) a b :
  a ≤ b → l = take a l ++ get_slice l (Slice a b) ++ drop b l.
Proof.
  intros Hab. unfold get_slice. simpl.
  rewrite app_assoc, take_take_drop.
  replace (a + (b - a)) with b by lia. by rewrite take_drop.
Qed.

Lemma get_slice_same_length (l m : list pyval) (s : slice) :
  length m = length l → length (get_slice m s) = length (get_slice l s).
Proof.
  intros Hlen. unfold get_slice. by rewrite !length_take, !length_drop, Hlen.
Qed.

(** The slice of a contiguous run cuts out of the run list the entries of
    that run, and nothing else. *)
Lemma run_slice_cut (r : pyval) (run_list : list pyval) (s : slice) :
  run_slice r run_list = Ok s →
  contiguous r run_list →
  get_slice run_list s = List.filter (λ y, py_eq y r) run_list.
Proof.
  intros Hs Hcont.
  destruct (run_slice_ok _ _ _ Hs) as (Hf & Hmin & Hb & Hl & Hmax).
  destruct s as [a b]. simpl in *.
  assert (Hab : a ≤ b) by (pose proof (Hmax _ Hf); lia).
  assert (Hcut : get_slice run_list (Slice a b)
                 = List.filter (λ y, py_eq y r) run_list).
  { assert (Hbefore : List.filter (λ y, py_eq y r) (take a run_list) = []).
    { apply filter_none. intros i y Hi.
      apply lookup_take_Some in Hi as [Hi Hlt].
      destruct (py_eq y r) eqn:E; [|done].
      assert (a ≤ i); [|lia]. apply Hmin. by exists y. }
    assert (Hafter : List.filter (λ y, py_eq y r) (drop b run_list) = []).
    { apply filter_none. intros i y Hi. rewrite lookup_drop in Hi.
      destruct (py_eq y r) eqn:E; [|done].
      assert (b + i < b); [|lia]. apply Hmax. by exists y. }
    assert (Hrun : List.filter (λ y, py_eq y r) (get_slice run_list (Slice a b))
                   = get_slice run_list (Slice a b)).
    { apply filter_all. intros i y Hi. unfold get_slice in Hi. simpl in Hi.
      apply lookup_take_Some in Hi as [Hi Hlt]. rewrite lookup_drop in Hi.
      destruct (Hcont a (a + i) (b - 1) Hf Hl) as (z & Hz & Ez); [lia|].
      congruence. }
    rewrite (get_slice_split run_list a b Hab) at 2.
    rewrite !List.filter_app, Hbefore, Hafter, Hrun. simpl.
    by rewrite app_nil_r. }
  exact Hcut.
Qed.

(** Cutting the run list itself with the slice of a contiguous run gives
    the entries of that run and nothing else; cutting a metric logged
    alongside gives one value per epoch of the run. *)
Theorem run_slice_cuts_the_run (r : pyval) (run_list metric : list pyval)
  (s : slice) :
  run_slice r run_list = Ok s →
  contiguous r run_list →
  get_slice run_list s = List.filter (λ y, py_eq y r) run_list ∧
  (length metric = length run_list →
   length (get_slice metric s) = length (List.filter (λ y, py_eq y r) run_list)).
Proof.
  intros Hs Hcont. pose proof (run_slice_cut _ _ _ Hs Hcont) as Hcut.
  split; [done|]. intros Hlen. rewrite <-Hcut.
  by apply get_slice_same_length.
Qed.

Lemma run_slice_cuts_the_run_witness :
  get_slice [VInt 1; VInt 2; VInt 2; VInt 3] (Slice 1 3)
  = List.filter (λ y, py_eq y (VInt 2)) [VInt 1; VInt 2; VInt 2; VInt 3] ∧
  (length [VFloat (1 # 2); VFloat (1 # 3); VFloat (1 # 4); VFloat (1 # 5)]
   = length [VInt 1; VInt 2; VInt 2; VInt 3] →
   length (get_slice [VFloat (1 # 2); VFloat (1 # 3); VFloat (1 # 4); VFloat (1 # 5)]
             (Slice 1 3))
   = length (List.filter (λ y, py_eq y (VInt 2)) [VInt 1; VInt 2; VInt 2; VInt 3])).
Proof.
  apply (run_slice_cuts_the_run (VInt 2) [VInt 1; VInt 2; VInt 2; VInt 3]);
    [reflexivity|].
  assert (Hocc : ∀ i, occurs_at (VInt 2) [VInt 1; VInt 2; VInt 2; VInt 3] i ↔
                      i = 1 ∨ i = 2).
  { intros i. split.
    - intros (y & Hy & Ey).
      do 4 (destruct i as [|i]; [simpl in Hy; injection Hy as <-;
                                 first [discriminate Ey | lia]|]).
      discriminate Hy.
    - intros [-> | ->]; eexists; split; reflexivity. }
  intros i j k Hi Hk Hj. apply Hocc. apply Hocc in Hi, Hk. lia.
Defined.


(** *** [log] *)

Lemma values_for_length t ops :
  NoDup ops.*1 → Forall (λ p, is_ok p.2 = true) ops →
  length (values_for t ops) = if bool_decide (t ∈ ops.*1) then 1 else 0.
Proof.
  induction ops as [|[k a] ops IH]; [done|].
  rewrite fmap_cons, NoDup_cons, Forall_cons. simpl.
  intros [Hk Hnd] [Ha Hall].
  change (values_for t ((k, a) :: ops))
    with ((if bool_decide (t = k) then value_of a else []) ++ values_for t ops).
  rewrite length_app, IH by done. destruct a as [x|]; [|done].
  destruct (decide (t = k)) as [->|Hne].
  - rewrite (bool_decide_eq_true_2 (k = k)) by done.
    rewrite (bool_decide_eq_false_2 (k ∈ ops.*1)) by done.
    by rewrite bool_decide_eq_true_2 by left.
  - rewrite (bool_decide_eq_false_2 (t = k)) by done. simpl.
    rewrite (bool_decide_ext (t ∈ k :: ops.*1) (t ∈ ops.*1)); [done|].
    rewrite elem_of_cons. tauto.
Qed.

(** One call of [log] that returns, on a dict whose targets are all
    different: every list it appends to is one longer, the others are as
    long as before. *)
Lemma log_ok_entry_len w w' rd t n :
  NoDup (log_targets rd) →
  log rd w = (Ok tt, w') →
  entry_len (logs w) t = Some n →
  entry_len (logs w') t
  = Some (n + if bool_decide (t ∈ log_targets rd) then 1 else 0).
Proof.
  intros Hnd Hrun Hn. unfold log in Hrun. rewrite for_each_log_items in Hrun.
  unfold log_targets in *. rewrite <-(item_appends_targets rd) in *.
  destruct (appends_ok_dict _ _ _ Hrun) as [[Hops ->]|(f & d & Hw)].
  - rewrite Hops. simpl. by rewrite Nat.add_0_r.
  - destruct (appends_ok _ _ _ _ _ Hw Hrun) as ([d' Hw'] & _ & Hall & Hent).
    rewrite <-(values_for_length t _ Hnd Hall).
    rewrite Hw, Hw' in *. by eapply entry_after_len.
Qed.

(** A sequence of [log] calls that all return, each on a dict whose
    targets are all different, lengthens every list by the number of calls
    that appended to it. *)
Theorem log_each_counts_calls (calls : list (list (string * pyval)))
  (w w' : world) :
  Forall (λ rd, NoDup (log_targets rd)) calls →
  log_each calls w = (Ok tt, w') →
  ∀ t n, entry_len (logs w) t = Some n →
         entry_len (logs w') t = Some (n + calls_on t calls).
Proof.
  unfold log_each. intros Hall. revert w.
  induction Hall as [|rd calls Hrd _ IH]; intros w Hrun t n Hn.
  - injection Hrun as <-. unfold calls_on. simpl. by rewrite Nat.add_0_r.
  - rewrite for_each_cons in Hrun.
    destruct (log rd w) as [[[]|e] w1] eqn:E1; [|done].
    pose proof (log_ok_entry_len _ _ _ _ _ Hrd E1 Hn) as H1.
    rewrite (IH _ Hrun _ _ H1). f_equal. unfold calls_on. simpl.
    case_bool_decide; simpl; lia.
Qed.

Lemma log_each_counts_calls_witness :
  entry_len (logs (log_each Instance.two_calls (init VNone)).2) "train_loss"
  = Some (0 + calls_on "train_loss" Instance.two_calls).
Proof.
  apply (log_each_counts_calls Instance.two_calls (init VNone)).
  - repeat constructor; apply (bool_decide_unpack _); vm_compute; exact I.
  - reflexivity.
  - reflexivity.
Defined.

(** From a new logger, calls of [log] that carry the same metrics every
    time leave every list they append to with one value per call: the
    lists of the logger stay aligned. *)
Theorem same_metrics_stay_aligned (info : pyval)
  (calls : list (list (string * pyval))) (targets : list string) (w' : world) :
  Forall (λ rd, NoDup (log_targets rd) ∧
                ∀ t, t ∈ log_targets rd ↔ t ∈ targets) calls →
  log_each calls (init info) = (Ok tt, w') →
  ∀ t, t ∈ targets → t ≠ "info" →
       entry_len (logs w') t = Some (length calls).
Proof.
  intros Hall Hrun t Ht Hinfo.
  assert (H0 : entry_len (logs (init info)) t = Some 0).
  { unfold init. simpl. unfold dict_get.
    destruct (String.eqb_spec "info" t) as [<-|]; done. }
  revert H0 Hrun. unfold log_each. generalize (init info) as w.
  change (Some (length calls)) with (Some (0 + length calls)).
  generalize 0 as n.
  induction Hall as [|rd calls [Hnd Hrd] _ IH]; intros n w Hn Hrun.
  - injection Hrun as <-. simpl. by rewrite Nat.add_0_r.
  - rewrite for_each_cons in Hrun.
    destruct (log rd w) as [[[]|e] w1] eqn:E1; [|done].
    pose proof (log_ok_entry_len _ _ _ _ _ Hnd E1 Hn) as H1.
    rewrite bool_decide_eq_true_2 in H1 by (by apply Hrd).
    rewrite (IH _ _ H1 Hrun). simpl. f_equal. lia.
Qed.

Lemma epoch_results_targets :
  NoDup (log_targets Instance.epoch_results) ∧
  ∀ t, t ∈ log_targets Instance.epoch_results
       ↔ t ∈ ["train_loss"; "train_roc"; "lr"].
Proof. split; [apply (bool_decide_unpack _); vm_compute; exact I | done]. Qed.

Lemma same_metrics_stay_aligned_witness :
  entry_len
    (logs (log_each [Instance.epoch_results; Instance.epoch_results]
             (init VNone)).2) "train_roc"
  = Some 2.
Proof.
  apply (same_metrics_stay_aligned VNone
           [Instance.epoch_results; Instance.epoch_results]
           ["train_loss"; "train_roc"; "lr"]).
  - apply Forall_cons; split; [exact epoch_results_targets|].
    apply Forall_cons; split; [exact epoch_results_targets|]. apply Forall_nil_2.
  - reflexivity.
  - apply (bool_decide_unpack _). vm_compute. exact I.
  - discriminate.
Defined.


Lemma values_for_nonempty t ops :
  t ∈ ops.*1 → Forall (λ p, is_ok p.2 = true) ops → values_for t ops ≠ [].
Proof.
  induction ops as [|[k a] ops IH]; [by intros ?%elem_of_nil|].
  rewrite fmap_cons, elem_of_cons, Forall_cons. simpl.
  intros Hin [Ha Hall].
  change (values_for t ((k, a) :: ops))
    with ((if bool_decide (t = k) then value_of a else []) ++ values_for t ops).
  destruct a as [x|]; [|done].
  destruct (decide (t = k)) as [->|Hne].
  - by rewrite bool_decide_eq_true_2.
  - rewrite bool_decide_eq_false_2 by done. simpl.
    destruct Hin as [?|Hin]; [done | by apply IH].
Qed.

(** On logs that are a plain dict, as [load] leaves them, [log] raises
    when an entry it is to append to is missing: nothing makes the list a
    defaultdict would have made. *)
Theorem log_needs_entries_of_plain_dict (w : world)
  (results_dict : list (string * pyval)) (d : list (string * pyval))
  (t : string) :
  logs w = VDict false d →
  t ∈ log_targets results_dict →
  dict_get t d = None →
  ∃ e w', log results_dict w = (Raise e, w').
Proof.
  intros Hw Ht Hnone.
  destruct (log results_dict w) as [[[]|e] w'] eqn:Hrun; [|eauto].
  exfalso. unfold log in Hrun. rewrite for_each_log_items in Hrun.
  destruct (appends_ok _ _ _ _ _ Hw Hrun) as (_ & _ & Hall & Hent).
  specialize (Hent t). unfold log_targets in Ht.
  rewrite <-(item_appends_targets results_dict) in Ht.
  pose proof (values_for_nonempty _ _ Ht Hall) as Hne.
  destruct (values_for t _) as [|v vs]; [done|].
  destruct Hent as (old & Hold & _). rewrite Hw in Hold. simpl in Hold.
  by rewrite Hnone in Hold.
Qed.

Lemma log_needs_entries_of_plain_dict_witness :
  ∃ e w', log [("epoch", VInt 3)] (World Instance.one_run_log [] []) = (Raise e, w').
Proof.
  refine (log_needs_entries_of_plain_dict (World Instance.one_run_log [] [])
            [("epoch", VInt 3)] _ "epoch" eq_refl _ eq_refl).
  apply (bool_decide_unpack _). vm_compute. exact I.
Defined.

(** *** [plot_run] *)

Lemma grown_from_refl w : grown_from w w.
Proof. split_and!; try done. intros k v Hv. by left. Qed.

Lemma grown_from_trans w1 w2 w3 :
  grown_from w1 w2 → grown_from w2 w3 → grown_from w1 w3.
Proof.
  intros (Ho1 & He1 & Hn1 & Hp1) (Ho2 & He2 & Hn2 & Hp2). split_and!.
  - congruence.
  - eauto.
  - intros k v Hv. destruct (Hn2 k v Hv) as [Hv2|[Hv2 ->]]; [by apply Hn1|].
    right. split; [|done].
    destruct (entry (logs w1) k) as [v1|] eqn:E1; [|done].
    apply He1 in E1. congruence.
  - intros d Hd. rewrite (Hp2 d); [by eapply Hp1|].
    by rewrite (Hp1 d Hd).
Qed.

Lemma logs_getitem_grows k w v w' :
  logs_getitem k w = (Ok v, w') →
  grown_from w w' ∧ entry (logs w') k = Some v ∧ drawn w' = drawn w.
Proof.
  unfold logs_getitem, grown_from, entry.
  destruct w as [lg out dr]. simpl.
  destruct lg as [| | | | |f d]; try discriminate.
  destruct (dict_get k d) as [x|] eqn:E.
  - intros [= <- <-]. simpl. rewrite E. split_and!; try done.
    intros k0 v0 Hv0. by left.
  - destruct f; [|discriminate]. intros [= <- <-]. simpl.
    rewrite dict_get_snoc, bool_decide_eq_true_2 by done.
    split_and!; try done.
    + intros k0 v0 Hk0. rewrite dict_get_snoc by done.
      case_bool_decide; [congruence | done].
    + intros k0 v0. rewrite dict_get_snoc by done.
      case_bool_decide as Hk; [|by left].
      subst k0. intros [= <-]. by right.
Qed.

Lemma reads_getitem k : reads (logs_getitem k).
Proof. intros w v w' H. by apply logs_getitem_grows in H as [? _]. Qed.

Lemma finds_getitem k : finds k (logs_getitem k).
Proof. intros w v w' H. apply logs_getitem_grows in H as (_ & ? & _). eauto. Qed.

Lemma reads_lift {A} (r : result A) : reads (lift r).
Proof. intros w a w' H. apply lift_ok in H as [_ ->]. apply grown_from_refl. Qed.

Lemma reads_ret {A} (x : A) : reads (ret x).
Proof. intros w a w' H. apply ret_ok in H as [_ ->]. apply grown_from_refl. Qed.

Lemma reads_raise {A} e : reads (raise e : M A).
Proof. by intros w a w' H. Qed.

Lemma reads_bind {A B} (c : M A) (k : A → M B) :
  reads c → (∀ a, reads (k a)) → reads (bind c k).
Proof.
  intros Hc Hk w b w' H. apply bind_ok in H as (a & w1 & E & H).
  eapply grown_from_trans; [by eapply Hc | by eapply Hk].
Qed.

Lemma reads_if {A} (b : bool) (c1 c2 : M A) :
  reads c1 → reads c2 → reads (if b then c1 else c2).
Proof. by destruct b. Qed.

Lemma reads_plt matplotlib f a kw : reads (plt matplotlib f a kw).
Proof.
  intros w x w' H. unfold plt in H. injection H as _ <-.
  split_and!; try done. intros k v Hv. by left.
Qed.

Lemma reads_slice k s : reads (logs_slice k s).
Proof.
  unfold logs_slice. apply reads_bind; [apply reads_getitem|]. intros e.
  apply reads_bind; [apply reads_lift|]. intros l. apply reads_ret.
Qed.

Lemma finds_bind_l {A B} k (c : M A) (rest : A → M B) :
  finds k c → (∀ a, reads (rest a)) → finds k (bind c rest).
Proof.
  intros Hc Hrest w b w' H. apply bind_ok in H as (a & w1 & E & H).
  destruct (Hc _ _ _ E) as [v Hv]. exists v.
  by apply (Hrest _ _ _ _ H).
Qed.

Lemma finds_bind_r {A B} k (c : M A) (rest : A → M B) :
  (∀ a, finds k (rest a)) → finds k (bind c rest).
Proof.
  intros Hrest w b w' H. apply bind_ok in H as (a & w1 & E & H).
  by eapply Hrest.
Qed.

Lemma finds_slice k s : finds k (logs_slice k s).
Proof.
  unfold logs_slice. apply finds_bind_l; [apply finds_getitem|]. intros e.
  apply reads_bind; [apply reads_lift|]. intros l. apply reads_ret.
Qed.

Ltac solve_reads :=
  repeat first
    [ apply reads_bind; [|intros ?] | apply reads_getitem | apply reads_slice
    | apply reads_lift | apply reads_ret | apply reads_raise | apply reads_plt
    | apply reads_if ].

Ltac solve_finds :=
  repeat first
    [ apply finds_bind_l;
      [solve [apply finds_getitem | apply finds_slice] | intros ?; solve_reads]
    | apply finds_bind_r; intros ? ].

Lemma index_absent_raises x l :
  (∀ i, ¬ occurs_at x l i) → index x l = Raise ValueError.
Proof.
  intros H. destruct (index x l) as [i|e] eqn:E.
  - destruct (index_first _ _ _ E) as [Hi _]. by destruct (H i).
  - by rewrite (index_raises _ _ _ E).
Qed.

Section PlotRun.
Variable matplotlib : list call → call → result unit.

Local Abbreviation plot_run := (Logger.plot_run matplotlib).

(** [plot_run] that returns has printed nothing and kept every entry of
    the logs, and the six entries it reads are there afterwards: a
    defaultdict gained, as empty lists, those that were missing, and a
    plain dict is as it was. *)
Theorem plot_run_fills_missing_entries (run save_path : pyval) (w w' : world) :
  plot_run run save_path w = (Ok tt, w') →
  grown_from w w' ∧ ∀ k, k ∈ plot_run_keys → is_Some (entry (logs w') k).
Proof.
  intros H. split.
  - assert (R : reads (plot_run run save_path)).
    { unfold Logger.plot_run, chosen_run. solve_reads. }
    by eapply R.
  - intros k Hk.
    assert (F : finds k (plot_run run save_path)); [|by eapply F].
    unfold plot_run_keys in Hk.
    repeat (apply elem_of_cons in Hk as [->|Hk]);
      [..|by apply elem_of_nil in Hk];
      unfold Logger.plot_run; solve_finds.
Qed.

(** [plot_run] asked for a run that was never logged raises [ValueError]
    before it draws anything, and leaves the logger as it was, but for the
    [run] entry that a defaultdict without one has made. *)
Theorem plot_run_of_unknown_run (run save_path : pyval) (w : world)
  (runs : list pyval) :
  truthy run = true →
  entry_list (logs w) "run" = Some runs →
  (∀ i, ¬ occurs_at run runs i) →
  ∃ w', plot_run run save_path w = (Raise ValueError, w') ∧
        stdout w' = stdout w ∧ drawn w' = drawn w ∧
        (is_Some (entry (logs w) "run") → w' = w) ∧
        (entry (logs w) "run" = None →
         ∃ d, logs w = VDict true d ∧
              logs w' = VDict true (d ++ [("run", VList [])])).
Proof.
  intros Hrun Hruns Habsent.
  destruct w as [lg out dr]. simpl in *.
  unfold Logger.plot_run, bind, chosen_run, lift, ret, logs_getitem. simpl.
  unfold entry_list in Hruns. destruct lg as [| | | | |f d]; try discriminate.
  simpl. destruct (dict_get "run" d) as [e|] eqn:E.
  - destruct e as [| | | |l|]; try discriminate. injection Hruns as ->.
    rewrite Hrun. simpl. rewrite (index_absent_raises _ _ Habsent). simpl.
    eexists. by split_and!.
  - destruct f; [|discriminate]. injection Hruns as <-.
    rewrite Hrun. simpl. eexists. split_and!; try done.
    intros _. by exists d.
Qed.

End PlotRun.

Lemma plot_run_fills_missing_entries_witness :
  grown_from half_logged (Instance.plot_run VNone VNone half_logged).2 ∧
  ∀ k, k ∈ plot_run_keys →
       is_Some (entry (logs (Instance.plot_run VNone VNone half_logged).2) k).
Proof.
  apply (plot_run_fills_missing_entries Instance.matplotlib VNone VNone
           half_logged).
  vm_compute. reflexivity.
Defined.

Lemma plot_run_of_unknown_run_witness :
  ∃ w', Instance.plot_run (VInt 3) VNone (init VNone) = (Raise ValueError, w') ∧
        stdout w' = stdout (init VNone) ∧ drawn w' = drawn (init VNone) ∧
        (is_Some (entry (logs (init VNone)) "run") → w' = init VNone) ∧
        (entry (logs (init VNone)) "run" = None →
         ∃ d, logs (init VNone) = VDict true d ∧
              logs w' = VDict true (d ++ [("run", VList [])])).
Proof.
  apply (plot_run_of_unknown_run Instance.matplotlib (VInt 3) VNone
           (init VNone) []); [reflexivity | reflexivity |].
  intros i (y & Hy & _). discriminate Hy.
Defined.

(** A run that is missing from the run list of a new logger: the call
    raises, and the logger has an empty [run] entry it did not have. *)
Example plot_run_makes_run_entry :
  Instance.plot_run (VInt 3) VNone (init VNone)
  = (Raise ValueError, read_run_of_new).
Proof. reflexivity. Qed.

(** *** [print] *)

Lemma best_of_runs_each runs rs acc w x w' :
  best_of_runs runs rs acc w = (Ok x, w') →
  ∀ r, r ∈ rs → ∃ y, best_of_run runs r w = (Ok y, w).
Proof.
  revert acc. induction rs as [|r0 rs IH]; intros acc H r Hr.
  - by apply elem_of_nil in Hr.
  - simpl in H. apply bind_ok in H as (best & w1 & E & H).
    pose proof (best_of_run_ok _ _ _ _ _ E) as ->.
    apply elem_of_cons in Hr as [->|Hr]; [eauto|].
    destruct acc as [[[tl tr] vl] vr], best as [[[a b] c] d]. by eapply IH.
Qed.

Section PrintRuns.
Variable np_mean np_std : list pyval → result pyval.
Variable py_round : pyval → pyval → result pyval.

(** [print] raises when a run number between 1 and the greatest one logged
    has no entry in the run list: the runs must be numbered without gaps. *)
Theorem print_needs_every_run (round_to : pyval) (w : world)
  (runs : list pyval) (n r : Z) :
  entry (logs w) "run" = Some (VList runs) →
  py_max (VList runs) = Ok (VInt n) →
  (1 ≤ r ≤ n)%Z →
  (∀ i, ¬ occurs_at (VInt r) runs i) →
  ∃ e w', print np_mean np_std py_round round_to w = (Raise e, w').
Proof.
  intros Hruns Hmax Hr Habsent.
  destruct (print _ _ _ round_to w) as [[[]|e] w'] eqn:H; [|eauto].
  exfalso. unfold print in H.
  apply bind_ok in H as (runs_v & w1 & E & H).
  rewrite (logs_getitem_entry _ _ _ Hruns) in E. injection E as <- <-.
  apply bind_ok in H as (num_runs & w1 & E & H). apply lift_ok in E as [E ->].
  rewrite Hmax in E. injection E as <-.
  apply bind_ok in H as (rs & w1 & E & H). apply lift_ok in E as [E ->].
  injection E as <-.
  apply bind_ok in H as (runs' & w1 & E & H). apply lift_ok in E as [E ->].
  injection E as <-.
  apply bind_ok in H as (best & w1 & E & _).
  destruct (best_of_runs_each _ _ _ _ _ _ E r) as [y Hy].
  { apply list_elem_of_fmap. exists (Z.to_nat r). split; [lia|].
    apply elem_of_seq. lia. }
  unfold best_of_run in Hy. apply bind_ok in Hy as (i & w2 & Hi & _).
  apply lift_ok in Hi as [Hi _].
  destruct (index_first _ _ _ Hi) as [Hocc _]. by destruct (Habsent i).
Qed.

End PrintRuns.

Lemma print_needs_every_run_witness :
  ∃ e w',
    Instance.print VNone
      (World (VDict false [("run", VList [VInt 1; VInt 3])]) [] [])
    = (Raise e, w').
Proof.
  apply (print_needs_every_run Instance.np_mean Instance.np_std
           Instance.py_round VNone
           (World (VDict false [("run", VList [VInt 1; VInt 3])]) [] [])
           [VInt 1; VInt 3] 3 2); [reflexivity | reflexivity | lia |].
  intros i (y & Hy & Ey).
  do 2 (destruct i as [|i]; [simpl in Hy; injection Hy as <-; discriminate Ey|]).
  discriminate Hy.
Defined.

(** The epoch [print] takes for a run. *)

Lemma Qltb_inject_Z m n : Qltb (inject_Z m) (inject_Z n) = (m <? n)%Z.
Proof.
  unfold Qltb, Qcompare, inject_Z, Z.ltb. simpl. by rewrite !Z.mul_1_r.
Qed.

Lemma py_lt_numbers a b x y :
  as_number a = Ok x → as_number b = Ok y → py_lt a b = Ok (Qltb x y).
Proof.
  destruct a, b; simpl; try discriminate; intros [= <-] [= <-]; try done.
  by rewrite Qltb_inject_Z.
Qed.

Lemma rmap_length {A B} (f : A → result B) l ys :
  rmap f l = Ok ys → length ys = length l.
Proof.
  revert ys. induction l as [|a l IH]; intros ys; simpl; [by intros [= <-]|].
  destruct (f a); simpl; [|done]. destruct (rmap f l); simpl; [|done].
  intros [= <-]. simpl. f_equal. by apply IH.
Qed.

Lemma rmap_lookup {A B} (f : A → result B) l ys i a :
  rmap f l = Ok ys → l !! i = Some a → ∃ y, ys !! i = Some y ∧ f a = Ok y.
Proof.
  revert ys i. induction l as [|a0 l IH]; intros ys i; simpl; [done|].
  destruct (f a0) as [y0|] eqn:E0; simpl; [|done].
  destruct (rmap f l) as [ys0|]; simpl; [|done].
  intros [= <-]. destruct i as [|i]; simpl.
  - intros [= <-]. eauto.
  - by apply IH.
Qed.

Lemma argmin_key_spec keys xs :
  rmap as_number keys = Ok xs →
  ∀ m k best bv bx,
    k + m = length xs → best < k →
    keys !! best = Some bv → xs !! best = Some bx →
    (∀ j y, j < k → xs !! j = Some y → (bx <= y)%Q) →
    (∀ j y, j < best → xs !! j = Some y → (bx < y)%Q) →
    ∃ i x, argmin_key (item keys) best bv (seq k m) = Ok i ∧ first_min xs i x.
Proof.
  intros Hxs. pose proof (rmap_length _ _ _ Hxs) as Hlen.
  induction m as [|m IH]; intros k best bv bx Hk Hbest Hbv Hbx Hle Hlt.
  - simpl. exists best, bx. split; [done|]. split_and!; try done.
    intros y [j Hj]%list_elem_of_lookup_1. apply (Hle j); [|done].
    apply lookup_lt_Some in Hj. lia.
  - simpl. destruct (lookup_lt_is_Some_2 keys k) as [v Hv]; [lia|].
    destruct (rmap_lookup _ _ _ _ _ Hxs Hv) as (x & Hx & Hvx).
    destruct (rmap_lookup _ _ _ _ _ Hxs Hbv) as (bx' & Hbx' & Hbvx).
    assert (bx' = bx) as -> by congruence.
    unfold item at 1. rewrite Hv. simpl.
    rewrite (py_lt_numbers _ _ _ _ Hvx Hbvx). simpl.
    destruct (Qltb x bx) eqn:E.
    + apply Qltb_lt in E. apply (IH (S k) k v x); try done; try lia.
      * intros j y Hj Hy. destruct (decide (j = k)) as [->|Hne].
        -- assert (y = x) as -> by congruence. apply Qle_refl.
        -- eapply Qle_trans; [by apply Qlt_le_weak|]. apply (Hle j); [lia|done].
      * intros j y Hj Hy. eapply Qlt_le_trans; [exact E|]. by apply (Hle j).
    + apply Qltb_ge in E. apply (IH (S k) best bv bx); try done; try lia.
      intros j y Hj Hy. destruct (decide (j = k)) as [->|Hne].
      * by assert (y = x) as -> by congruence.
      * apply (Hle j); [lia|done].
Qed.

(** [min(range(len(l)), key=l.__getitem__)] on numbers: the first position
    of the least of them. *)
Lemma min_key_first_min keys xs :
  rmap as_number keys = Ok xs → xs ≠ [] →
  ∃ i x, min_key (item keys) (seq 0 (length keys)) = Ok i ∧ first_min xs i x.
Proof.
  intros Hxs Hne. pose proof (rmap_length _ _ _ Hxs) as Hlen.
  destruct keys as [|v keys]; [by injection Hxs as <-|].
  destruct xs as [|x xs]; [done|]. simpl.
  destruct (rmap_lookup _ _ _ 0 v Hxs eq_refl) as (x' & [= <-] & Hvx).
  apply (argmin_key_spec _ _ Hxs (length keys) 1 0 v x); try done.
  - simpl in *. lia.
  - intros [|j] y Hj; [|lia]. intros [= <-]. apply Qle_refl.
  - intros j y Hj. lia.
Qed.


Lemma item_ok l i x : item l i = Ok x → l !! i = Some x.
Proof. unfold item. destruct (l !! i); [by intros [= ->] | done]. Qed.

(** For one run, [print] takes the four metrics at one and the same epoch
    of the run: the first at which the validation loss of the run is
    lowest. *)
Theorem best_of_run_takes_lowest_valid_loss (runs : list pyval) (r : Z)
  (w w' : world) (s : slice) (tl tr vl vr : list pyval) (xs : list Q)
  (a b c d : pyval) :
  run_slice (VInt r) runs = Ok s →
  entry (logs w) "train_loss" = Some (VList tl) →
  entry (logs w) "train_roc" = Some (VList tr) →
  entry (logs w) "valid_loss" = Some (VList vl) →
  entry (logs w) "valid_roc" = Some (VList vr) →
  rmap as_number (get_slice vl s) = Ok xs →
  best_of_run runs r w = (Ok (a, b, c, d), w') →
  ∃ i x, first_min xs i x ∧
         get_slice tl s !! i = Some a ∧ get_slice tr s !! i = Some b ∧
         get_slice vl s !! i = Some c ∧ get_slice vr s !! i = Some d.
Proof.
  intros Hs Htl Htr Hvl Hvr Hxs H.
  unfold run_slice in Hs.
  apply rbind_ok in Hs as (first & Hfirst & Hs).
  apply rbind_ok in Hs as (j & Hj & [= <-]).
  unfold best_of_run in H.
  apply bind_ok in H as (first' & w1 & E & H). apply lift_ok in E as [E ->].
  rewrite Hfirst in E. injection E as <-.
  apply bind_ok in H as (j' & w1 & E & H). apply lift_ok in E as [E ->].
  rewrite Hj in E. injection E as <-.
  set (s := Slice first (length runs - j)) in *.
  apply bind_ok in H as (range_of & w1 & E & H).
  rewrite (logs_slice_entry _ s _ _ Hvl) in E. injection E as <- <-.
  apply bind_ok in H as (keys & w1 & E & H).
  rewrite (logs_slice_entry _ s _ _ Hvl) in E. injection E as <- <-.
  apply bind_ok in H as (best_idx & w1 & E & H). apply lift_ok in E as [Hmin ->].
  assert (Hne : xs ≠ []).
  { intros ->. apply rmap_length in Hxs.
    destruct (get_slice vl s); [discriminate Hmin | discriminate Hxs]. }
  destruct (min_key_first_min _ _ Hxs Hne) as (i & x & Hi & Hfm).
  rewrite Hi in Hmin. injection Hmin as <-.
  apply bind_ok in H as (tl' & w1 & E & H).
  rewrite (logs_slice_entry _ s _ _ Htl) in E. injection E as <- <-.
  apply bind_ok in H as (a' & w1 & E & H). apply lift_ok in E as [Ha ->].
  apply bind_ok in H as (tr' & w1 & E & H).
  rewrite (logs_slice_entry _ s _ _ Htr) in E. injection E as <- <-.
  apply bind_ok in H as (b' & w1 & E & H). apply lift_ok in E as [Hb ->].
  apply bind_ok in H as (vl' & w1 & E & H).
  rewrite (logs_slice_entry _ s _ _ Hvl) in E. injection E as <- <-.
  apply bind_ok in H as (c' & w1 & E & H). apply lift_ok in E as [Hc ->].
  apply bind_ok in H as (vr' & w1 & E & H).
  rewrite (logs_slice_entry _ s _ _ Hvr) in E. injection E as <- <-.
  apply bind_ok in H as (d' & w1 & E & H). apply lift_ok in E as [Hd ->].
  apply ret_ok in H as [[= <- <- <- <-] _].
  exists i, x. split_and!; [done|by apply item_ok..].
Qed.

Lemma best_of_run_takes_lowest_valid_loss_witness :
  ∃ i x, first_min [8 # 10; 1 # 1]%Q i x ∧
         get_slice [VFloat (9 # 10); VFloat (7 # 10)] (Slice 0 2) !! i
         = Some (VFloat (9 # 10)) ∧
         get_slice [VFloat (6 # 10); VFloat (7 # 10)] (Slice 0 2) !! i
         = Some (VFloat (6 # 10)) ∧
         get_slice [VFloat (8 # 10); VFloat (1 # 1)] (Slice 0 2) !! i
         = Some (VFloat (8 # 10)) ∧
         get_slice [VFloat (5 # 10); VFloat (6 # 10)] (Slice 0 2) !! i
         = Some (VFloat (5 # 10)).
Proof.
  apply (best_of_run_takes_lowest_valid_loss [VInt 1; VInt 1] 1
           (World Instance.one_run_log [] []) (World Instance.one_run_log [] []));
    reflexivity.
Defined.


(** *** What [print] prints *)

Lemma rmap_app_ok {A B} (f : A → result B) l1 l2 ys :
  rmap f (l1 ++ l2) = Ok ys →
  ∃ ys1 ys2, rmap f l1 = Ok ys1 ∧ rmap f l2 = Ok ys2 ∧ ys = ys1 ++ ys2.
Proof.
  revert ys. induction l1 as [|a l1 IH]; intros ys; simpl.
  - intros H. by exists [], ys.
  - destruct (f a) as [y|]; simpl; [|done].
    destruct (rmap f (l1 ++ l2)) as [ys0|] eqn:E; simpl; [|done].
    intros [= <-]. destruct (IH _ eq_refl) as (ys1 & ys2 & -> & -> & ->).
    by exists (y :: ys1), ys2.
Qed.

(** A slice of a list of numbers is a list of numbers. *)
Lemma rmap_get_slice {A} (f : pyval → result A) l ys s :
  rmap f l = Ok ys → ∃ xs, rmap f (get_slice l s) = Ok xs.
Proof.
  intros H. unfold get_slice.
  rewrite <-(take_drop (start s) l) in H.
  apply rmap_app_ok in H as (_ & ys2 & _ & H & _).
  rewrite <-(take_drop (stop s - start s) (drop (start s) l)) in H.
  apply rmap_app_ok in H as (xs & _ & H & _). eauto.
Qed.

(** One round of the loop of [print] that returns, on logs that hold the
    four metrics and numbers for validation losses, has taken the metrics
    of the run at its best epoch. *)
Lemma best_of_run_epoch (m : metrics) (losses : list Q) (r : Z) (w w' : world)
  (a b c d : pyval) :
  holds (logs w) m →
  rmap as_number (valid_losses m) = Ok losses →
  best_of_run (runs_logged m) r w = (Ok (a, b, c, d), w') →
  best_epoch m r (Best a b c d).
Proof.
  intros (_ & Htl & Htr & Hvl & Hvr) Hnum H.
  unfold best_of_run in H.
  apply bind_ok in H as (first & w1 & E & H). apply lift_ok in E as [Hfirst ->].
  apply bind_ok in H as (j & w1 & E & H). apply lift_ok in E as [Hj ->].
  assert (Hs : run_slice (VInt r) (runs_logged m)
               = Ok (Slice first (length (runs_logged m) - j))).
  { unfold run_slice. by rewrite Hfirst, Hj. }
  set (s := Slice first (length (runs_logged m) - j)) in *.
  destruct (rmap_get_slice _ _ _ s Hnum) as [xs Hxs].
  apply bind_ok in H as (range_of & w1 & E & H).
  rewrite (logs_slice_entry _ s _ _ Hvl) in E. injection E as <- <-.
  apply bind_ok in H as (keys & w1 & E & H).
  rewrite (logs_slice_entry _ s _ _ Hvl) in E. injection E as <- <-.
  apply bind_ok in H as (best_idx & w1 & E & H). apply lift_ok in E as [Hmin ->].
  assert (Hne : xs ≠ []).
  { intros ->. apply rmap_length in Hxs.
    destruct (get_slice (valid_losses m) s); [discriminate Hmin | discriminate Hxs]. }
  destruct (min_key_first_min _ _ Hxs Hne) as (i & x & Hi & Hfm).
  rewrite Hi in Hmin. injection Hmin as <-.
  apply bind_ok in H as (tl' & w1 & E & H).
  rewrite (logs_slice_entry _ s _ _ Htl) in E. injection E as <- <-.
  apply bind_ok in H as (a' & w1 & E & H). apply lift_ok in E as [Ha ->].
  apply bind_ok in H as (tr' & w1 & E & H).
  rewrite (logs_slice_entry _ s _ _ Htr) in E. injection E as <- <-.
  apply bind_ok in H as (b' & w1 & E & H). apply lift_ok in E as [Hb ->].
  apply bind_ok in H as (vl' & w1 & E & H).
  rewrite (logs_slice_entry _ s _ _ Hvl) in E. injection E as <- <-.
  apply bind_ok in H as (c' & w1 & E & H). apply lift_ok in E as [Hc ->].
  apply bind_ok in H as (vr' & w1 & E & H).
  rewrite (logs_slice_entry _ s _ _ Hvr) in E. injection E as <- <-.
  apply bind_ok in H as (d' & w1 & E & H). apply lift_ok in E as [Hd ->].
  apply ret_ok in H as [[= <- <- <- <-] _].
  exists s, xs, i, x. simpl.
  split_and!; [by apply run_slice_ok | done | done | by apply item_ok..].
Qed.

Lemma best_of_runs_lists runs rs tl0 tr0 vl0 vr0 w tls trs vls vrs w' :
  best_of_runs runs rs (tl0, tr0, vl0, vr0) w = (Ok (tls, trs, vls, vrs), w') →
  ∃ bests,
    Forall2 (λ r b, best_of_run runs r w
                    = (Ok (best_train_loss b, best_train_roc b,
                           best_valid_loss b, best_valid_roc b), w)) rs bests ∧
    tls = tl0 ++ map best_train_loss bests ∧
    trs = tr0 ++ map best_train_roc bests ∧
    vls = vl0 ++ map best_valid_loss bests ∧
    vrs = vr0 ++ map best_valid_roc bests.
Proof.
  revert tl0 tr0 vl0 vr0. induction rs as [|r rs IH]; intros tl0 tr0 vl0 vr0 H.
  - simpl in H. apply ret_ok in H as [[= <- <- <- <-] _].
    exists []. rewrite !app_nil_r. by split_and!.
  - simpl in H. apply bind_ok in H as (best & w1 & E & H).
    pose proof (best_of_run_ok _ _ _ _ _ E) as ->.
    destruct best as [[[a b] c] d].
    destruct (IH _ _ _ _ H) as (bests & Hall & -> & -> & -> & ->).
    exists (Best a b c d :: bests). simpl. rewrite <-!app_assoc.
    split_and!; try done. by constructor.
Qed.

Section PrintReport.
Variable np_mean np_std : list pyval → result pyval.
Variable py_round : pyval → pyval → result pyval.

Local Abbreviation reported := (Props.reported np_mean np_std py_round).

Lemma mean_std_ok l ms :
  mean_std np_mean np_std l = Ok ms →
  np_mean l = Ok ms.1 ∧ np_std l = Ok ms.2.
Proof.
  unfold mean_std. intros H.
  apply rbind_ok in H as (mean & Hmean & H).
  by apply rbind_ok in H as (std & Hstd & [= <-]).
Qed.

Lemma round_pair_ok round_to ms p :
  round_pair py_round round_to ms = Ok p →
  py_round ms.1 round_to = Ok p.1 ∧ py_round ms.2 round_to = Ok p.2.
Proof.
  unfold round_pair. intros H.
  apply rbind_ok in H as (mean & Hmean & H).
  by apply rbind_ok in H as (std & Hstd & [= <-]).
Qed.

(** [print] that returns, on logs that hold the run of every epoch, the
    four metrics and numbers for validation losses, has added five lines to
    the terminal: the greatest run number [n], and for each metric the
    [np.mean] and the [np.std], rounded when [round_to] is true, of its
    values at the best epochs of the runs 1 to [n]. *)
Theorem print_reports_the_runs (round_to : pyval) (w w' : world)
  (m : metrics) (losses : list Q) :
  holds (logs w) m →
  rmap as_number (valid_losses m) = Ok losses →
  print np_mean np_std py_round round_to w = (Ok tt, w') →
  ∃ n bests train_loss train_roc valid_loss valid_roc,
    py_max (VList (runs_logged m)) = Ok (VInt n) ∧
    length bests = Z.to_nat n ∧
    (∀ i b, bests !! i = Some b → best_epoch m (Z.of_nat (S i)) b) ∧
    reported round_to (map best_train_loss bests) train_loss ∧
    reported round_to (map best_train_roc bests) train_roc ∧
    reported round_to (map best_valid_loss bests) valid_loss ∧
    reported round_to (map best_valid_roc bests) valid_roc ∧
    stdout w' = stdout w ++ print_lines n train_loss train_roc valid_loss valid_roc.
Proof.
  intros Hholds Hnum H. pose proof Hholds as (Hruns & _).
  unfold print in H.
  apply bind_ok in H as (runs_v & w1 & Eruns & H).
  rewrite (logs_getitem_entry _ _ _ Hruns) in Eruns. injection Eruns as <- <-.
  apply bind_ok in H as (num_runs & w2 & E & H). apply lift_ok in E as [Hmax ->].
  apply bind_ok in H as (rs & w1 & E & H). apply lift_ok in E as [Hrs ->].
  destruct num_runs as [|n| | | |]; try discriminate Hrs. injection Hrs as <-.
  apply bind_ok in H as (runs & w1 & E & H). apply lift_ok in E as [Hseq ->].
  injection Hseq as <-.
  apply bind_ok in H as (best & w1 & E & H).
  pose proof (best_of_runs_ok _ _ _ _ _ _ E) as ->.
  destruct best as [[[tls trs] vls] vrs].
  apply best_of_runs_lists in E as (bests & Hbests & -> & -> & -> & ->).
  simpl in H.
  apply bind_ok in H as (tl & w1 & E & H). apply lift_ok in E as [Htl ->].
  apply bind_ok in H as (tr & w1 & E & H). apply lift_ok in E as [Htr ->].
  apply bind_ok in H as (vl & w1 & E & H). apply lift_ok in E as [Hvl ->].
  apply bind_ok in H as (vr & w1 & E & H). apply lift_ok in E as [Hvr ->].
  apply mean_std_ok in Htl as [Htl1 Htl2]. apply mean_std_ok in Htr as [Htr1 Htr2].
  apply mean_std_ok in Hvl as [Hvl1 Hvl2]. apply mean_std_ok in Hvr as [Hvr1 Hvr2].
  apply bind_ok in H as (rounded & w1 & E & H).
  destruct rounded as [[[a b] c] d].
  assert (Hrep : w1 = w ∧ reported round_to (map best_train_loss bests) a ∧
                 reported round_to (map best_train_roc bests) b ∧
                 reported round_to (map best_valid_loss bests) c ∧
                 reported round_to (map best_valid_roc bests) d).
  { unfold Props.reported. destruct (truthy round_to).
    - apply bind_ok in E as (a' & w2 & E' & E). apply lift_ok in E' as [Ha ->].
      apply bind_ok in E as (b' & w2 & E' & E). apply lift_ok in E' as [Hb ->].
      apply bind_ok in E as (c' & w2 & E' & E). apply lift_ok in E' as [Hc ->].
      apply bind_ok in E as (d' & w2 & E' & E). apply lift_ok in E' as [Hd ->].
      apply ret_ok in E as [[= <- <- <- <-] ->].
      apply round_pair_ok in Ha, Hb, Hc, Hd.
      split_and!; [done|eauto 10..].
    - apply ret_ok in E as [[= <- <- <- <-] ->].
      split_and!; [done|..]; eexists _, _; split_and!; try done;
        by apply surjective_pairing. }
  destruct Hrep as (-> & Ha & Hb & Hc & Hd). clear E.
  exists n, bests, a, b, c, d. split_and!; try done.
  - apply Forall2_length in Hbests.
    by rewrite <-Hbests, length_map, length_seq.
  - intros i bi Hi.
    destruct (Forall2_lookup_r _ _ _ _ _ Hbests Hi) as (r & Hr & Hrun).
    change (map ?f ?l) with (f <$> l) in Hr.
    rewrite list_lookup_fmap in Hr.
    destruct (seq 1 (Z.to_nat n) !! i) as [k|] eqn:Ek; [|done].
    apply lookup_seq in Ek as [-> _]. injection Hr as <-.
    destruct bi as [ba bb bc bd]. by eapply best_of_run_epoch.
  - unfold bind, py_print in H. simpl in H. injection H as <-. simpl.
    unfold print_lines. by rewrite <-!app_assoc.
Qed.

End PrintReport.

Lemma print_reports_the_runs_witness :
  ∃ n bests train_loss train_roc valid_loss valid_roc,
    py_max (VList (runs_logged one_run_metrics)) = Ok (VInt n) ∧
    length bests = Z.to_nat n ∧
    (∀ i b, bests !! i = Some b → best_epoch one_run_metrics (Z.of_nat (S i)) b) ∧
    reported Instance.np_mean Instance.np_std Instance.py_round (VInt 3)
      (map best_train_loss bests) train_loss ∧
    reported Instance.np_mean Instance.np_std Instance.py_round (VInt 3)
      (map best_train_roc bests) train_roc ∧
    reported Instance.np_mean Instance.np_std Instance.py_round (VInt 3)
      (map best_valid_loss bests) valid_loss ∧
    reported Instance.np_mean Instance.np_std Instance.py_round (VInt 3)
      (map best_valid_roc bests) valid_roc ∧
    stdout (Instance.print (VInt 3) (World Instance.one_run_log [] [])).2
    = [] ++ print_lines n train_loss train_roc valid_loss valid_roc.
Proof.
  apply (print_reports_the_runs Instance.np_mean Instance.np_std
           Instance.py_round (VInt 3) (World Instance.one_run_log [] [])
           _ one_run_metrics [8 # 10; 1 # 1]%Q).
  - by split_and!.
  - reflexivity.
  - vm_compute. reflexivity.
Defined.

(** *** [plot_metric] *)

(** What [mean_values] returns has one mean per epoch of the longest run,
    and the longest run has three epochs at least. *)
Lemma mean_values_length np_mean ml means :
  mean_values np_mean ml = Ok means →
  length means = list_max (map length ml) ∧ 3 ≤ length means.
Proof.
  unfold mean_values. intros H.
  destruct (zip_longest VNone ml !! 2) as [row|] eqn:E; [|done].
  apply rmap_length in H. rewrite length_map, length_insert in H.
  rewrite zip_longest_length in H. split; [done|].
  apply lookup_lt_Some in E. rewrite zip_longest_length in E. lia.
Qed.

Lemma length_get_slice l s : length (get_slice l s) ≤ stop s - start s.
Proof. unfold get_slice. rewrite length_take. lia. Qed.

(** A call of matplotlib that returns was added to the calls made, and
    changed nothing else. *)
Lemma plt_ok matplotlib f a kw w w' :
  plt matplotlib f a kw w = (Ok tt, w') →
  logs w' = logs w ∧ stdout w' = stdout w ∧
  drawn w' = drawn w ++ [Call f a kw].
Proof. unfold plt. by intros [= _ <-]. Qed.

Lemma logs_slice_drawn k s w l w' :
  logs_slice k s w = (Ok l, w') → grown_from w w' ∧ drawn w' = drawn w.
Proof.
  unfold logs_slice. intros H.
  apply bind_ok in H as (e & w1 & Hget & H).
  apply bind_ok in H as (l0 & w2 & Hseq & H).
  apply lift_ok in Hseq as [_ ->]. apply ret_ok in H as [_ ->].
  by apply logs_getitem_grows in Hget as (? & _ & ?).
Qed.

Lemma grown_from_plt matplotlib f a kw w w' :
  plt matplotlib f a kw w = (Ok tt, w') → grown_from w w'.
Proof. intros H. by eapply reads_plt. Qed.

Section PlotMetric.
Variable np_mean : list pyval → result pyval.
Variable matplotlib : list call → call → result unit.

Local Abbreviation run_line := (Plots.run_line matplotlib).
Local Abbreviation run_lines_of := (Plots.run_lines_of matplotlib).

(** The call that draws the line of a run. *)
Local Abbreviation line_call :=
  (λ c, Call "plt.plot" [py_range (x_points c); VList (y_values c)]
          [("color", VStr "lightgrey")]).

Lemma run_line_ok metric runs r w l w' :
  run_line metric runs r w = (Ok l, w') →
  ∃ c, y_values c = l ∧ drawn w' = drawn w ++ [line_call c] ∧
       length (y_values c) ≤ x_points c ∧ 0 < x_points c ∧ grown_from w w'.
Proof.
  unfold Plots.run_line. intros H.
  apply bind_ok in H as (run_start & w1 & E & H). apply lift_ok in E as [Hi ->].
  apply bind_ok in H as (j & w1 & E & H). apply lift_ok in E as [Hj ->].
  apply bind_ok in H as (m & w1 & E & H).
  apply bind_ok in H as ([] & w2 & Ep & H). apply ret_ok in H as [-> ->].
  assert (Hs : run_slice (VInt r) runs = Ok (Slice run_start (length runs - j))).
  { unfold run_slice. by rewrite Hi, Hj. }
  destruct (run_slice_ok _ _ _ Hs) as (Hf & _ & _ & _ & Hmax).
  pose proof (Hmax _ Hf) as Hlt. simpl in Hlt.
  pose proof (grown_from_plt _ _ _ _ _ _ Ep) as G2.
  apply plt_ok in Ep as (_ & _ & Hd).
  pose proof (logs_slice_drawn _ _ _ _ _ E) as [G1 Hd1].
  exists (Curve (length runs - j - run_start) m). simpl.
  split_and!; try done; [congruence| |lia|by eapply grown_from_trans].
  unfold logs_slice in E.
  apply bind_ok in E as (e & w3 & _ & E).
  apply bind_ok in E as (l & w4 & _ & E). apply ret_ok in E as [-> _].
  apply (length_get_slice l (Slice run_start (length runs - j))).
Qed.

Lemma run_lines_of_ok metric runs rs w ml w' :
  run_lines_of metric runs rs w = (Ok ml, w') →
  ∃ curves,
    map y_values curves = ml ∧ length curves = length rs ∧
    drawn w' = drawn w ++ map line_call curves ∧
    Forall (λ c, length (y_values c) ≤ x_points c ∧ 0 < x_points c) curves ∧
    grown_from w w'.
Proof.
  revert w ml w'. induction rs as [|r rs IH]; intros w ml w' H; simpl in H.
  - apply ret_ok in H as [-> ->]. exists []. simpl. rewrite app_nil_r.
    split_and!; try done. apply grown_from_refl.
  - apply bind_ok in H as (l & w1 & El & H).
    apply bind_ok in H as (ls & w2 & Els & H). apply ret_ok in H as [-> ->].
    destruct (run_line_ok _ _ _ _ _ _ El) as (c & Hc & Hd & Hlen & Hpos & G1).
    destruct (IH _ _ _ Els) as (cs & Hcs & Hlens & Hds & Hall & G2).
    exists (c :: cs). simpl. split_and!.
    + by rewrite Hc, Hcs.
    + by rewrite Hlens.
    + by rewrite Hds, Hd, <-app_assoc.
    + by constructor.
    + by eapply grown_from_trans.
Qed.

(** [plot_metric] that returns has drawn a figure with one grey line per
    run number up to the greatest, none with more values than its x axis
    has points; its mean line has one value per epoch of the longest of
    them, and three at least; and the figure is saved under the path
    given, if that is not empty, which then ends with [eps]. *)
Theorem plot_metric_figure (metric : string) (save_path : option string)
  (w w' : world) :
  Plots.plot_metric np_mean matplotlib metric save_path w = (Ok tt, w') →
  ∃ fig,
    drawn w' = drawn w ++ metric_figure metric fig ∧
    (∃ runs_v n, entry (logs w') "run" = Some runs_v ∧
                 py_max runs_v = Ok (VInt n) ∧
                 length (run_lines fig) = Z.to_nat n) ∧
    Forall (λ c, length (y_values c) ≤ x_points c ∧ 0 < x_points c)
           (run_lines fig) ∧
    length (y_values (mean_line fig))
    = list_max (map (λ c, length (y_values c)) (run_lines fig)) ∧
    3 ≤ length (y_values (mean_line fig)) ∧
    saved_to fig = save_target save_path ∧
    (∀ path, saved_to fig = Some path → endswith path "eps" = true).
Proof.
  unfold Plots.plot_metric. intros H.
  apply bind_ok in H as (runs_v & w1 & Eruns & H).
  apply logs_getitem_grows in Eruns as (G1 & K1 & D1).
  apply bind_ok in H as (num_runs & w2 & E & H). apply lift_ok in E as [Hmax ->].
  apply bind_ok in H as ([] & w2 & Efig & H).
  pose proof (grown_from_plt _ _ _ _ _ _ Efig) as G2.
  apply plt_ok in Efig as (_ & _ & D2).
  apply bind_ok in H as (rs & w3 & E & H). apply lift_ok in E as [Hrs ->].
  destruct num_runs as [|n| | | |]; try discriminate Hrs.
  injection Hrs as <-.
  apply bind_ok in H as (runs & w3 & E & H). apply lift_ok in E as [_ ->].
  apply bind_ok in H as (ml & w3 & Elines & H).
  destruct (run_lines_of_ok _ _ _ _ _ _ Elines)
    as (curves & Hml & Hlen & D3 & Hall & G3).
  rewrite length_map, length_seq in Hlen.
  apply bind_ok in H as (mean & w4 & E & H). apply lift_ok in E as [Hmean ->].
  destruct (mean_values_length _ _ _ Hmean) as [Hmlen H3].
  rewrite <-Hml, map_map in Hmlen.
  apply bind_ok in H as (epochs & w4 & Eep & H).
  apply logs_getitem_grows in Eep as (G4 & _ & D4).
  apply bind_ok in H as (last_epoch & w5 & E & H). apply lift_ok in E as [_ ->].
  apply bind_ok in H as (k & w5 & E & H). apply lift_ok in E as [_ ->].
  apply bind_ok in H as ([] & w5 & E5 & H).
  pose proof (grown_from_plt _ _ _ _ _ _ E5) as G5. apply plt_ok in E5 as (_ & _ & D5).
  apply bind_ok in H as ([] & w6 & E6 & H).
  pose proof (grown_from_plt _ _ _ _ _ _ E6) as G6. apply plt_ok in E6 as (_ & _ & D6).
  apply bind_ok in H as ([] & w7 & E7 & H).
  pose proof (grown_from_plt _ _ _ _ _ _ E7) as G7. apply plt_ok in E7 as (_ & _ & D7).
  apply bind_ok in H as ([] & w8 & E8 & H).
  pose proof (grown_from_plt _ _ _ _ _ _ E8) as G8. apply plt_ok in E8 as (_ & _ & D8).
  apply bind_ok in H as ([] & w9 & E9 & H).
  pose proof (grown_from_plt _ _ _ _ _ _ E9) as G9. apply plt_ok in E9 as (_ & _ & D9).
  apply bind_ok in H as ([] & w10 & Esave & H).
  pose proof (grown_from_plt _ _ _ _ _ _ H) as G11. apply plt_ok in H as (_ & _ & D11).
  assert (G : grown_from w1 w10 ∧
              drawn w10 = drawn w9 ++
                match save_target save_path with
                | Some path => [Call "plt.savefig" [VStr path] [("format", VStr "eps")]]
                | None => []
                end ∧
              ∀ path, save_target save_path = Some path → endswith path "eps" = true).
  { assert (G19 : grown_from w1 w9).
    { repeat (eapply grown_from_trans; [eassumption|]). apply grown_from_refl. }
    destruct save_path as [path|]; simpl in *.
    - destruct (String.eqb path "") eqn:Epath.
      + apply ret_ok in Esave as [_ ->]. by rewrite app_nil_r.
      + destruct (endswith path "eps") eqn:Eeps; [|discriminate Esave].
        pose proof (grown_from_plt _ _ _ _ _ _ Esave) as G10.
        apply plt_ok in Esave as (_ & _ & D10).
        split_and!; [by eapply grown_from_trans | done | by intros ? [= <-]].
    - apply ret_ok in Esave as [_ ->]. by rewrite app_nil_r. }
  destruct G as (G110 & D10 & Heps).
  exists (MetricPlot curves (Curve k mean) (save_target save_path)). simpl.
  split_and!; try done.
  - unfold metric_figure. simpl.
    rewrite D11, D10, D9, D8, D7, D6, D5, D4, D3, D2, D1.
    by rewrite <-!app_assoc.
  - exists runs_v, n. split_and!; try done.
    destruct G110 as (_ & He & _), G11 as (_ & He' & _). eauto.
Qed.

End PlotMetric.

Lemma plot_metric_figure_witness :
  ∃ fig,
    drawn (Props.plot_metric "valid_loss" (Some "loss.eps") two_runs_logged).2
    = drawn two_runs_logged ++ metric_figure "valid_loss" fig ∧
    (∃ runs_v n,
       entry (logs (Props.plot_metric "valid_loss" (Some "loss.eps")
                      two_runs_logged).2) "run" = Some runs_v ∧
       py_max runs_v = Ok (VInt n) ∧
       length (run_lines fig) = Z.to_nat n) ∧
    Forall (λ c, length (y_values c) ≤ x_points c ∧ 0 < x_points c)
           (run_lines fig) ∧
    length (y_values (mean_line fig))
    = list_max (map (λ c, length (y_values c)) (run_lines fig)) ∧
    3 ≤ length (y_values (mean_line fig)) ∧
    saved_to fig = save_target (Some "loss.eps") ∧
    (∀ path, saved_to fig = Some path → endswith path "eps" = true).
Proof.
  apply (plot_metric_figure Instance.np_mean Instance.matplotlib "valid_loss"
           (Some "loss.eps") two_runs_logged).
  vm_compute. reflexivity.
Defined.

(** The figure of two runs, of three epochs and of one. *)
Example plot_metric_of_two_runs :
  Props.plot_metric "valid_loss" (Some "loss.eps") two_runs_logged
  = (Ok tt,
     World (logs two_runs_logged) []
       (metric_figure "valid_loss" two_runs_figure)).
Proof. reflexivity. Qed.

(** *** Logs laid out by runs *)

Lemma rmap_Forall2 {A B} (f : A → result B) l ys :
  rmap f l = Ok ys → Forall2 (λ a y, f a = Ok y) l ys.
Proof.
  revert ys. induction l as [|a l IH]; intros ys; simpl.
  - intros [= <-]. constructor.
  - destruct (f a) as [y|] eqn:E; simpl; [|done].
    destruct (rmap f l) as [ys0|]; simpl; [|done].
    intros [= <-]. constructor; [done | by apply IH].
Qed.

(** A filter that keeps the positions from [a] up to [b] is the slice from
    [a] to [b]. *)
Lemma filter_span {A} (f : A → bool) (l : list A) a b :
  a ≤ b →
  (∀ i y, l !! i = Some y → f y = true ↔ a ≤ i < b) →
  List.filter f l = take (b - a) (drop a l).
Proof.
  intros Hab Hf.
  assert (Hsplit : l = take a l ++ take (b - a) (drop a l) ++ drop b l).
  { rewrite app_assoc, take_take_drop.
    replace (a + (b - a)) with b by lia. by rewrite take_drop. }
  rewrite Hsplit at 1. rewrite !List.filter_app.
  rewrite (filter_none f (take a l)), (filter_none f (drop b l)),
    (filter_all f (take (b - a) (drop a l))).
  - by rewrite app_nil_r.
  - intros i y Hi. apply lookup_take_Some in Hi as [Hi Hlt].
    rewrite lookup_drop in Hi. apply (Hf _ _ Hi). lia.
  - intros i y Hi. rewrite lookup_drop in Hi.
    destruct (f y) eqn:E; [|done]. apply (Hf _ _ Hi) in E. lia.
  - intros i y Hi. apply lookup_take_Some in Hi as [Hi Hlt].
    destruct (f y) eqn:E; [|done]. apply (Hf _ _ Hi) in E. lia.
Qed.

(** In a log laid out by runs, the slice of a run cuts out of the metric
    the values logged for that run. *)
Lemma values_of_run_slice (l : run_log) (r : Z) (s : slice) :
  run_slice (VInt r) (log_runs l) = Ok s →
  contiguous (VInt r) (log_runs l) →
  length (log_values l) = length (log_runs l) →
  get_slice (log_values l) s = values_of_run l r.
Proof.
  intros Hs Hcont Hlen.
  destruct (run_slice_ok _ _ _ Hs) as (Hf & Hmin & Hb & Hl & Hmax).
  unfold values_of_run, get_slice.
  rewrite (filter_span _ _ (start s) (stop s)).
  - rewrite fmap_take, fmap_drop, snd_zip; [done | lia].
  - pose proof (Hmax _ Hf). lia.
  - intros i [x v] Hi. apply lookup_zip_with_Some in Hi
      as (x' & v' & [= <- <-] & Hx & Hv). simpl. split.
    + intros E. assert (Hocc : occurs_at (VInt r) (log_runs l) i) by by exists x.
      pose proof (Hmin _ Hocc). pose proof (Hmax _ Hocc). lia.
    + intros Hi. destruct (Hcont (start s) i (stop s - 1) Hf Hl) as (y & Hy & Ey);
        [lia|]. congruence.
Qed.

Lemma entry_subscript v k x : entry v k = Some x → py_subscript v k = Ok x.
Proof.
  unfold entry, py_subscript. destruct v; try done. by intros ->.
Qed.

(** In a log laid out by runs, [run_metric] answers for each of its runs
    the values logged for that run. *)
Lemma run_metric_laid_out metric log (l : run_log) (r : Z) vals :
  laid_out metric log l →
  (1 ≤ r ≤ num_runs l)%Z →
  run_metric log metric r = Ok vals →
  vals = values_of_run l r.
Proof.
  intros (Hruns & Hvals & _ & _ & Hlen & Hcont) Hr H.
  unfold run_metric in H.
  rewrite (entry_subscript _ _ _ Hruns), (entry_subscript _ _ _ Hvals) in H.
  simpl in H.
  destruct (run_slice (VInt r) (log_runs l)) as [s|] eqn:Hs; [|done].
  simpl in H. injection H as <-.
  apply values_of_run_slice; auto.
Qed.

Lemma runs_of_laid_out metric log (l : run_log) :
  laid_out metric log l → runs_of log = Ok (run_numbers (num_runs l)).
Proof.
  intros (_ & _ & Hinfo & Hn & _). unfold runs_of.
  rewrite (entry_subscript _ _ _ Hinfo). simpl.
  by rewrite (entry_subscript _ _ _ Hn).
Qed.

Lemma run_metrics_laid_out metric log (l : run_log) rs ml :
  laid_out metric log l →
  Forall (λ r, 1 ≤ r ≤ num_runs l)%Z rs →
  rmap (run_metric log metric) rs = Ok ml →
  ml = map (values_of_run l) rs.
Proof.
  intros Hl Hrs H. apply rmap_Forall2 in H.
  induction H as [|r vals rs ml Hr _ IH]; [done|].
  apply Forall_cons in Hrs as [Hr1 Hrs]. simpl. f_equal; [|by apply IH].
  by eapply run_metric_laid_out.
Qed.

Lemma run_numbers_range n : Forall (λ r, 1 ≤ r ≤ n)%Z (run_numbers n).
Proof.
  apply Forall_forall. intros r [k [-> Hk]]%list_elem_of_fmap.
  apply elem_of_seq in Hk. lia.
Qed.

(** The mean [mean_values] returns for an epoch is the [np.mean] of the
    values the runs have at that epoch, when no value is [None]. *)
Lemma mean_values_lookup np_mean (ml : list (list pyval)) means e m :
  Forall (Forall (λ v, v ≠ VNone)) ml →
  mean_values np_mean ml = Ok means →
  means !! e = Some m →
  np_mean (omap (λ l : list pyval, l !! e) ml) = Ok m.
Proof.
  intros Hvals Hmeans He.
  destruct (mean_values_length _ _ _ Hmeans) as [Hlen H3].
  assert (Helt : e < list_max (map length ml)).
  { apply lookup_lt_Some in He. lia. }
  unfold mean_values in Hmeans.
  rewrite zip_longest_lookup in Hmeans by lia.
  assert (Hrow : (map (List.filter (λ v, match v with VNone => false | _ => true end))
                    (<[2 := map (λ l : list pyval, nth 2 l VNone) ml ++ [VNone]]>
                       (zip_longest VNone ml))) !! e
                 = Some (omap (λ l : list pyval, l !! e) ml)).
  { change (map ?f ?l) with (f <$> l). rewrite list_lookup_fmap.
    destruct (decide (e = 2)) as [->|Hne].
    - rewrite list_lookup_insert_eq by (rewrite zip_longest_length; lia).
      simpl. f_equal. rewrite List.filter_app. simpl. rewrite app_nil_r.
      by apply not_none_column.
    - rewrite list_lookup_insert_ne by done.
      rewrite zip_longest_lookup by done. simpl. f_equal.
      by apply not_none_column. }
  destruct (rmap_lookup _ _ _ _ _ Hmeans Hrow) as (m' & Hm' & Hmean).
  congruence.
Qed.

Lemma values_of_run_not_none (l : run_log) r :
  Forall (λ v, v ≠ VNone) (log_values l) →
  Forall (λ v, v ≠ VNone) (values_of_run l r).
Proof.
  rewrite !Forall_forall. intros Hall v Hv. apply Hall.
  unfold values_of_run in Hv.
  apply list_elem_of_fmap in Hv as ([x v'] & -> & Hin).
  apply list_elem_of_In, List.filter_In in Hin as [Hin _].
  apply list_elem_of_In in Hin. apply list_elem_of_lookup_1 in Hin as [i Hi].
  apply lookup_zip_with_Some in Hi as (x' & v'' & [= <- <-] & _ & Hv').
  by eapply list_elem_of_lookup_2.
Qed.

(** *** [plot_experiment_metric_curves] *)

Section ExperimentCurves.
Variable np_mean : list pyval → result pyval.
Variable document : Type.
Variable json_loads : document → option pyval.
Variable os_error : string → option exn.
Variable matplotlib : list call → call → result unit.

Local Abbreviation experiment_curve :=
  (Plots.experiment_curve np_mean matplotlib).

Lemma read_json_ok filepath (fs : gmap string (file document)) doc v v' :
  fs !! filepath = Some (Complete doc) →
  json_loads doc = Some v →
  read_json document json_loads os_error filepath fs = Ok v' → v' = v.
Proof.
  intros Hfile Hdoc. unfold read_json.
  destruct (os_error filepath); [done|]. rewrite Hfile, Hdoc. by intros [= <-].
Qed.

Lemma experiment_curve_ok metric log (l : run_log) w w' :
  laid_out metric log l →
  experiment_curve metric log w = (Ok tt, w') →
  ∃ c, curve_of_log np_mean l c ∧ drawn w' = drawn w ++ [c] ∧
       logs w' = logs w ∧ stdout w' = stdout w.
Proof.
  intros Hl H. unfold Plots.experiment_curve in H.
  apply bind_ok in H as (rs & w1 & E & H). apply lift_ok in E as [Hrs ->].
  rewrite (runs_of_laid_out _ _ _ Hl) in Hrs. injection Hrs as <-.
  apply bind_ok in H as (ml & w1 & E & H). apply lift_ok in E as [Hml ->].
  apply (run_metrics_laid_out _ _ _ _ _ Hl (run_numbers_range _)) in Hml.
  subst ml.
  apply bind_ok in H as (means & w1 & E & H). apply lift_ok in E as [Hmeans ->].
  apply bind_ok in H as (mt & w1 & E & H). apply lift_ok in E as [Hmt ->].
  apply plt_ok in H as (Hlogs & Hout & Hd).
  destruct (mean_values_length _ _ _ Hmeans) as [Hlen H3].
  rewrite map_map in Hlen.
  eexists. split; [|by split_and!].
  exists means, mt. split_and!; try done.
  - destruct Hl as (_ & _ & Hinfo & _). unfold info_of in Hmt.
    by rewrite (entry_subscript _ _ _ Hinfo) in Hmt.
  - intros Hnone e m He.
    assert (Hall : Forall (Forall (λ v, v ≠ VNone))
                     (map (values_of_run l) (run_numbers (num_runs l)))).
    { apply Forall_forall. intros vals [r [-> _]]%list_elem_of_fmap.
      by apply values_of_run_not_none. }
    rewrite <-(mean_values_lookup _ _ _ _ _ Hall Hmeans He).
    unfold column. f_equal. clear.
    induction (run_numbers (num_runs l)) as [|r rs IH]; [done|].
    change (map ?f (r :: rs)) with (f r :: map f rs).
    change (omap ?f (?x :: ?xs))
      with (match f x with Some y => y :: omap f xs | None => omap f xs end).
    by rewrite IH.
Qed.

Lemma experiment_curves_ok metric file_logs (layouts : list run_log) w w' :
  Forall2 (laid_out metric) file_logs layouts →
  for_each (experiment_curve metric) file_logs w = (Ok tt, w') →
  ∃ curves, Forall2 (curve_of_log np_mean) layouts curves ∧
            drawn w' = drawn w ++ curves ∧
            logs w' = logs w ∧ stdout w' = stdout w.
Proof.
  intros Hall. revert w. induction Hall as [|log l file_logs layouts Hl _ IH];
    intros w H.
  - injection H as <-. exists []. by rewrite app_nil_r.
  - rewrite for_each_cons in H.
    destruct (experiment_curve metric log w) as [[[]|e] w1] eqn:E; [|done].
    destruct (experiment_curve_ok _ _ _ _ _ Hl E) as (c & Hc & Hd & Hlogs & Hout).
    destruct (IH _ H) as (cs & Hcs & Hds & Hlogss & Houts).
    exists (c :: cs). split_and!; [by constructor| |congruence..].
    by rewrite Hds, Hd, <-app_assoc.
Qed.

(** On a file of logs laid out by runs, [plot_experiment_metric_curves],
    when it returns, has drawn one line per log of the file, in their
    order, each labelled with the model type of its log and with one mean
    per epoch of the longest run of that log, which has three epochs at
    least; then it has labelled the axes and shown the figure.  The logger
    is as it was. *)
Theorem experiment_curves_follow_the_logs (filepath metric : string)
  (fs : gmap string (file document)) (doc : document) (file_logs : list pyval)
  (layouts : list run_log) (w w' : world) :
  fs !! filepath = Some (Complete doc) →
  json_loads doc = Some (VList file_logs) →
  Forall2 (laid_out metric) file_logs layouts →
  Plots.plot_experiment_metric_curves np_mean document json_loads os_error
    matplotlib filepath metric fs w = (Ok tt, w') →
  ∃ curves,
    Forall2 (curve_of_log np_mean) layouts curves ∧
    drawn w' = drawn w ++ curves ++
               [Call "plt.xlabel" [VStr "Epoch"] [];
                Call "plt.ylabel" [VStr metric] [];
                Call "plt.legend" [] [];
                Call "plt.show" [] []] ∧
    logs w' = logs w ∧ stdout w' = stdout w.
Proof.
  intros Hfile Hdoc Hlaid H. unfold Plots.plot_experiment_metric_curves in H.
  apply bind_ok in H as (v & w1 & E & H). apply lift_ok in E as [Hread ->].
  apply (read_json_ok _ _ _ _ _ Hfile Hdoc) in Hread. subst v.
  apply bind_ok in H as (logs' & w1 & E & H). apply lift_ok in E as [[= <-] ->].
  apply bind_ok in H as ([] & w1 & Ecurves & H).
  destruct (experiment_curves_ok _ _ _ _ _ Hlaid Ecurves)
    as (curves & Hcurves & Hd & Hlogs & Hout).
  apply bind_ok in H as ([] & w2 & E2 & H). apply plt_ok in E2 as (L2 & O2 & D2).
  apply bind_ok in H as ([] & w3 & E3 & H). apply plt_ok in E3 as (L3 & O3 & D3).
  apply bind_ok in H as ([] & w4 & E4 & H). apply plt_ok in E4 as (L4 & O4 & D4).
  apply plt_ok in H as (L5 & O5 & D5).
  exists curves. split_and!; [done| |congruence..].
  rewrite D5, D4, D3, D2, Hd. by rewrite <-!app_assoc.
Qed.

End ExperimentCurves.

Lemma three_epoch_laid_out :
  Forall2 (laid_out "valid_loss") [three_epoch_log] [three_epoch_layout].
Proof.
  constructor; [|constructor]. split_and!; try done.
  intros r Hr i j k (y & Hy & _) (z & Hz & _) Hj.
  assert (r = 1%Z) as -> by (simpl in Hr; lia).
  apply lookup_lt_Some in Hz. simpl in Hz.
  do 3 (destruct j as [|j]; [by eexists|]). lia.
Qed.

Lemma experiment_curves_follow_the_logs_witness :
  ∃ curves,
    Forall2 (curve_of_log Instance.np_mean) [three_epoch_layout] curves ∧
    drawn (Props.plot_experiment_metric_curves "experiment.json" "valid_loss"
             three_epoch_files (init VNone)).2
    = drawn (init VNone) ++ curves ++
      [Call "plt.xlabel" [VStr "Epoch"] [];
       Call "plt.ylabel" [VStr "valid_loss"] [];
       Call "plt.legend" [] [];
       Call "plt.show" [] []] ∧
    logs (Props.plot_experiment_metric_curves "experiment.json" "valid_loss"
            three_epoch_files (init VNone)).2 = logs (init VNone) ∧
    stdout (Props.plot_experiment_metric_curves "experiment.json" "valid_loss"
              three_epoch_files (init VNone)).2 = stdout (init VNone).
Proof.
  apply (experiment_curves_follow_the_logs Instance.np_mean Json.document
           Json.loads Instance.os_error Instance.matplotlib
           "experiment.json" "valid_loss" three_epoch_files
           (Json.JArr [Json.to_json three_epoch_log]) [three_epoch_log]
           [three_epoch_layout] (init VNone)).
  - reflexivity.
  - reflexivity.
  - exact three_epoch_laid_out.
  - vm_compute. reflexivity.
Defined.

(** The line drawn for a log of one run of three epochs. *)
Example curve_of_three_epochs :
  drawn (Props.plot_experiment_metric_curves "experiment.json" "valid_loss"
           three_epoch_files (init VNone)).2
  = [Call "plt.plot"
       [py_range 3; VList [VFloat (1 # 2); VFloat (1 # 4); VFloat (1 # 3)]]
       [("label", VStr "GCN")];
     Call "plt.xlabel" [VStr "Epoch"] [];
     Call "plt.ylabel" [VStr "valid_loss"] [];
     Call "plt.legend" [] [];
     Call "plt.show" [] []].
Proof. reflexivity. Qed.

(** *** [plot_experiment_comparison] *)

Lemma last_run_numbers n : (1 ≤ n)%Z → last (run_numbers n) = Some n.
Proof.
  intros Hn. unfold run_numbers.
  destruct (Z.to_nat n) as [|k] eqn:E; [lia|].
  rewrite seq_S, map_app. simpl. rewrite last_snoc. f_equal. lia.
Qed.

(** The inner loop leaves in [best_value] what the last of the runs gave,
    and what it held before when there is no run. *)
Lemma compare_runs_value operator log metric rs mv bv mv' bv' :
  compare_runs operator log metric rs mv bv = Ok (mv', bv') →
  (rs = [] → mv' = mv ∧ bv' = bv) ∧ (rs ≠ [] → is_Some bv') ∧
  (is_Some bv → is_Some bv').
Proof.
  revert mv bv. induction rs as [|run rs IH]; intros mv bv; simpl.
  - intros [= <- <-]. by split_and!.
  - intros H. apply rbind_ok in H as (vals & Hvals & H).
    apply rbind_ok in H as (best & Hbest & H).
    destruct (IH _ _ H) as (_ & _ & Hsome).
    split_and!; [done|..]; intros _; apply Hsome; eauto.
Qed.

Lemma compare_runs_ok operator metric log (l : run_log) rs mv bv mv' bv' :
  laid_out metric log l →
  Forall (λ r, 1 ≤ r ≤ num_runs l)%Z rs →
  compare_runs operator log metric rs mv bv = Ok (mv', bv') →
  ∃ bests,
    Forall2 (λ r best, operator (VList (values_of_run l r)) = Ok best) rs bests ∧
    mv' = mv ++ bests ∧
    (∀ r, last rs = Some r →
          ∃ best, operator (VList (values_of_run l r)) = Ok best ∧
                  bv' = Some best).
Proof.
  intros Hl. revert mv bv. induction rs as [|run rs IH]; intros mv bv Hrs; simpl.
  - intros [= <- <-]. exists []. rewrite app_nil_r. by split_and!.
  - intros H. apply Forall_cons in Hrs as [Hrun Hrs].
    apply rbind_ok in H as (vals & Hvals & H).
    apply rbind_ok in H as (best & Hbest & H).
    apply (run_metric_laid_out _ _ _ _ _ Hl Hrun) in Hvals. subst vals.
    destruct (IH _ _ Hrs H) as (bests & Hbests & -> & Hlast).
    exists (best :: bests). split_and!.
    + by constructor.
    + by rewrite <-app_assoc.
    + intros r. rewrite last_cons. destruct (last rs) as [r'|] eqn:El.
      * intros [= <-]. by apply Hlast.
      * intros [= <-]. apply last_None in El. subst rs.
        injection H as _ <-. eauto.
Qed.

Lemma py_print_adds t a w :
  logs (py_print t a w).2 = logs w ∧
  stdout (py_print t a w).2 = stdout w ++ [Line t a] ∧
  drawn (py_print t a w).2 = drawn w.
Proof. done. Qed.

Section Comparison.
Variable np_mean : list pyval → result pyval.
Variable document : Type.
Variable json_loads : document → option pyval.
Variable os_error : string → option exn.
Variable matplotlib : list call → call → result unit.

Local Abbreviation compare_logs := (Plots.compare_logs np_mean matplotlib).
Local Abbreviation compare_log := (Plots.compare_log np_mean).
Local Abbreviation plot_experiment_comparison :=
  (Plots.plot_experiment_comparison np_mean document json_loads os_error
     matplotlib).

(** What the loop body hands to [plt.plot] and leaves in [best_value],
    for a log laid out by runs. *)
Lemma compare_log_ok metric comparitor bv log (l : run_log) p bv' :
  laid_out metric log l →
  compare_log (comparison_operator metric) metric comparitor bv log
  = Ok (p, bv') →
  point_of_log np_mean metric comparitor l
    (Call "plt.plot" [at_x p; at_y p]
       [("label", point_label p); ("marker", VStr "o")]) ∧
  info_of log "model_type" = Ok (point_label p) ∧
  py_subscript (log_info l) "model_type" = Ok (point_label p) ∧
  ((1 ≤ num_runs l)%Z →
   ∃ best, comparison_operator metric (VList (values_of_run l (num_runs l)))
           = Ok best ∧ bv' = Some best).
Proof.
  intros Hl H. unfold Plots.compare_log in H.
  apply rbind_ok in H as (rs & Hrs & H).
  rewrite (runs_of_laid_out _ _ _ Hl) in Hrs. injection Hrs as <-.
  apply rbind_ok in H as ([mv' bv''] & Hfound & H).
  apply rbind_ok in H as (x & Hx & H).
  apply rbind_ok in H as (y & Hy & H).
  apply rbind_ok in H as (mt & Hmt & [= <- <-]). simpl in *.
  destruct (compare_runs_ok _ _ _ _ _ _ _ _ _ Hl (run_numbers_range _) Hfound)
    as (bests & Hbests & -> & Hlast).
  assert (Hinfo : ∀ k v, info_of log k = Ok v → py_subscript (log_info l) k = Ok v).
  { intros k v. destruct Hl as (_ & _ & Hinfo & _). unfold info_of.
    by rewrite (entry_subscript _ _ _ Hinfo). }
  split_and!; try done.
  - exists x, bests, y, mt. split_and!; auto.
  - by apply Hinfo.
  - intros Hn. apply Hlast. by apply last_run_numbers.
Qed.

(** The loop over the logs, when no exception ended it. *)
Lemma compare_logs_ok metric comparitor file_logs (layouts : list run_log)
  bv w w' :
  Forall2 (laid_out metric) file_logs layouts →
  compare_logs (comparison_operator metric) metric comparitor bv file_logs w
  = (None, w') →
  ∃ points lines,
    Forall2 (point_of_log np_mean metric comparitor) layouts points ∧
    drawn w' = drawn w ++ points ∧
    stdout w' = stdout w ++ lines ∧
    length lines = length layouts ∧
    logs w' = logs w ∧
    (Forall (λ l, 1 ≤ num_runs l)%Z layouts →
     Forall2 (line_of_log metric) layouts lines).
Proof.
  intros Hall. revert bv w.
  induction Hall as [|log l file_logs layouts Hl _ IH]; intros bv w;
    cbn [Plots.compare_logs].
  - intros [= <-]. exists [], []. rewrite !app_nil_r. by split_and!.
  - destruct (Plots.compare_log _ _ _ _ _ _) as [[p bv']|e] eqn:Elog; [|done].
    destruct (plt matplotlib _ _ _ w) as [[[]|e] w1] eqn:Eplt; [|done].
    apply plt_ok in Eplt as (L1 & O1 & D1).
    destruct (compare_log_ok _ _ _ _ _ _ _ Hl Elog)
      as (Hpoint & Hmt & Hmt' & Hlast).
    rewrite Hmt. destruct bv' as [best|]; [|done].
    intros H. apply IH in H as (ps & ls & Hps & Hd & Hout & Hlen & Hlogs & Hls).
    destruct (py_print_adds "Model {0} {1}: {2}"
                [point_label p; VStr metric; best] w1) as (L2 & O2 & D2).
    eexists (_ :: ps), (_ :: ls). split_and!.
    + by constructor.
    + by rewrite Hd, D2, D1, <-app_assoc.
    + by rewrite Hout, O2, O1, <-app_assoc.
    + simpl. by rewrite Hlen.
    + congruence.
    + intros Hruns. apply Forall_cons in Hruns as [Hn Hruns].
      constructor; [|by apply Hls].
      destruct (Hlast Hn) as (best' & Hbest & [= <-]).
      by exists (point_label p), best.
Qed.

(** On a file of logs laid out by runs, [plot_experiment_comparison], when
    no exception ends it, has plotted for every log of the file one point,
    the mean over its runs of the best value of each run against the
    comparitor of the log, and has printed one line per log; for logs that
    all have a run, the line of a log gives the best value of its last
    run: the last found, not the best of the model. *)
Theorem comparison_prints_the_last_run (filepath metric comparitor : string)
  (fs : gmap string (file document)) (doc : document)
  (file_logs : list pyval) (layouts : list run_log) (w w' : world) :
  fs !! filepath = Some (Complete doc) →
  json_loads doc = Some (VList file_logs) →
  Forall2 (laid_out metric) file_logs layouts →
  plot_experiment_comparison filepath metric comparitor fs w = (None, w') →
  ∃ points lines,
    Forall2 (point_of_log np_mean metric comparitor) layouts points ∧
    drawn w' = drawn w ++ points ++
               [Call "plt.legend" [] []; Call "plt.show" [] []] ∧
    stdout w' = stdout w ++ lines ∧
    length lines = length layouts ∧
    logs w' = logs w ∧
    (Forall (λ l, 1 ≤ num_runs l)%Z layouts →
     Forall2 (line_of_log metric) layouts lines).
Proof.
  intros Hfile Hdoc Hlaid. unfold Plots.plot_experiment_comparison.
  destruct (read_json _ _ _ _ _) as [v|e] eqn:Hread; [|done].
  apply (read_json_ok _ _ _ _ _ _ _ _ Hfile Hdoc) in Hread. subst v. simpl.
  fold (comparison_operator metric).
  destruct (Plots.compare_logs _ _ _ _ _ _ _ _) as [[e|] w1] eqn:Hloop; [done|].
  destruct (compare_logs_ok _ _ _ _ _ _ _ Hlaid Hloop)
    as (ps & ls & Hps & Hd & Hout & Hlen & Hlogs & Hls).
  unfold ended.
  destruct ((plt matplotlib "plt.legend" [] [] ;;; plt matplotlib "plt.show" [] [])%logger w1)
    as [[[]|e] w2] eqn:Hend; [|done].
  intros [= <-].
  apply bind_ok in Hend as ([] & w3 & E3 & E4).
  apply plt_ok in E3 as (L3 & O3 & D3). apply plt_ok in E4 as (L4 & O4 & D4).
  exists ps, ls. split_and!; try done; try congruence.
  rewrite D4, D3, Hd. by rewrite <-!app_assoc.
Qed.

(** Once [best_value] is bound, it stays bound. *)
Lemma compare_logs_bound operator metric comparitor file_logs b w :
  (compare_logs operator metric comparitor (Some b) file_logs w).1
  ≠ Some UnboundLocalError.
Proof.
  revert b w. induction file_logs as [|log file_logs IH]; intros b w;
    cbn [Plots.compare_logs]; [done|].
  destruct (Plots.compare_log _ _ _ _ _ _) as [[p bv']|e] eqn:Elog; [|done].
  destruct (plt matplotlib _ _ _ w) as [[[]|e] w1]; [|done].
  destruct (info_of log "model_type") as [mt|e]; [|done].
  unfold Plots.compare_log in Elog.
  apply rbind_ok in Elog as (rs & Hrs & H).
  apply rbind_ok in H as ([mv' bv''] & Hfound & H).
  apply rbind_ok in H as (x & Hx & H).
  apply rbind_ok in H as (y & Hy & H).
  apply rbind_ok in H as (mt' & Hmt & [= <- <-]). simpl.
  destruct (compare_runs_value _ _ _ _ _ _ _ _ Hfound) as (_ & _ & Hsome).
  destruct (Hsome ltac:(eauto)) as [b' ->]. apply IH.
Qed.

(** [plot_experiment_comparison] is ended by [UnboundLocalError] only on
    the first log of the file, when that log has no run: its point was
    handed to [plt.plot], and nothing was printed. *)
Theorem comparison_of_no_run (filepath metric comparitor : string)
  (fs : gmap string (file document)) (w : world) :
  (plot_experiment_comparison filepath metric comparitor fs w).1
  = Some UnboundLocalError →
  ∃ experiment_logs log rest x y kw,
    read_json document json_loads os_error filepath fs = Ok experiment_logs ∧
    py_iter experiment_logs = Ok (log :: rest) ∧
    runs_of log = Ok [] ∧
    drawn (plot_experiment_comparison filepath metric comparitor fs w).2
    = drawn w ++ [Call "plt.plot" [x; y] kw] ∧
    stdout (plot_experiment_comparison filepath metric comparitor fs w).2
    = stdout w ∧
    logs (plot_experiment_comparison filepath metric comparitor fs w).2
    = logs w.
Proof.
  unfold Plots.plot_experiment_comparison.
  destruct (read_json _ _ _ _ _) as [v|e]; [|done].
  destruct (py_iter v) as [file_logs|e] eqn:Hiter; [|done].
  destruct (Plots.compare_logs _ _ _ _ _ _ _ _) as [[e|] w1] eqn:Hloop.
  2:{ unfold ended.
      by destruct ((plt matplotlib "plt.legend" [] [] ;;;
                    plt matplotlib "plt.show" [] [])%logger w1) as [[[]|?] ?]. }
  simpl. intros [= ->].
  destruct file_logs as [|log rest]; [done|]. cbn [Plots.compare_logs] in Hloop.
  destruct (Plots.compare_log _ _ _ _ _ _) as [[p bv']|e] eqn:Elog; [|done].
  destruct (plt matplotlib _ _ _ w) as [[[]|e] w2] eqn:Eplt; [|done].
  apply plt_ok in Eplt as (L2 & O2 & D2).
  destruct (info_of log "model_type") as [mt|e]; [|done].
  destruct bv' as [best|].
  - pose proof (compare_logs_bound
                  (if endswith metric "loss" then py_min else py_max)
                  metric comparitor rest best
                  (py_print "Model {0} {1}: {2}" [mt; VStr metric; best] w2).2)
      as Hb. by rewrite Hloop in Hb.
  - injection Hloop as <-.
    exists v, log, rest, (at_x p), (at_y p), [("label", point_label p); ("marker", VStr "o")].
    split_and!; try done.
    unfold Plots.compare_log in Elog.
    apply rbind_ok in Elog as (rs & Hrs & H).
    apply rbind_ok in H as ([mv' bv''] & Hfound & H).
    apply rbind_ok in H as (x & Hx & H).
    apply rbind_ok in H as (y & Hy & H).
    apply rbind_ok in H as (mt' & Hmt & [= _ Hnone]). simpl in Hnone.
    subst bv''.
    destruct (compare_runs_value _ _ _ _ _ _ _ _ Hfound) as (_ & Hne & _).
    destruct rs as [|r rs]; [done|]. by destruct (Hne ltac:(done)).
Qed.

End Comparison.

Lemma two_run_laid_out :
  Forall2 (laid_out "valid_loss") [two_run_log] [two_run_layout].
Proof.
  constructor; [|constructor]. split_and!; try done.
  intros r Hr i j k (y & Hy & Ey) (z & Hz & Ez) Hj. simpl in Hr.
  assert (r = 1 ∨ r = 2)%Z as [-> | ->] by lia.
  - do 2 (destruct k as [|k]; [by repeat (destruct j as [|j]; [by eexists|]); lia|]).
    do 2 (destruct k as [|k]; [by simplify_eq/=|]). done.
  - do 2 (destruct i as [|i]; [by simplify_eq/=|]).
    apply lookup_lt_Some in Hz. simpl in Hz.
    do 2 (destruct j as [|j]; [lia|]).
    do 2 (destruct j as [|j]; [by eexists|]). lia.
Qed.

Lemma comparison_prints_the_last_run_witness :
  ∃ points lines,
    Forall2 (point_of_log Instance.np_mean "valid_loss" "trainable_parameters")
      [two_run_layout] points ∧
    drawn (Props.plot_experiment_comparison "experiment.json" "valid_loss"
             "trainable_parameters" two_run_files (init VNone)).2
    = drawn (init VNone) ++ points ++
      [Call "plt.legend" [] []; Call "plt.show" [] []] ∧
    stdout (Props.plot_experiment_comparison "experiment.json" "valid_loss"
              "trainable_parameters" two_run_files (init VNone)).2
    = stdout (init VNone) ++ lines ∧
    length lines = length [two_run_layout] ∧
    logs (Props.plot_experiment_comparison "experiment.json" "valid_loss"
            "trainable_parameters" two_run_files (init VNone)).2
    = logs (init VNone) ∧
    (Forall (λ l, 1 ≤ num_runs l)%Z [two_run_layout] →
     Forall2 (line_of_log "valid_loss") [two_run_layout] lines).
Proof.
  apply (comparison_prints_the_last_run Instance.np_mean Json.document
           Json.loads Instance.os_error Instance.matplotlib
           "experiment.json" "valid_loss" "trainable_parameters" two_run_files
           (Json.JArr [Json.to_json two_run_log]) [two_run_log]
           [two_run_layout] (init VNone)).
  - reflexivity.
  - reflexivity.
  - exact two_run_laid_out.
  - vm_compute. reflexivity.
Defined.

(** Two runs whose lowest validation losses are [1/3] and [1/2]: the point
    is at their mean, the line printed gives [1/2]. *)
Example comparison_of_two_runs :
  Props.plot_experiment_comparison "experiment.json" "valid_loss"
    "trainable_parameters" two_run_files (init VNone)
  = (None,
     World (logs (init VNone))
       [Line "Model {0} {1}: {2}" [VStr "GCN"; VStr "valid_loss"; VFloat (1 # 2)]]
       [Call "plt.plot" [VInt 1200; VFloat (5 # 12)]
          [("label", VStr "GCN"); ("marker", VStr "o")];
        Call "plt.legend" [] [];
        Call "plt.show" [] []]).
Proof. reflexivity. Qed.

Lemma comparison_of_no_run_witness :
  ∃ experiment_logs log rest x y kw,
    read_json Json.document Json.loads Instance.os_error "experiment.json"
      no_run_files = Ok experiment_logs ∧
    py_iter experiment_logs = Ok (log :: rest) ∧
    runs_of log = Ok [] ∧
    drawn (Props.plot_experiment_comparison "experiment.json" "valid_loss"
             "trainable_parameters" no_run_files (init VNone)).2
    = drawn (init VNone) ++ [Call "plt.plot" [x; y] kw] ∧
    stdout (Props.plot_experiment_comparison "experiment.json" "valid_loss"
              "trainable_parameters" no_run_files (init VNone)).2
    = stdout (init VNone) ∧
    logs (Props.plot_experiment_comparison "experiment.json" "valid_loss"
            "trainable_parameters" no_run_files (init VNone)).2
    = logs (init VNone).
Proof.
  apply (comparison_of_no_run Instance.np_mean Json.document
           Json.loads Instance.os_error Instance.matplotlib
           "experiment.json" "valid_loss" "trainable_parameters" no_run_files
           (init VNone)).
  vm_compute. reflexivity.
Defined.

(** *** [plot_hyperparam_search] *)

Lemma dict_get_set_any {V} k (v : V) t d :
  dict_get t (dict_set k v d) = if bool_decide (t = k) then Some v else dict_get t d.
Proof.
  induction d as [|[k' v'] d IH]; simpl.
  - destruct (String.eqb_spec k t) as [->|Hne].
    + by rewrite bool_decide_eq_true_2.
    + by rewrite bool_decide_eq_false_2.
  - destruct (String.eqb_spec k' k) as [->|Hne]; simpl.
    + destruct (String.eqb_spec k t) as [->|Hne'].
      * by rewrite bool_decide_eq_true_2.
      * by rewrite bool_decide_eq_false_2.
    + destruct (String.eqb_spec k' t) as [->|Hne']; [|done].
      by rewrite bool_decide_eq_false_2.
Qed.

Lemma dict_get_snoc_any {V} k (v : V) t d :
  dict_get k d = None →
  dict_get t (d ++ [(k, v)]) = if bool_decide (t = k) then Some v else dict_get t d.
Proof.
  induction d as [|[k' v'] d IH]; simpl; intros Hk.
  - destruct (String.eqb_spec k t) as [->|Hne].
    + by rewrite bool_decide_eq_true_2.
    + by rewrite bool_decide_eq_false_2.
  - destruct (String.eqb_spec k' k) as [->|Hne]; [done|].
    destruct (String.eqb_spec k' t) as [->|Hne']; [|by apply IH].
    by rewrite bool_decide_eq_false_2.
Qed.

Lemma dict_set_keys {V} k (v : V) d :
  is_Some (dict_get k d) → (dict_set k v d).*1 = d.*1.
Proof.
  induction d as [|[k' v'] d IH]; simpl; [by intros [? ?]|].
  destruct (String.eqb_spec k' k) as [->|Hne]; [done|].
  intros H. simpl. f_equal. by apply IH.
Qed.

Lemma dict_get_None_keys {V} k (d : list (string * V)) :
  dict_get k d = None → k ∉ d.*1.
Proof.
  induction d as [|[k' v'] d IH]; simpl; [intros _; apply not_elem_of_nil|].
  destruct (String.eqb_spec k' k) as [->|Hne]; [done|].
  intros H. apply not_elem_of_cons. split; [done | by apply IH].
Qed.

Lemma dict_get_Some_keys {V} k (v : V) (d : list (string * V)) :
  dict_get k d = Some v → k ∈ d.*1.
Proof.
  induction d as [|[k' v'] d IH]; simpl; [done|].
  destruct (String.eqb_spec k' k) as [->|Hne]; [intros _; left|].
  intros H. right. by apply IH.
Qed.

(** One [append] to the local [params]: its value is the new last value
    of its name. *)
Lemma params_at_append k v params t :
  params_at t (params_append k v params)
  = params_at t params ++ if bool_decide (t = k) then [v] else [].
Proof.
  unfold params_append, params_at.
  destruct (dict_get k params) as [l|] eqn:E.
  - rewrite dict_get_set_any. case_bool_decide as Ht.
    + subst t. by rewrite E.
    + by rewrite app_nil_r.
  - rewrite dict_get_snoc_any by done. case_bool_decide as Ht.
    + subst t. by rewrite E.
    + by rewrite app_nil_r.
Qed.

Lemma params_append_keys k v params :
  NoDup params.*1 →
  NoDup (params_append k v params).*1 ∧
  ∀ t, t ∈ (params_append k v params).*1 ↔ t ∈ params.*1 ∨ t = k.
Proof.
  intros Hnd. unfold params_append.
  destruct (dict_get k params) as [l|] eqn:E.
  - rewrite dict_set_keys by (by rewrite E). split; [done|].
    intros t. split; [by left|]. intros [H| ->]; [done|].
    by eapply dict_get_Some_keys.
  - rewrite fmap_app. simpl. split.
    + apply NoDup_app. split_and!; [done| |apply NoDup_singleton].
      intros t Ht ->%list_elem_of_singleton.
      by apply dict_get_None_keys in E.
    + intros t. by rewrite elem_of_app, list_elem_of_singleton.
Qed.

Lemma filled_append k v params :
  filled params → filled (params_append k v params).
Proof.
  intros [Hnd Hkeys]. destruct (params_append_keys k v params Hnd) as [Hnd' Hk].
  split; [done|]. intros t. rewrite Hk, params_at_append, Hkeys.
  case_bool_decide as Ht.
  - split; [|by right]. intros _ H. by apply app_nil in H as [_ H].
  - rewrite app_nil_r. split; [by intros [H|H]|by left].
Qed.

Lemma params_items_ok items params :
  filled params →
  filled (foldl (λ ps kv, params_append kv.1 kv.2 ps) params items) ∧
  ∀ t, params_at t (foldl (λ ps kv, params_append kv.1 kv.2 ps) params items)
       = params_at t params
         ++ (List.filter (λ kv, bool_decide (kv.1 = t)) items).*2.
Proof.
  revert params. induction items as [|[k v] items IH]; intros params Hf; simpl.
  - split; [done|]. intros t. by rewrite app_nil_r.
  - destruct (IH _ (filled_append k v params Hf)) as [Hf' Hat].
    split; [done|]. intros t. rewrite Hat, params_at_append, <-app_assoc.
    f_equal. rewrite (bool_decide_ext (t = k) (k = t)) by done.
    by case_bool_decide.
Qed.

(** One round of the first loop: what joins [params] and [score]. *)
Lemma search_log_ok params score log params' score' :
  search_log (params, score) log = Ok (params', score') →
  filled params →
  filled params' ∧
  (∀ t, params_at t params'
        = params_at t params ++ param_values t log
          ++ if bool_decide (t = "lr") then first_lr log else []) ∧
  ∃ best, best_roc log best ∧ score' = score ++ [best].
Proof.
  unfold search_log. intros H Hf.
  apply rbind_ok in H as (info & Hinfo & H).
  apply rbind_ok in H as (items & Hitems & H).
  apply rbind_ok in H as (lr & Hlr & H).
  apply rbind_ok in H as (lr0 & Hlr0 & H).
  apply rbind_ok in H as (rocs & Hrocs & H).
  apply rbind_ok in H as (best & Hbest & [= <- <-]).
  destruct (params_items_ok items params Hf) as [Hf' Hat].
  split_and!.
  - by apply filled_append.
  - intros t. rewrite params_at_append, Hat, <-app_assoc.
    unfold param_values, first_lr. rewrite Hinfo, Hlr. simpl.
    rewrite Hitems, Hlr0. by case_bool_decide.
  - exists best. split; [|done]. unfold best_roc. by rewrite Hrocs.
Qed.

Lemma search_logs_ok file_logs params score params' score' :
  search_logs (params, score) file_logs = Ok (params', score') →
  filled params →
  filled params' ∧
  (∀ t, params_at t params' = params_at t params ++ collected t file_logs) ∧
  ∃ bests, Forall2 best_roc file_logs bests ∧ score' = score ++ bests.
Proof.
  revert params score. induction file_logs as [|log file_logs IH];
    intros params score; simpl.
  - intros [= <- <-] Hf. split_and!; [done|..].
    + intros t. by rewrite app_nil_r.
    + exists []. by rewrite app_nil_r.
  - intros H Hf. apply rbind_ok in H as ([ps sc] & Hlog & H).
    destruct (search_log_ok _ _ _ _ _ Hlog Hf) as (Hf1 & Hat1 & best & Hbest & ->).
    destruct (IH _ _ H Hf1) as (Hf2 & Hat2 & bests & Hbests & ->).
    split_and!; [done|..].
    + intros t. rewrite Hat2, Hat1. unfold collected. simpl.
      by rewrite <-!app_assoc.
    + exists (best :: bests). split; [by constructor|]. by rewrite <-app_assoc.
Qed.

(** The first loop returns on logs it can read. *)
Lemma search_logs_total file_logs acc :
  Forall searchable file_logs → ∃ found, search_logs acc file_logs = Ok found.
Proof.
  intros Hall. revert acc.
  induction Hall as [|log file_logs Hlog _ IH]; intros acc; simpl; [eauto|].
  destruct Hlog as ((items & Hitems) & (lr0 & Hlr) & (best & Hbest)).
  assert (Hthis : ∃ acc', search_log acc log = Ok acc').
  { destruct acc as [params score]. unfold search_log.
    apply rbind_ok in Hitems as (info & Hinfo & Hitems).
    apply rbind_ok in Hlr as (lr & Hlr & Hlr0).
    apply rbind_ok in Hbest as (rocs & Hrocs & Hbest).
    rewrite Hinfo. simpl. rewrite Hitems. simpl. rewrite Hlr. simpl.
    rewrite Hlr0. simpl. rewrite Hrocs. simpl. rewrite Hbest. simpl. eauto. }
  destruct Hthis as [acc' ->]. simpl. apply IH.
Qed.

Lemma filled_nil : filled [].
Proof. split; [constructor|]. intros k. split; [by intros ?%elem_of_nil|done]. Qed.

(** Handing two lists of calls, one after the other. *)
Lemma hand_app matplotlib h cs1 cs2 :
  hand matplotlib h (cs1 ++ cs2)
  = match hand matplotlib h cs1 with
    | (Ok _, h1) => hand matplotlib h1 cs2
    | r => r
    end.
Proof.
  revert h. induction cs1 as [|c cs1 IH]; intros h; simpl; [done|].
  destruct (matplotlib h c) as [[]|e]; [apply IH | done].
Qed.

Lemma handed_app matplotlib w cs1 cs2 :
  handed matplotlib w (cs1 ++ cs2)
  = match handed matplotlib w cs1 with
    | (Ok _, w1) => handed matplotlib w1 cs2
    | r => r
    end.
Proof.
  unfold handed. rewrite hand_app.
  by destruct (hand matplotlib (drawn w) cs1) as [[[]|e] h1].
Qed.

(** A call that matplotlib refuses whatever came before ends the handing
    of calls, if nothing ended it earlier. *)
Lemma hand_raises matplotlib c e0 h cs :
  (∀ h', matplotlib h' c = Raise e0) → c ∈ cs →
  ∃ e h1, hand matplotlib h cs = (Raise e, h1).
Proof.
  intros Hc. revert h. induction cs as [|c' cs IH]; intros h Hin; simpl.
  - by apply elem_of_nil in Hin.
  - destruct (matplotlib h c') as [[]|e] eqn:E; [|eauto].
    apply elem_of_cons in Hin as [<-|Hin]; [by rewrite Hc in E | by apply IH].
Qed.

Section HyperparamSearch.
Variable document : Type.
Variable json_loads : document → option pyval.
Variable os_error : string → option exn.
Variable matplotlib : list call → call → result unit.

Local Abbreviation plot_hyperparam_search :=
  (Plots.plot_hyperparam_search document json_loads os_error matplotlib).

Lemma draw_cloud_handed score p w :
  draw_cloud matplotlib score p w
  = handed matplotlib w (cloud_calls (cloud_of score p)).
Proof.
  destruct w as [lg out dr]. unfold draw_cloud, cloud_calls, cloud_of.
  cbn [title scatter_x scatter_y scatter_file].
  do 6 (apply plt_step; intros ?). apply plt_last.
Qed.

Lemma draw_clouds_handed score params w :
  for_each (draw_cloud matplotlib score) params w
  = handed matplotlib w (flat_map cloud_calls (map (cloud_of score) params)).
Proof.
  revert w. induction params as [|p params IH]; intros w.
  - by destruct w.
  - rewrite for_each_cons, draw_cloud_handed.
    change (flat_map cloud_calls (map (cloud_of score) (p :: params)))
      with (cloud_calls (cloud_of score p)
            ++ flat_map cloud_calls (map (cloud_of score) params)).
    rewrite handed_app.
    destruct (handed matplotlib w _) as [[[]|e] w1]; [apply IH | done].
Qed.

(** On a file the method can read, the method is the handing of the calls
    of the clouds of [params] against [score], as its first loop found
    them. *)
Lemma hyperparam_search_handed filepath (fs : gmap string (file document))
  doc file_logs w :
  os_error filepath = None →
  fs !! filepath = Some (Complete doc) →
  json_loads doc = Some (VList file_logs) →
  Forall searchable file_logs →
  ∃ params score,
    search_logs ([], []) file_logs = Ok (params, score) ∧
    plot_hyperparam_search filepath fs w
    = handed matplotlib w (flat_map cloud_calls (map (cloud_of score) params)).
Proof.
  intros Hos Hfile Hdoc Hall.
  destruct (search_logs_total file_logs ([], []) Hall) as [[params score] Hfound].
  exists params, score. split; [done|].
  unfold Plots.plot_hyperparam_search, bind, lift, read_json.
  rewrite Hos, Hfile, Hdoc. simpl. rewrite Hfound. simpl.
  apply draw_clouds_handed.
Qed.

(** On a file of logs it can read, [plot_hyperparam_search] hands to
    matplotlib the calls of one cloud after the other, until a call
    raises: one cloud per name met among the hyperparameters of the logs,
    and the cloud of [lr] when the file holds a log.  The x of a cloud are
    the values collected under its name, its y the best validation roc of
    each log, its file its name followed by [.eps]. *)
Theorem hyperparam_clouds (filepath : string)
  (fs : gmap string (file document)) (doc : document)
  (file_logs : list pyval) (w : world) :
  os_error filepath = None →
  fs !! filepath = Some (Complete doc) →
  json_loads doc = Some (VList file_logs) →
  Forall searchable file_logs →
  ∃ scatters,
    plot_hyperparam_search filepath fs w
    = handed matplotlib w (flat_map cloud_calls scatters) ∧
    NoDup (map title scatters) ∧
    (∀ k, k ∈ map title scatters ↔ collected k file_logs ≠ []) ∧
    (file_logs ≠ [] → "lr" ∈ map title scatters) ∧
    Forall (λ sc, scatter_x sc = collected (title sc) file_logs ∧
                  Forall2 best_roc file_logs (scatter_y sc) ∧
                  scatter_file sc = title sc +:+ ".eps") scatters.
Proof.
  intros Hos Hfile Hdoc Hall.
  destruct (hyperparam_search_handed _ _ _ _ w Hos Hfile Hdoc Hall)
    as (params & score & Hfound & Hrun).
  destruct (search_logs_ok _ _ _ _ _ Hfound filled_nil)
    as ([Hnd Hkeys] & Hat & bests & Hbests & Hscore).
  simpl in Hscore. subst score.
  assert (Htitles : map title (map (cloud_of bests) params) = params.*1).
  { rewrite map_map. done. }
  assert (Hmet : ∀ k, k ∈ params.*1 ↔ collected k file_logs ≠ []).
  { intros k. rewrite Hkeys, Hat. done. }
  exists (map (cloud_of bests) params). rewrite Htitles.
  split_and!; try done.
  - intros Hne. apply Hmet. destruct Hall as [|log rest Hlog _]; [done|].
    destruct Hlog as (_ & (lr0 & Hlr) & _).
    unfold collected, first_lr. simpl. rewrite Hlr.
    intros H. apply app_nil in H as [H _]. by apply app_nil in H as [_ H].
  - apply Forall_forall. intros sc [[k l] [-> Hin]]%list_elem_of_fmap. simpl.
    split_and!; try done.
    change (collected k file_logs) with (params_at k [] ++ collected k file_logs).
    rewrite <-(Hat k). unfold params_at.
    by rewrite (dict_get_NoDup _ _ _ Hnd Hin).
Qed.

Lemma first_lr_searchable log : searchable log → length (first_lr log) = 1.
Proof.
  intros (_ & (lr0 & E) & _). unfold first_lr. by rewrite E.
Qed.

Lemma collected_lr_cons log ls :
  length (collected "lr" (log :: ls))
  = length (param_values "lr" log) + length (first_lr log)
    + length (collected "lr" ls).
Proof.
  change (collected "lr" (log :: ls))
    with ((param_values "lr" log ++ first_lr log) ++ collected "lr" ls).
  by rewrite !length_app.
Qed.

Lemma collected_lr_length file_logs log :
  Forall searchable file_logs → log ∈ file_logs →
  param_values "lr" log ≠ [] →
  length file_logs < length (collected "lr" file_logs).
Proof.
  intros Hall Hin Hlr.
  assert (Hge : ∀ ls, Forall searchable ls →
                      length ls ≤ length (collected "lr" ls)).
  { intros ls Hls. induction Hls as [|l0 ls Hl0 _ IH]; [done|].
    rewrite collected_lr_cons, (first_lr_searchable _ Hl0). simpl. lia. }
  induction Hall as [|l0 ls Hl0 Hls IH]; [by apply elem_of_nil in Hin|].
  pose proof (Hge _ Hls) as Hrest.
  rewrite collected_lr_cons, (first_lr_searchable _ Hl0). simpl.
  apply elem_of_cons in Hin as [<-|Hin].
  - destruct (param_values "lr" log); [done|]. simpl. lia.
  - specialize (IH Hin). lia.
Qed.

(** When a log of the search lists [lr] among its hyperparameters, the
    cloud of [lr] has more x than y, and [plot_hyperparam_search] raises
    on a matplotlib whose [plt.scatter] refuses an x and a y of different
    sizes: the logger is as it was. *)
Theorem lr_cloud_is_lopsided (filepath : string)
  (fs : gmap string (file document)) (doc : document)
  (file_logs : list pyval) (log : pyval) (w : world) :
  scatter_checks matplotlib →
  os_error filepath = None →
  fs !! filepath = Some (Complete doc) →
  json_loads doc = Some (VList file_logs) →
  Forall searchable file_logs →
  log ∈ file_logs → param_values "lr" log ≠ [] →
  length file_logs < length (collected "lr" file_logs) ∧
  ∃ e w', plot_hyperparam_search filepath fs w = (Raise e, w') ∧
          logs w' = logs w ∧ stdout w' = stdout w.
Proof.
  intros Hchecks Hos Hfile Hdoc Hall Hin Hlr.
  pose proof (collected_lr_length _ _ Hall Hin Hlr) as Hlen.
  split; [done|].
  destruct (hyperparam_search_handed _ _ _ _ w Hos Hfile Hdoc Hall)
    as (params & score & Hfound & ->).
  destruct (search_logs_ok _ _ _ _ _ Hfound filled_nil)
    as ([Hnd Hkeys] & Hat & bests & Hbests & Hscore).
  simpl in Hscore. subst score.
  assert (Hkey : "lr" ∈ params.*1).
  { apply Hkeys. rewrite Hat. simpl. intros H. rewrite H in Hlen. simpl in Hlen. lia. }
  apply list_elem_of_fmap in Hkey as [[k l] [Hk Hl]]. simpl in Hk. subst k.
  assert (l = collected "lr" file_logs) as ->.
  { change (collected "lr" file_logs)
      with (params_at "lr" [] ++ collected "lr" file_logs).
    rewrite <-(Hat "lr"). unfold params_at.
    by rewrite (dict_get_NoDup _ _ _ Hnd Hl). }
  destruct (hand_raises matplotlib
              (Call "plt.scatter" [VList (collected "lr" file_logs); VList bests] [])
              ValueError (drawn w)
              (flat_map cloud_calls (map (cloud_of bests) params)))
    as (e & h1 & Hhand).
  - intros h'. apply Hchecks. apply Forall2_length in Hbests. lia.
  - apply list_elem_of_In, in_flat_map.
    exists (cloud_of bests ("lr", collected "lr" file_logs)). split.
    + apply list_elem_of_In, list_elem_of_fmap. by eexists.
    + left. done.
  - exists e, (World (logs w) (stdout w) h1). unfold handed. by rewrite Hhand.
Qed.

End HyperparamSearch.

Lemma instance_scatter_checks : scatter_checks Instance.matplotlib.
Proof.
  intros h x y kw Hne. unfold Instance.matplotlib. simpl.
  destruct (Nat.eqb_spec (length x) (length y)); done.
Qed.

Lemma layers_searchable :
  Forall searchable [layers_log_of 2 (3 # 5); layers_log_of 3 (7 # 10)].
Proof.
  repeat constructor; eexists; reflexivity.
Qed.

Lemma search_searchable :
  Forall searchable [search_log_of (1 # 100) (3 # 5);
                     search_log_of (1 # 10) (7 # 10)].
Proof.
  repeat constructor; eexists; reflexivity.
Qed.

Lemma hyperparam_clouds_witness :
  ∃ scatters,
    Props.plot_hyperparam_search "search.json" layers_files (init VNone)
    = handed Instance.matplotlib (init VNone) (flat_map cloud_calls scatters) ∧
    NoDup (map title scatters) ∧
    (∀ k, k ∈ map title scatters
          ↔ collected k [layers_log_of 2 (3 # 5); layers_log_of 3 (7 # 10)] ≠ []) ∧
    ([layers_log_of 2 (3 # 5); layers_log_of 3 (7 # 10)] ≠ [] →
     "lr" ∈ map title scatters) ∧
    Forall (λ sc, scatter_x sc
                  = collected (title sc)
                      [layers_log_of 2 (3 # 5); layers_log_of 3 (7 # 10)] ∧
                  Forall2 best_roc
                    [layers_log_of 2 (3 # 5); layers_log_of 3 (7 # 10)]
                    (scatter_y sc) ∧
                  scatter_file sc = title sc +:+ ".eps") scatters.
Proof.
  apply (hyperparam_clouds Json.document Json.loads Instance.os_error
           Instance.matplotlib "search.json" layers_files
           (Json.JArr [Json.to_json (layers_log_of 2 (3 # 5));
                       Json.to_json (layers_log_of 3 (7 # 10))])
           [layers_log_of 2 (3 # 5); layers_log_of 3 (7 # 10)] (init VNone)).
  - reflexivity.
  - reflexivity.
  - reflexivity.
  - exact layers_searchable.
Defined.

(** The clouds of two searches over the number of layers: every call
    returns, and the learning rate has its cloud although no log lists it
    among its hyperparameters. *)
Example clouds_of_two_searches :
  Props.plot_hyperparam_search "search.json" layers_files (init VNone)
  = (Ok tt, World (logs (init VNone)) [] (flat_map cloud_calls layers_clouds)).
Proof. reflexivity. Qed.

Lemma lr_cloud_is_lopsided_witness :
  length [search_log_of (1 # 100) (3 # 5); search_log_of (1 # 10) (7 # 10)]
  < length (collected "lr" [search_log_of (1 # 100) (3 # 5);
                            search_log_of (1 # 10) (7 # 10)]) ∧
  ∃ e w', Props.plot_hyperparam_search "search.json" search_files (init VNone)
          = (Raise e, w') ∧
          logs w' = logs (init VNone) ∧ stdout w' = stdout (init VNone).
Proof.
  apply (lr_cloud_is_lopsided Json.document Json.loads Instance.os_error
           Instance.matplotlib "search.json" search_files
           (Json.JArr [Json.to_json (search_log_of (1 # 100) (3 # 5));
                       Json.to_json (search_log_of (1 # 10) (7 # 10))])
           [search_log_of (1 # 100) (3 # 5); search_log_of (1 # 10) (7 # 10)]
           (search_log_of (1 # 100) (3 # 5)) (init VNone)).
  - exact instance_scatter_checks.
  - reflexivity.
  - reflexivity.
  - reflexivity.
  - exact search_searchable.
  - left.
  - vm_compute. discriminate.
Defined.

(** Two searches that list [lr] among their hyperparameters: four x for
    two y, and [plt.scatter] raises at the first cloud. *)
Example search_over_lr_raises :
  Props.plot_hyperparam_search "search.json" search_files (init VNone)
  = (Raise ValueError,
     World (logs (init VNone)) []
       [Call "plt.scatter"
          [VList [VFloat (1 # 100); VFloat (1 # 100);
                  VFloat (1 # 10); VFloat (1 # 10)];
           VList [VFloat (3 # 5); VFloat (7 # 10)]] []]).
Proof. reflexivity. Qed.

(** *** The figure of [plot_run] *)

Section RunFigure.
Variable matplotlib : list call → call → result unit.

Local Abbreviation plot_run := (Logger.plot_run matplotlib).

(** Asked for a run that was logged, on logs whose five metrics were
    logged alongside the runs, [plot_run] hands matplotlib the figure of
    the five metrics cut by the span of that run, up to the first call
    that raises, and does nothing else; when the epochs of the run are
    next to one another each curve has one value per epoch of the run. *)
Theorem plot_run_draws_the_run (run save_path : pyval) (w : world)
  (runs : list pyval) :
  truthy run = true →
  entry (logs w) "run" = Some (VList runs) →
  (∃ i, occurs_at run runs i) →
  logged_alongside w runs curve_keys →
  ∃ s tl vl lr tr vr,
    spans run runs s ∧
    entry (logs w) "train_loss" = Some (VList tl) ∧
    entry (logs w) "valid_loss" = Some (VList vl) ∧
    entry (logs w) "lr" = Some (VList lr) ∧
    entry (logs w) "train_roc" = Some (VList tr) ∧
    entry (logs w) "valid_roc" = Some (VList vr) ∧
    plot_run run save_path w
    = handed matplotlib w
        (run_figure (get_slice tl s) (get_slice vl s) (get_slice lr s)
           (get_slice tr s) (get_slice vr s) save_path) ∧
    (contiguous run runs →
     Forall (λ c, length c = length (List.filter (λ y, py_eq y run) runs))
       [get_slice tl s; get_slice vl s; get_slice lr s; get_slice tr s;
        get_slice vr s]).
Proof.
  intros Hrun Hruns [i0 Hocc] Hlogged.
  destruct (run_slice_total _ _ _ Hocc) as [s Hs].
  destruct (Hlogged "train_loss") as (tl & Htl & Ltl);
    [apply (bool_decide_unpack _); vm_compute; exact I|].
  destruct (Hlogged "valid_loss") as (vl & Hvl & Lvl);
    [apply (bool_decide_unpack _); vm_compute; exact I|].
  destruct (Hlogged "lr") as (lr & Hlr & Llr);
    [apply (bool_decide_unpack _); vm_compute; exact I|].
  destruct (Hlogged "train_roc") as (tr & Htr & Ltr);
    [apply (bool_decide_unpack _); vm_compute; exact I|].
  destruct (Hlogged "valid_roc") as (vr & Hvr & Lvr);
    [apply (bool_decide_unpack _); vm_compute; exact I|].
  exists s, tl, vl, lr, tr, vr. split_and!; try done.
  - by apply run_slice_ok.
  - apply (plot_run_draws matplotlib run run save_path w runs); try done.
    unfold chosen_run. by rewrite Hrun.
  - intros Hcont. pose proof (run_slice_cut _ _ _ Hs Hcont) as Hcut.
    repeat constructor; rewrite <-Hcut; by apply get_slice_same_length.
Qed.

End RunFigure.

Lemma plot_run_draws_the_run_witness :
  ∃ s tl vl lr tr vr,
    spans (VInt 2) [VInt 1; VInt 1; VInt 2; VInt 2] s ∧
    entry (logs two_by_two) "train_loss" = Some (VList tl) ∧
    entry (logs two_by_two) "valid_loss" = Some (VList vl) ∧
    entry (logs two_by_two) "lr" = Some (VList lr) ∧
    entry (logs two_by_two) "train_roc" = Some (VList tr) ∧
    entry (logs two_by_two) "valid_roc" = Some (VList vr) ∧
    Instance.plot_run (VInt 2) (VStr "run.eps") two_by_two
    = handed Instance.matplotlib two_by_two
        (run_figure (get_slice tl s) (get_slice vl s) (get_slice lr s)
           (get_slice tr s) (get_slice vr s) (VStr "run.eps")) ∧
    (contiguous (VInt 2) [VInt 1; VInt 1; VInt 2; VInt 2] →
     Forall (λ c, length c
                  = length (List.filter (λ y, py_eq y (VInt 2))
                              [VInt 1; VInt 1; VInt 2; VInt 2]))
       [get_slice tl s; get_slice vl s; get_slice lr s; get_slice tr s;
        get_slice vr s]).
Proof.
  apply (plot_run_draws_the_run Instance.matplotlib (VInt 2) (VStr "run.eps")
           two_by_two [VInt 1; VInt 1; VInt 2; VInt 2]);
    [reflexivity | reflexivity | |].
  - exists 2. eexists. split; reflexivity.
  - intros k Hk. unfold curve_keys in Hk.
    repeat (apply elem_of_cons in Hk as [->|Hk]);
      [..|by apply elem_of_nil in Hk]; eexists; split; reflexivity.
Defined.

(** The figure of the second of two runs of two epochs: every call
    returns, and the logger is as it was. *)
Example plot_run_of_second_run :
  Instance.plot_run (VInt 2) (VStr "run.eps") two_by_two
  = (Ok tt,
     World (logs two_by_two) []
       (run_figure [VFloat (8 # 10); VFloat (6 # 10)]
          [VFloat (3 # 4); VFloat (1 # 2)]
          [VFloat (1 # 10); VFloat (1 # 100)]
          [VFloat (5 # 10); VFloat (7 # 10)]
          [VFloat (4 # 10); VFloat (6 # 10)] (VStr "run.eps"))).
Proof. reflexivity. Qed.

End MoreFacts.
